(** * The file transform cache of jspm-cli (src/lib/map, class FileTransformCache)

    A shallow embedding of the incremental transform cache: the per-file
    record with its two promise slots, the worker pool with its wait queue,
    the resolve-map construction and the request coordinator [get].

    Modelling conventions.
    - JavaScript [string | void] is [option string]; [number | void] is
      [option Z].  The store of handles, an object whose keys are file
      paths, is a [gmap]; the resolve map, an object whose keys are the
      specifiers found in a source, is a [gmap] of own properties with the
      state of its prototype, which an assignment to [__proto__] changes.
    - Record objects are shared by reference (the store, the workers and
      the watchers all point at the same object), so records live in a heap
      indexed by an identity and everything else holds the identity.
    - Turns do not overlap: a call runs on from each [await] of a value
      that is settled, and nothing else runs in between.  What is proved
      of one call, or by an invariant that every step of every call
      keeps, does not depend on this; nothing is proved of requests that
      run interleaved.
    - An [async] function is a state transformer with three outcomes: it
      returns, it throws (the promise rejects), or it is left suspended on
      something nobody settles during the turn (a seat in the wait queue, a
      pending promise).  A turn is one top-level entry (a [get], a watcher
      event, a timer) run up to that point; the peers of the process (file
      system, resolver, workers) answer through the oracles of [World].
    - Node's [crypto], [path] and the builtin table are parameters
      ([Platform]); nothing is assumed about them except where a lemma says
      so. *)

From Stdlib Require Import ZArith String Ascii List Lia Bool.
From stdpp Require Import gmap strings list.

Open Scope string_scope.
Open Scope Z_scope.

(** ** JavaScript values used by the class *)

(** An [Error] object: its message and the [code] property the class tags
    some errors with. *)
Record JsError := mkError { message : string; code : option string }.

Definition Error (msg : string) : JsError := mkError msg None.
Definition withCode (c : string) (e : JsError) : JsError :=
  mkError (message e) (Some c).

Global Instance JsError_eq_dec : EqDecision JsError.
Proof. solve_decision. Defined.

(** The result of a call that may throw. *)
Inductive Settled (A : Type) : Type :=
| Ok (a : A)
| Err (e : JsError).
Arguments Ok {A} a.
Arguments Err {A} e.

(** A promise as the turn that looks at it sees it. *)
Inductive Promise (A : Type) : Type :=
| Fulfilled (a : A)
| Rejected (e : JsError)
| Pending.
Arguments Fulfilled {A} a.
Arguments Rejected {A} e.
Arguments Pending {A}.

(** [s.endsWith(t)], [s.startsWith(t)], [s.substr(0, n)]. *)
Definition startsWith (s t : string) : bool := String.prefix t s.

Definition endsWith (s t : string) : bool :=
  (String.length t <=? String.length s)%nat &&
  String.eqb (substring (String.length s - String.length t) (String.length t) s) t.

Definition substr0 (s : string) (n : nat) : string := substring 0 n s.

(** The last character of a string, [s[s.length - 1]]. *)
Definition lastChar (s : string) : option ascii :=
  String.get (String.length s - 1) s.

(** [s.replace(winSepRegEx, '/')] with [winSepRegEx = /\\/g]. *)
Fixpoint replaceWinSep (s : string) : string :=
  match s with
  | EmptyString => EmptyString
  | String c rest =>
      String (if Ascii.eqb c "\"%char then "/"%char else c) (replaceWinSep rest)
  end.

(** Template-literal rendering of a possibly undefined string. *)
Definition show (o : option string) : string :=
  match o with Some s => s | None => "undefined" end.

(** [name[name.length - 1] === '/' ? name.substr(0, name.length - 1) : name] *)
Definition stripTrailingSlash (name : string) : string :=
  match lastChar name with
  | Some c => if Ascii.eqb c "/"%char then substr0 name (String.length name - 1) else name
  | None => name
  end.

(** ** Data model *)

(** [ResolveMap]: specifier to rewritten specifier, [null] for the empty
    module.  The class builds it as a plain object ([{}]): its own
    properties, and whether its prototype is still [Object.prototype]. *)
Record ResolveMap := mkResolveMap {
  own : gmap string (option string);
  inherits : bool
}.

(** [{}] *)
#[global] Instance ResolveMap_empty : Empty ResolveMap := mkResolveMap ∅ true.

(** The own property of a key. *)
#[global] Instance ResolveMap_lookup : Lookup string (option string) ResolveMap :=
  fun key resolveMap => own resolveMap !! key.

(** [resolveMap[key] = value], for a value that is a string or [null].
    [Object.prototype] has a setter for [__proto__]: while the object
    inherits it, an assignment to that key creates no property; the setter
    ignores a string, and [null] takes the prototype away.  Every other
    key, and [__proto__] once the prototype is gone, becomes an own
    property. *)
Definition assign (key : string) (value : option string) (resolveMap : ResolveMap)
    : ResolveMap :=
  if bool_decide (key = "__proto__") && inherits resolveMap then
    match value with
    | None => mkResolveMap (own resolveMap) false
    | Some _ => resolveMap
    end
  else mkResolveMap (<[key := value]> (own resolveMap)) (inherits resolveMap).

(** What the hash phase hands to its caller. *)
Record HashResult := mkHashResult {
  hr_resolveMap : option ResolveMap;
  hr_worker : option nat
}.

Module FTR.
Record t := mk {
  path : string;
  hashPromise : option (Promise HashResult);
  transformPromise : option (Promise unit);
  mtime : option Z;
  isGlobalCache : bool;
  checkTime : option Z;
  originalSource : option string;
  originalSourceHash : option string;
  deps : option (list string);
  dew : bool;
  fullHash : option string;
  source : option string;
  sourceMap : option string;
  watching : bool
}.

Definition set_hashPromise v r :=
  mk (path r) v (transformPromise r) (mtime r) (isGlobalCache r) (checkTime r)
     (originalSource r) (originalSourceHash r) (deps r) (dew r) (fullHash r)
     (source r) (sourceMap r) (watching r).
Definition set_transformPromise v r :=
  mk (path r) (hashPromise r) v (mtime r) (isGlobalCache r) (checkTime r)
     (originalSource r) (originalSourceHash r) (deps r) (dew r) (fullHash r)
     (source r) (sourceMap r) (watching r).
Definition set_mtime v r :=
  mk (path r) (hashPromise r) (transformPromise r) v (isGlobalCache r) (checkTime r)
     (originalSource r) (originalSourceHash r) (deps r) (dew r) (fullHash r)
     (source r) (sourceMap r) (watching r).
Definition set_isGlobalCache v r :=
  mk (path r) (hashPromise r) (transformPromise r) (mtime r) v (checkTime r)
     (originalSource r) (originalSourceHash r) (deps r) (dew r) (fullHash r)
     (source r) (sourceMap r) (watching r).
Definition set_checkTime v r :=
  mk (path r) (hashPromise r) (transformPromise r) (mtime r) (isGlobalCache r) v
     (originalSource r) (originalSourceHash r) (deps r) (dew r) (fullHash r)
     (source r) (sourceMap r) (watching r).
Definition set_originalSource v r :=
  mk (path r) (hashPromise r) (transformPromise r) (mtime r) (isGlobalCache r) (checkTime r)
     v (originalSourceHash r) (deps r) (dew r) (fullHash r)
     (source r) (sourceMap r) (watching r).
Definition set_originalSourceHash v r :=
  mk (path r) (hashPromise r) (transformPromise r) (mtime r) (isGlobalCache r) (checkTime r)
     (originalSource r) v (deps r) (dew r) (fullHash r)
     (source r) (sourceMap r) (watching r).
Definition set_deps v r :=
  mk (path r) (hashPromise r) (transformPromise r) (mtime r) (isGlobalCache r) (checkTime r)
     (originalSource r) (originalSourceHash r) v (dew r) (fullHash r)
     (source r) (sourceMap r) (watching r).
Definition set_fullHash v r :=
  mk (path r) (hashPromise r) (transformPromise r) (mtime r) (isGlobalCache r) (checkTime r)
     (originalSource r) (originalSourceHash r) (deps r) (dew r) v
     (source r) (sourceMap r) (watching r).
Definition set_source v r :=
  mk (path r) (hashPromise r) (transformPromise r) (mtime r) (isGlobalCache r) (checkTime r)
     (originalSource r) (originalSourceHash r) (deps r) (dew r) (fullHash r)
     v (sourceMap r) (watching r).
Definition set_sourceMap v r :=
  mk (path r) (hashPromise r) (transformPromise r) (mtime r) (isGlobalCache r) (checkTime r)
     (originalSource r) (originalSourceHash r) (deps r) (dew r) (fullHash r)
     (source r) v (watching r).
Definition set_watching v r :=
  mk (path r) (hashPromise r) (transformPromise r) (mtime r) (isGlobalCache r) (checkTime r)
     (originalSource r) (originalSourceHash r) (deps r) (dew r) (fullHash r)
     (source r) (sourceMap r) v.
End FTR.
Abbreviation FileTransformRecord := FTR.t.

(** The kinds of message the class sends to a worker process. *)
Inductive MessageData :=
| SourceData (source : option string) (filename : string) (production : bool)
| FalseData
| MapData (resolveMap : option ResolveMap).

Record Message := mkMessage { msg_type : string; msg_data : MessageData }.

(** A worker: the record it is bound to and its reply slot.  The slot holds
    the type of the request whose callbacks are installed. *)
Module TW.
Record t := mk {
  record : option nat;
  msgResolve : option string;
  msgReject : option string
}.
End TW.
Abbreviation TransformWorker := TW.t.

(** An entry of [transformQueue]: the closure
    [worker => { worker.record = record; resolve(worker) }], that is the
    record it will bind and the suspended call it will resume. *)
Record Waiter := mkWaiter { waiter_record : nat; waiter_ticket : nat }.

(** What a stored record promise resolves to. *)
Inductive Slot := SlotUndefined | SlotNull | SlotRecord (rid : nat).

Module FTC.
Record t := mk {
  maxWatchCount : Z;
  production : bool;
  records : gmap string (Promise Slot);
  publicDir : string;
  watching : list nat;
  workers : list TransformWorker;
  transformQueue : list Waiter;
  resolveCache : nat;
  nextExpiry : Z;
  cacheInterval : option Z;
  cacheClearInterval : Z;
  (* the heap of record objects and the next free identity *)
  heap : nat -> FileTransformRecord;
  nextRecord : nat;
  (* instrumentation: messages sent to worker processes, pending
     [setTimeout] callbacks (due time, record), tickets of the wait queue
     and the hand-overs made from it *)
  sent : list (nat * Message);
  timeouts : list (Z * nat);
  nextTicket : nat;
  handed : list (Waiter * nat)
}.

Definition set_records v c :=
  mk (maxWatchCount c) (production c) v (publicDir c) (watching c) (workers c)
    (transformQueue c) (resolveCache c) (nextExpiry c) (cacheInterval c)
    (cacheClearInterval c) (heap c) (nextRecord c) (sent c) (timeouts c)
    (nextTicket c) (handed c).
Definition set_watching v c :=
  mk (maxWatchCount c) (production c) (records c) (publicDir c) v (workers c)
    (transformQueue c) (resolveCache c) (nextExpiry c) (cacheInterval c)
    (cacheClearInterval c) (heap c) (nextRecord c) (sent c) (timeouts c)
    (nextTicket c) (handed c).
Definition set_workers v c :=
  mk (maxWatchCount c) (production c) (records c) (publicDir c) (watching c) v
    (transformQueue c) (resolveCache c) (nextExpiry c) (cacheInterval c)
    (cacheClearInterval c) (heap c) (nextRecord c) (sent c) (timeouts c)
    (nextTicket c) (handed c).
Definition set_transformQueue v c :=
  mk (maxWatchCount c) (production c) (records c) (publicDir c) (watching c)
    (workers c) v (resolveCache c) (nextExpiry c) (cacheInterval c)
    (cacheClearInterval c) (heap c) (nextRecord c) (sent c) (timeouts c)
    (nextTicket c) (handed c).
Definition set_resolveCache v c :=
  mk (maxWatchCount c) (production c) (records c) (publicDir c) (watching c)
    (workers c) (transformQueue c) v (nextExpiry c) (cacheInterval c)
    (cacheClearInterval c) (heap c) (nextRecord c) (sent c) (timeouts c)
    (nextTicket c) (handed c).
Definition set_nextExpiry v c :=
  mk (maxWatchCount c) (production c) (records c) (publicDir c) (watching c)
    (workers c) (transformQueue c) (resolveCache c) v (cacheInterval c)
    (cacheClearInterval c) (heap c) (nextRecord c) (sent c) (timeouts c)
    (nextTicket c) (handed c).
Definition set_heap v c :=
  mk (maxWatchCount c) (production c) (records c) (publicDir c) (watching c)
    (workers c) (transformQueue c) (resolveCache c) (nextExpiry c) (cacheInterval c)
    (cacheClearInterval c) v (nextRecord c) (sent c) (timeouts c) (nextTicket c)
    (handed c).
Definition set_nextRecord v c :=
  mk (maxWatchCount c) (production c) (records c) (publicDir c) (watching c)
    (workers c) (transformQueue c) (resolveCache c) (nextExpiry c) (cacheInterval c)
    (cacheClearInterval c) (heap c) v (sent c) (timeouts c) (nextTicket c) (handed c).
Definition set_sent v c :=
  mk (maxWatchCount c) (production c) (records c) (publicDir c) (watching c)
    (workers c) (transformQueue c) (resolveCache c) (nextExpiry c) (cacheInterval c)
    (cacheClearInterval c) (heap c) (nextRecord c) v (timeouts c) (nextTicket c)
    (handed c).
Definition set_timeouts v c :=
  mk (maxWatchCount c) (production c) (records c) (publicDir c) (watching c)
    (workers c) (transformQueue c) (resolveCache c) (nextExpiry c) (cacheInterval c)
    (cacheClearInterval c) (heap c) (nextRecord c) (sent c) v (nextTicket c)
    (handed c).
Definition set_nextTicket v c :=
  mk (maxWatchCount c) (production c) (records c) (publicDir c) (watching c)
    (workers c) (transformQueue c) (resolveCache c) (nextExpiry c) (cacheInterval c)
    (cacheClearInterval c) (heap c) (nextRecord c) (sent c) (timeouts c) v (handed c).
Definition set_handed v c :=
  mk (maxWatchCount c) (production c) (records c) (publicDir c) (watching c)
    (workers c) (transformQueue c) (resolveCache c) (nextExpiry c) (cacheInterval c)
    (cacheClearInterval c) (heap c) (nextRecord c) (sent c) (timeouts c)
    (nextTicket c) v.
End FTC.
Abbreviation Cache := FTC.t.

(** ** The outside of the class *)

(** Libraries the class is written against.  [md5hex] is the hex MD5 digest
    of the bytes fed to a [crypto] hash object; the [path_] functions are
    Node's [path]; [resolveBuiltin] is [node-browser-builtins]; [cpus] is
    [os.cpus().length]. *)
Record Platform := mkPlatform {
  md5hex : string -> string;
  path_sep : string;
  path_dirname : string -> string;
  path_basename : string -> string;
  path_relative : string -> string -> string;
  isWindows : bool;
  resolveBuiltin : option string -> option string;
  cpus : nat
}.

(** What [jspmResolve] resolves to. *)
Record Resolution := mkResolution {
  resolved : option string;
  format : option string
}.

(** A message from a worker process: [{ type: 'error', data }] or a data
    object, of which the class reads [deps], [source] and [sourceMap]. *)
Record ReplyData := mkReplyData {
  rd_deps : option (list string);
  rd_source : option string;
  rd_sourceMap : option string
}.

Inductive WorkerMessage :=
| WError (data : string)
| WData (data : ReplyData).

(** The peers of the process during one turn: the clock, the file system,
    the resolver, and the workers (a worker answers the last message sent
    to it, given everything sent so far). *)
Record World := mkWorld {
  now : Z;
  readFile : string -> Settled string;
  stat : string -> Settled Z;
  fsWatch : string -> Settled unit;
  readlinkOk : string -> bool;
  jspmResolve : string -> string -> bool -> Settled Resolution;
  jspmFormat : string -> bool -> Settled (option string);
  packagePath : string -> Settled (option string);
  workerReply : nat -> list (nat * Message) -> WorkerMessage
}.

(** ** Asynchronous functions as state transformers *)

Inductive Outcome (A : Type) : Type :=
| Returns (a : A) (c : Cache)
| Throws (e : JsError) (c : Cache)
| Suspended (c : Cache).
Arguments Returns {A} a c.
Arguments Throws {A} e c.
Arguments Suspended {A} c.

Definition Task (A : Type) : Type := Cache -> Outcome A.

Definition finalState {A} (o : Outcome A) : Cache :=
  match o with Returns _ c | Throws _ c | Suspended c => c end.

Definition ret {A} (a : A) : Task A := fun c => Returns a c.

Definition bind {A B} (m : Task A) (k : A -> Task B) : Task B :=
  fun c =>
    match m c with
    | Returns a c' => k a c'
    | Throws e c' => Throws e c'
    | Suspended c' => Suspended c'
    end.

Definition throw {A} (e : JsError) : Task A := fun c => Throws e c.

Definition suspend {A} : Task A := fun c => Suspended c.

Declare Scope task_scope.
Delimit Scope task_scope with task.
Notation "x <- m ;; k" := (bind m (fun x => k))
  (at level 100, m at next level, right associativity) : task_scope.
Notation "m ;; k" := (bind m (fun _ => k))
  (at level 100, right associativity) : task_scope.
Open Scope task_scope.

(** [try { m } catch (e) { h e }] *)
Definition tryCatch {A} (m : Task A) (h : JsError -> Task A) : Task A :=
  fun c =>
    match m c with
    | Throws e c' => h e c'
    | o => o
    end.

(** [try { m } finally { f }] *)
Definition tryFinally {A} (m : Task A) (f : Task unit) : Task A :=
  fun c =>
    match m c with
    | Returns a c' => (f ;; ret a) c'
    | Throws e c' => (f ;; throw e) c'
    | Suspended c' => Suspended c'
    end.

(** [await p] *)
Definition await {A} (p : Promise A) : Task A :=
  match p with
  | Fulfilled a => ret a
  | Rejected e => throw e
  | Pending => suspend
  end.

Definition awaitSettled {A} (r : Settled A) : Task A :=
  match r with
  | Ok a => ret a
  | Err e => throw e
  end.

(** The promise an [async] body leaves behind when it has run. *)
Definition settle {A} (m : Task A) : Task (Promise A) :=
  fun c =>
    match m c with
    | Returns a c' => Returns (Fulfilled a) c'
    | Throws e c' => Returns (Rejected e) c'
    | Suspended c' => Suspended c'
    end.

(** A task started without [await], whose rejection nobody handles. *)
Definition detach {A} (m : Task A) : Task unit :=
  fun c => Returns tt (finalState (m c)).

Definition this : Task Cache := fun c => Returns c c.

Definition modify (f : Cache -> Cache) : Task unit := fun c => Returns tt (f c).

Definition deref (rid : nat) : Task FileTransformRecord :=
  fun c => Returns (FTC.heap c rid) c.

Definition updateHeap (rid : nat) (f : FileTransformRecord -> FileTransformRecord)
    (h : nat -> FileTransformRecord) : nat -> FileTransformRecord :=
  fun i => if Nat.eqb i rid then f (h i) else h i.

Definition update (rid : nat) (f : FileTransformRecord -> FileTransformRecord) : Task unit :=
  modify (fun c => FTC.set_heap (updateHeap rid f (FTC.heap c)) c).

Definition setWorker (w : nat) (f : TransformWorker -> TransformWorker) : Task unit :=
  modify (fun c => FTC.set_workers (alter f w (FTC.workers c)) c).

Definition setSlot (key : string) (p : Promise Slot) : Task unit :=
  modify (fun c => FTC.set_records (<[key := p]> (FTC.records c)) c).

(** ** The class *)

Section FileTransformCache.

Variable P : Platform.

(** [crypto.createHash('md5')], [hash.update(s)], [hash.digest('hex')]:
    the state of a hash object is what was fed to it. *)
Definition createHash : string := "".
Definition hashUpdate (h s : string) : string := h +:+ s.
Definition digestHex (h : string) : string := md5hex P h.

(** [md5] of utils/common. *)
Definition md5 (input : string) : string :=
  digestHex (hashUpdate createHash input).

Definition TypeError (msg : string) : JsError := Error msg.

Section Turn.

Variable W : World.

(** *** Worker messages *)

(** [worker.process.send(m)] *)
Definition send (w : nat) (m : Message) : Task unit :=
  modify (fun c => FTC.set_sent (FTC.sent c ++ [(w, m)]) c).

(** [worker.msgResolve = resolve; worker.msgReject = reject] *)
Definition arm (w : nat) (ty : string) : Task unit :=
  setWorker w (fun x => TW.mk (TW.record x) (Some ty) (Some ty)).

(** The ['message'] handler installed by the constructor: an ['error']
    message rejects with code [ETRANSFORM], anything else resolves with
    its data. *)
Definition awaitReply (w : nat) : Task ReplyData :=
  c <- this ;;
  match workerReply W w (FTC.sent c) with
  | WError data => throw (withCode "ETRANSFORM" (Error data))
  | WData data => ret data
  end.

(** *** The worker pool *)

Fixpoint findFree (ws : list TransformWorker) (i : nat) : option nat :=
  match ws with
  | [] => None
  | w :: rest =>
      match TW.record w with
      | None => Some i
      | Some _ => findFree rest (S i)
      end
  end.

Definition enqueue (rid : nat) : Task unit :=
  modify (fun c =>
    FTC.set_nextTicket (S (FTC.nextTicket c))
      (FTC.set_transformQueue
         (FTC.transformQueue c ++ [mkWaiter rid (FTC.nextTicket c)]) c)).

Definition assignWorker (rid : nat) : Task nat :=
  c <- this ;;
  worker <- match findFree (FTC.workers c) 0 with
            | Some w =>
                setWorker w (fun x => TW.mk (Some rid) (TW.msgResolve x) (TW.msgReject x)) ;;
                ret w
            | None =>
                (* no free worker found -> add to job queue *)
                enqueue rid ;;
                suspend
            end ;;
  record <- deref rid ;;
  send worker (mkMessage "source"
    (SourceData (FTR.originalSource record) (path_basename P (FTR.path record))
       (FTC.production c))) ;;
  arm worker "source" ;;
  _ <- awaitReply worker ;;
  ret worker.

(** [resolveNextJob(worker)] for the closure queued by [assignWorker]. *)
Definition resolveNextJob (next : Waiter) (w : nat) : Task unit :=
  setWorker w (fun x => TW.mk (Some (waiter_record next)) (TW.msgResolve x) (TW.msgReject x)) ;;
  modify (fun c => FTC.set_handed (FTC.handed c ++ [(next, w)]) c).

Definition freeWorker (w : nat) : Task unit :=
  setWorker w (fun _ => TW.mk None None None) ;;
  c <- this ;;
  match FTC.transformQueue c with
  | [] => ret tt
  | next :: rest =>
      modify (FTC.set_transformQueue rest) ;;
      resolveNextJob next w
  end.

(** [if (worker) this.freeWorker(worker)] *)
Definition freeIfAny (worker : option nat) : Task unit :=
  match worker with
  | Some worker => freeWorker worker
  | None => ret tt
  end.

(** *** Modification times *)

(** The promise built inside [getMtime] around [fs.stat]. *)
Definition statPromise (path : string) : Settled Z :=
  match stat W path with
  | Err err =>
      if bool_decide (code err = Some "ENOENT" \/ code err = Some "EACCES")
      then Ok (-1)
      else Err err
  | Ok mtimeMs => Ok mtimeMs
  end.

(** [getMtime] awaits that promise and returns nothing. *)
Definition getMtime (path : string) : Task (option Z) :=
  _ <- awaitSettled (statPromise path) ;;
  ret None.

(** *** Watching *)

Definition watch (rid : nat) : Task unit :=
  c <- this ;;
  record <- deref rid ;;
  if Z.of_nat (length (FTC.watching c)) =? FTC.maxWatchCount c then
    (* at full watch count shift to mtime checking *)
    update rid (FTR.set_watching false) ;;
    detach (mtime <- getMtime (FTR.path record) ;;
            update rid (FTR.set_mtime mtime))
  else
    _ <- awaitSettled (fsWatch W (FTR.path record)) ;;
    modify (fun c => FTC.set_watching (FTC.watching c ++ [rid]) c) ;;
    update rid (FTR.set_watching true).

(** *** The resolve map *)

(** The parts of one round of the loop of [getResolveMap]. *)

(** [resolved] after the builtin substitution; [None] is the empty module. *)
Definition substituteBuiltin (res : Resolution) : option string :=
  if bool_decide (format res = Some "builtin") then
    let b := resolveBuiltin P (resolved res) in
    if bool_decide (b = Some "@empty") then None else b
  else resolved res.

(** [relResolved] before the variant suffix. *)
Definition relativeSpecifier (base resolved : string) : string :=
  let relResolved := path_relative P base resolved in
  let relResolved := if isWindows P then replaceWinSep relResolved else relResolved in
  if negb (startsWith relResolved "../") then "./" +:+ relResolved else relResolved.

(** [relResolved] with its variant suffix. *)
Definition rewrittenSpecifier (dew : bool) (res : Resolution) (relResolved : string)
    : string :=
  if dew then relResolved +:+ "?dew"
  else if bool_decide (format res = Some "cjs" \/ format res = Some "json")
       then relResolved +:+ "?cjs"
       else relResolved.

Definition outsidePublicDir (path publicDir relResolved : string) : JsError :=
  withCode "ETRANSFORM" (Error
    ("Path " +:+ replaceWinSep (path_relative P publicDir path)
     +:+ " has a dependency " +:+ relResolved
     +:+ " outside of the public directory.")).

(** One round of the loop of [getResolveMap] over [record.deps], for a
    record with the given [path] and [dew]. *)
Definition resolveDep (path : string) (dew : bool) (publicDir base dep : string)
    (acc : ResolveMap * string) : Settled (ResolveMap * string) :=
  let '(resolveMap, hash) := acc in
  match jspmResolve W (stripTrailingSlash dep) path dew with
  | Err e => Err e
  | Ok res =>
      match substituteBuiltin res with
      | None =>
          (* @empty maps to resolved undefined *)
          Ok (assign dep None resolveMap, hashUpdate (hashUpdate hash dep) "@empty")
      | Some resolved =>
          let relResolved := relativeSpecifier base resolved in
          if negb (startsWith resolved publicDir) then
            Err (outsidePublicDir path publicDir relResolved)
          else
            let relResolved := rewrittenSpecifier dew res relResolved in
            let resolveMap :=
              if bool_decide (dep <> relResolved) then assign dep (Some relResolved) resolveMap
              else resolveMap in
            Ok (resolveMap, hashUpdate (hashUpdate hash dep) resolved)
      end
  end.

Fixpoint resolveDeps (path : string) (dew : bool) (publicDir base : string)
    (deps : list string) (acc : ResolveMap * string) : Settled (ResolveMap * string) :=
  match deps with
  | [] => Ok acc
  | dep :: rest =>
      match resolveDep path dew publicDir base dep acc with
      | Err e => Err e
      | Ok acc' => resolveDeps path dew publicDir base rest acc'
      end
  end.

Definition getResolveMap (rid : nat) : Task (ResolveMap * string) :=
  c <- this ;;
  record <- deref rid ;;
  let base := path_dirname P (FTR.path record) in
  match FTR.deps record with
  | None => throw (TypeError "record.deps is not iterable")
  | Some deps =>
      out <- awaitSettled (resolveDeps (FTR.path record) (FTR.dew record) (FTC.publicDir c)
                             base deps (∅, createHash)) ;;
      let '(resolveMap, hash) := out in
      ret (resolveMap, digestHex hash)
  end.

(** *** The shared package cache probe *)

Definition isGlobalCache (filePath : string) : Settled bool :=
  match packagePath W filePath with
  | Err e => Err e
  | Ok None => Ok false
  | Ok (Some packagePath) => Ok (readlinkOk W packagePath)
  end.

(** *** The hash phase *)

(** [setTimeout(() => { record.hashPromise = undefined }, cacheClearInterval)] *)
Definition scheduleHashCleanup (rid : nat) : Task unit :=
  modify (fun c =>
    FTC.set_timeouts (FTC.timeouts c ++ [(now W + FTC.cacheClearInterval c, rid)]) c).

Definition jsonWrapper : string := "export var __dew__ = null; export var exports = ".

(** The body of the [async] function of [doHash], without its [finally]. *)
Definition hashBody (rid : nat) : Task HashResult :=
  record <- deref rid ;;
  match FTR.originalSource record with
  | None => throw (TypeError "The data argument must be of type string")
  | Some originalSource =>
      let sourceHash := md5 originalSource in
      if endsWith (FTR.path record) ".json" then
        update rid (FTR.set_hashPromise None) ;;
        update rid (FTR.set_fullHash (Some sourceHash)) ;;
        ret (mkHashResult None None)
      else
        (* get deps *)
        worker <-
          (if bool_decide (FTR.originalSourceHash record <> Some sourceHash) then
             update rid (FTR.set_originalSourceHash (Some sourceHash)) ;;
             worker <- assignWorker rid ;;
             arm worker (if FTR.dew record then "analyze-cjs" else "analyze-esm") ;;
             send worker (mkMessage (if FTR.dew record then "analyze-cjs" else "analyze-esm")
                            FalseData) ;;
             data <- awaitReply worker ;;
             update rid (FTR.set_deps (rd_deps data)) ;;
             ret (Some worker)
           else ret None) ;;
        (* get resolveMap *)
        out <- getResolveMap rid ;;
        let '(resolveMap, resolveMapHash) := out in
        update rid (FTR.set_fullHash (Some (sourceHash +:+ resolveMapHash))) ;;
        ret (mkHashResult (Some resolveMap) worker)
  end.

(** [doHash]: the promise of the body is stored in [record.hashPromise] as
    soon as the body first yields, and whoever calls again gets that
    promise. *)
Definition doHash (rid : nat) : Task HashResult :=
  record <- deref rid ;;
  match FTR.hashPromise record with
  | Some p => await p
  | None =>
      update rid (FTR.set_hashPromise (Some Pending)) ;;
      p <- settle (tryFinally (hashBody rid) (scheduleHashCleanup rid)) ;;
      update rid (FTR.set_hashPromise (Some p)) ;;
      await p
  end.

(** *** The transform phase *)

Definition transformBody (rid : nat) (resolveMap : option ResolveMap)
    (worker : option nat) : Task unit :=
  record <- deref rid ;;
  let isGlobalCachePromise := isGlobalCache (FTR.path record) in
  if endsWith (FTR.path record) ".json" then
    update rid (FTR.set_source (Some (jsonWrapper +:+ show (FTR.originalSource record)))) ;;
    g <- awaitSettled isGlobalCachePromise ;;
    update rid (FTR.set_isGlobalCache g)
    (* we leave transformPromise in place *)
  else
    (* esm with no deps -> no need to transform *)
    noDeps <-
      (if FTR.dew record then ret false
       else match FTR.deps record with
            | None => throw (TypeError "Cannot read property 'length' of undefined")
            | Some deps => ret (bool_decide (length deps = 0%nat))
            end) ;;
    if (noDeps : bool) then
      update rid (FTR.set_source (FTR.originalSource record)) ;;
      g <- awaitSettled isGlobalCachePromise ;;
      update rid (FTR.set_isGlobalCache g) ;;
      freeIfAny worker
    else
      worker <- match worker with
                | Some w => ret w
                | None => assignWorker rid
                end ;;
      tryFinally
        (arm worker (if FTR.dew record then "transform-dew" else "transform-esm") ;;
         send worker (mkMessage (if FTR.dew record then "transform-dew" else "transform-esm")
                        (MapData resolveMap)) ;;
         data <- awaitReply worker ;;
         update rid (FTR.set_source (rd_source data)) ;;
         update rid (FTR.set_sourceMap (rd_sourceMap data)) ;;
         g <- awaitSettled isGlobalCachePromise ;;
         update rid (FTR.set_isGlobalCache g))
        (freeWorker worker ;;
         update rid (FTR.set_transformPromise None)).

(** [doTransform]: as for [doHash] the promise is stored when the body
    first yields; the worker path clears the slot again in its [finally],
    the two early returns leave the settled promise in it. *)
Definition doTransform (rid : nat) (resolveMap : option ResolveMap)
    (worker : option nat) : Task unit :=
  record <- deref rid ;;
  match FTR.transformPromise record with
  | Some p => await p
  | None =>
      update rid (FTR.set_transformPromise (Some Pending)) ;;
      p <- settle (transformBody rid resolveMap worker) ;;
      record <- deref rid ;;
      match FTR.transformPromise record with
      | Some Pending => update rid (FTR.set_transformPromise (Some p))
      | _ => ret tt
      end ;;
      await p
  end.

(** *** The request coordinator *)

Record GetResult := mkGetResult {
  gr_source : option string;
  gr_sourceMap : option string;
  gr_hash : option string;
  gr_isGlobalCache : bool
}.

(** [hash && record.fullHash === hash] *)
Definition hashMatches (hash fullHash : option string) : bool :=
  match hash with
  | Some h => negb (String.eqb h "") && bool_decide (fullHash = Some h)
  | None => false
  end.

(** [record.checkTime < this.nextExpiry] *)
Definition jsLt (a : option Z) (b : Z) : bool :=
  match a with
  | Some a => a <? b
  | None => false
  end.

Definition newRecord (filePath : string) (dew : bool) : FileTransformRecord :=
  FTR.mk filePath None None None false (Some (now W)) None None None dew None None None false.

(** A new record object; its identity is the next free one. *)
Definition allocated (record : FileTransformRecord) (c : Cache) : Cache :=
  FTC.set_nextRecord (S (FTC.nextRecord c))
    (FTC.set_heap (updateHeap (FTC.nextRecord c) (fun _ => record) (FTC.heap c)) c).

Definition alloc (record : FileTransformRecord) : Task nat :=
  fun c => Returns (FTC.nextRecord c) (allocated record c).

(** [format || 'unknown'] *)
Definition orUnknown (format : option string) : string :=
  match format with
  | Some f => if String.eqb f "" then "unknown" else f
  | None => "unknown"
  end.

(** The [async] function run by the first [get] of a key. *)
Definition createRecord (filePath : string) (dew : bool) : Task Slot :=
  let sourcePromise := readFile W filePath in
  let formatPromise := jspmFormat W filePath dew in
  format <- awaitSettled formatPromise ;;
  proceed <-
    (if dew then
       if bool_decide (format <> Some "cjs") && bool_decide (format <> Some "json") then
         throw (withCode "ENOTRANSFORM"
                  (Error ("No dew transform for " +:+ show format +:+ " format.")))
       else ret true
     else
       if bool_decide (format = Some "esm") then ret true
       else if bool_decide (format = Some "json" \/ format = Some "cjs") then ret false
       else throw (Error ("Unable to transform module format "
                          +:+ orUnknown format +:+ "."))) ;;
  if (proceed : bool) then
    rid <- alloc (newRecord filePath dew) ;;
    watch rid ;;
    source <- tryCatch (awaitSettled sourcePromise)
                (fun err =>
                   if bool_decide (code err = Some "ENOENT")
                   then throw (withCode "ENOTFOUND" err)
                   else throw err) ;;
    update rid (FTR.set_originalSource (Some source)) ;;
    ret (SlotRecord rid)
  else ret SlotNull.

(** The [async] function a [get] leaves in the store when the record is
    due for an mtime check.  Nothing awaits it; its effects are applied
    where it is started. *)
Definition refreshRecord (filePath : string) (rid : nat) : Task Slot :=
  record <- deref rid ;;
  mtime <- getMtime (FTR.path record) ;;
  gone <-
    (if bool_decide (mtime <> FTR.mtime record) then
       tryCatch
         (source <- awaitSettled (readFile W filePath) ;;
          update rid (FTR.set_originalSource (Some source)) ;;
          update rid (FTR.set_mtime mtime) ;;
          ret false)
         (fun err =>
            if bool_decide (code err = Some "ENOENT") then ret true else throw err)
     else ret false) ;;
  if (gone : bool) then ret SlotUndefined else ret (SlotRecord rid).

Definition notModified (rid : nat) (hash : option string) : Task (option GetResult) :=
  record <- deref rid ;;
  ret (Some (mkGetResult None None hash (FTR.isGlobalCache record))).

Definition completed (rid : nat) : Task (option GetResult) :=
  record <- deref rid ;;
  ret (Some (mkGetResult (FTR.source record) (FTR.sourceMap record) (FTR.fullHash record)
               (FTR.isGlobalCache record))).

(** [await this.records[key]], and the first-time path when there is
    nothing under the key.  The call goes on from the [await] with the
    store as it read it: a second request that starts between the two
    (both would create a record, and the handle of the later one would
    replace the other) is outside of the model. *)
Definition lookupRecord (filePath : string) (dew : bool) (dewSuffix : string) : Task Slot :=
  c <- this ;;
  record <- match FTC.records c !! (filePath +:+ dewSuffix) with
            | Some p => await p
            | None => ret SlotUndefined
            end ;;
  match record with
  | SlotUndefined =>
      setSlot (filePath +:+ dewSuffix) Pending ;;
      p <- settle (createRecord filePath dew) ;;
      setSlot (filePath +:+ dewSuffix) p ;;
      await p
  | _ => ret record
  end.

(** check source freshness (updating deps if source changed) *)
Definition checkFreshness (filePath dewSuffix : string) (rid : nat) : Task unit :=
  c <- this ;;
  record <- deref rid ;;
  if jsLt (FTR.checkTime record) (FTC.nextExpiry c) && negb (FTR.watching record) then
    setSlot (filePath +:+ dewSuffix) Pending ;;
    p <- settle (refreshRecord filePath rid) ;;
    setSlot (filePath +:+ dewSuffix) p
  else ret tt.

Definition get (filePath : string) (hash : option string) : Task (option GetResult) :=
  let dew := endsWith filePath "?dew" in
  let dewSuffix := if dew then "?dew" else "" in
  let filePath := if dew then substr0 filePath (String.length filePath - 4) else filePath in
  record <- lookupRecord filePath dew dewSuffix ;;
  match record with
  | SlotUndefined | SlotNull => ret None
  | SlotRecord rid =>
      record <- deref rid ;;
      match FTR.hashPromise record with
      | None =>
          match FTR.transformPromise record with
          | Some transformPromise =>
              (* in-progress transform *)
              if hashMatches hash (FTR.fullHash record) then notModified rid hash
              else await transformPromise ;; completed rid
          | None =>
              (* done and waiting -> check freshness *)
              checkFreshness filePath dewSuffix rid ;;
              hr <- doHash rid ;;
              record <- deref rid ;;
              if hashMatches hash (FTR.fullHash record) then
                freeIfAny (hr_worker hr) ;;
                notModified rid hash
              else
                doTransform rid (hr_resolveMap hr) (hr_worker hr) ;;
                completed rid
          end
      | Some hashPromise =>
          (* already a hash promise -> wait on it; worker doesnt belong to us here *)
          hr <- await hashPromise ;;
          record <- deref rid ;;
          if hashMatches hash (FTR.fullHash record) then notModified rid hash
          else
            match FTR.transformPromise record with
            | Some transformPromise => await transformPromise
            | None => doTransform rid (hr_resolveMap hr) None
            end ;;
            completed rid
      end
  end.

(** The hash phase a [get] goes through for a record before it compares
    hashes: none when a transform is in place, its own when the record is
    idle, the one in flight otherwise.  The result is the worker the call
    itself obtained. *)
Definition hashPhase (filePath dewSuffix : string) (rid : nat) : Task (option nat) :=
  record <- deref rid ;;
  match FTR.hashPromise record with
  | None =>
      match FTR.transformPromise record with
      | Some _ => ret None
      | None =>
          checkFreshness filePath dewSuffix rid ;;
          hr <- doHash rid ;;
          ret (hr_worker hr)
      end
  | Some hashPromise =>
      _ <- await hashPromise ;;
      ret None
  end.

(** *** The watcher's ['change'] listener *)

Definition onWatchEvent (rid : nat) (type : string) : Task unit :=
  if String.eqb type "change" then
    (* trigger refresh *)
    record <- deref rid ;;
    source <- awaitSettled (readFile W (FTR.path record)) ;;
    update rid (FTR.set_originalSource (Some source)) ;;
    record <- deref rid ;;
    let hash := FTR.fullHash record in
    match FTR.transformPromise record with
    | Some transformPromise => await transformPromise
    | None => ret tt
    end ;;
    hr <- doHash rid ;;
    record <- deref rid ;;
    if bool_decide (hash <> FTR.fullHash record) then
      detach (doTransform rid (hr_resolveMap hr) (hr_worker hr))
    else
      freeIfAny (hr_worker hr)
  else if String.eqb type "rename" then
    update rid (FTR.set_watching false) ;;
    update rid (FTR.set_checkTime (Some (now W)))
  else ret tt.

(** *** The resolver cache and its timer *)

Definition clearResolveCache : Task unit :=
  modify (fun c =>
    FTC.set_nextExpiry (now W + FTC.cacheClearInterval c)
      (FTC.set_resolveCache (S (FTC.resolveCache c)) c)).

Definition idleWorker : TransformWorker := TW.mk None None None.

Definition blankRecord : FileTransformRecord :=
  FTR.mk "" None None None false None None None None false None None None false.

Definition constructor (publicDir : string) (cacheClearInterval maxWatchCount : Z)
    (production : bool) : Cache :=
  let publicDir :=
    if bool_decide (option_map (fun ch => String ch EmptyString) (lastChar publicDir)
                    <> Some (path_sep P))
    then publicDir +:+ path_sep P else publicDir in
  let publicDir := replaceWinSep publicDir in
  FTC.mk maxWatchCount production ∅ publicDir [] (replicate (cpus P) idleWorker) []
    0%nat (now W + cacheClearInterval)
    (if cacheClearInterval >? 0 then Some cacheClearInterval else None)
    cacheClearInterval
    (fun _ => blankRecord) 0%nat [] [] 0%nat [].

End Turn.

(** *** Turns

    What can happen to a cache between two requests: a request, an event
    of a watcher that was opened, the interval timer of the resolver cache
    if the constructor installed one, and a due [setTimeout] callback of a
    hash phase. *)

(** The callback [() => { record.hashPromise = undefined }]. *)
Definition hashCleanup (rid : nat) : Task unit :=
  update rid (FTR.set_hashPromise None).

Inductive Event :=
| Get (filePath : string) (hash : option string)
| WatchEvent (rid : nat) (type : string)
| IntervalTick
| TimeoutFires (i : nat).

Definition fire (W : World) (ev : Event) (c : Cache) : Cache :=
  match ev with
  | Get filePath hash => finalState (get W filePath hash c)
  | WatchEvent rid type =>
      if bool_decide (rid ∈ FTC.watching c)
      then finalState (onWatchEvent W rid type c)
      else c
  | IntervalTick =>
      match FTC.cacheInterval c with
      | Some _ => finalState (clearResolveCache W c)
      | None => c
      end
  | TimeoutFires i =>
      match FTC.timeouts c !! i with
      | Some (due, rid) =>
          if due <=? now W
          then finalState (hashCleanup rid (FTC.set_timeouts (delete i (FTC.timeouts c)) c))
          else c
      | None => c
      end
  end.

Fixpoint run (turns : list (World * Event)) (c : Cache) : Cache :=
  match turns with
  | [] => c
  | (W, ev) :: rest => run rest (fire W ev c)
  end.

End FileTransformCache.

(** ** A reference platform

    Executable instances of the parameters, used to run the class on
    concrete inputs: MD5 as in RFC 1321, POSIX [path] on absolute
    normalised paths, and a small world of files, resolutions and workers. *)

Module MD5.

Definition wrap (x : Z) : Z := x mod 2 ^ 32.

Definition rotl (x n : Z) : Z :=
  wrap (Z.lor (Z.shiftl x n) (Z.shiftr x (32 - n))).

Definition lnot32 (x : Z) : Z := Z.lxor x (2 ^ 32 - 1).

Definition shifts : list Z :=
  [7; 12; 17; 22; 7; 12; 17; 22; 7; 12; 17; 22; 7; 12; 17; 22;
   5; 9; 14; 20; 5; 9; 14; 20; 5; 9; 14; 20; 5; 9; 14; 20;
   4; 11; 16; 23; 4; 11; 16; 23; 4; 11; 16; 23; 4; 11; 16; 23;
   6; 10; 15; 21; 6; 10; 15; 21; 6; 10; 15; 21; 6; 10; 15; 21].

Definition sines : list Z :=
  [3614090360; 3905402710; 606105819; 3250441966; 4118548399; 1200080426;
   2821735955; 4249261313; 1770035416; 2336552879; 4294925233; 2304563134;
   1804603682; 4254626195; 2792965006; 1236535329; 4129170786; 3225465664;
   643717713; 3921069994; 3593408605; 38016083; 3634488961; 3889429448;
   568446438; 3275163606; 4107603335; 1163531501; 2850285829; 4243563512;
   1735328473; 2368359562; 4294588738; 2272392833; 1839030562; 4259657740;
   2763975236; 1272893353; 4139469664; 3200236656; 681279174; 3936430074;
   3572445317; 76029189; 3654602809; 3873151461; 530742520; 3299628645;
   4096336452; 1126891415; 2878612391; 4237533241; 1700485571; 2399980690;
   4293915773; 2240044497; 1873313359; 4264355552; 2734768916; 1309151649;
   4149444226; 3174756917; 718787259; 3951481745].

Fixpoint bytesOf (s : string) : list Z :=
  match s with
  | EmptyString => []
  | String c rest => Z.of_N (N_of_ascii c) :: bytesOf rest
  end.

(** Little-endian bytes of a number, [n] of them. *)
Fixpoint leBytes (n : nat) (x : Z) : list Z :=
  match n with
  | O => []
  | S n' => x mod 256 :: leBytes n' (x / 256)
  end.

Definition pad (bytes : list Z) : list Z :=
  let len := Z.of_nat (length bytes) in
  let zeros := Z.to_nat ((55 - len) mod 64) in
  bytes ++ [128] ++ replicate zeros 0 ++ leBytes 8 (8 * len).

Fixpoint leWords (fuel : nat) (bytes : list Z) : list Z :=
  match fuel, bytes with
  | S fuel', b0 :: b1 :: b2 :: b3 :: rest =>
      (b0 + 256 * b1 + 65536 * b2 + 16777216 * b3) :: leWords fuel' rest
  | _, _ => []
  end.

Definition State : Type := Z * Z * Z * Z.

Definition step (block : list Z) (st : State) (i : nat) : State :=
  let '(a, b, c, d) := st in
  let z := Z.of_nat i in
  let '(f, g) :=
    if z <? 16 then (Z.lor (Z.land b c) (Z.land (lnot32 b) d), z)
    else if z <? 32 then (Z.lor (Z.land d b) (Z.land (lnot32 d) c), (5 * z + 1) mod 16)
    else if z <? 48 then (Z.lxor (Z.lxor b c) d, (3 * z + 5) mod 16)
    else (Z.lxor c (Z.lor b (lnot32 d)), (7 * z) mod 16) in
  let f := wrap (f + a + nth i sines 0 + nth (Z.to_nat g) block 0) in
  (d, wrap (b + rotl f (nth i shifts 0)), b, c).

Definition compress (st : State) (block : list Z) : State :=
  let '(a0, b0, c0, d0) := st in
  let '(a, b, c, d) := fold_left (step block) (seq 0 64) st in
  (wrap (a0 + a), wrap (b0 + b), wrap (c0 + c), wrap (d0 + d)).

Fixpoint blocks (fuel : nat) (words : list Z) (st : State) : State :=
  match fuel, words with
  | S fuel', _ :: _ => blocks fuel' (drop 16 words) (compress st (take 16 words))
  | _, _ => st
  end.

Definition hexDigit (x : Z) : ascii :=
  nth (Z.to_nat x)
    ["0"; "1"; "2"; "3"; "4"; "5"; "6"; "7"; "8"; "9"; "a"; "b"; "c"; "d"; "e"; "f"]%char
    "0"%char.

Definition hexByte (x : Z) (rest : string) : string :=
  String (hexDigit (x / 16)) (String (hexDigit (x mod 16)) rest).

Definition hexWord (x : Z) (rest : string) : string :=
  hexByte (x mod 256) (hexByte (x / 256 mod 256)
    (hexByte (x / 65536 mod 256) (hexByte (x / 16777216 mod 256) rest))).

Definition digest (s : string) : string :=
  let bytes := pad (bytesOf s) in
  let words := leWords (length bytes) bytes in
  let '(a, b, c, d) :=
    blocks (length words) words (1732584193, 4023233417, 2562383102, 271733878) in
  hexWord a (hexWord b (hexWord c (hexWord d ""))).

End MD5.

Module Posix.

(** The segments of a path between slashes, empty ones dropped. *)
Fixpoint segmentsFrom (cur : string) (s : string) : list string :=
  match s with
  | EmptyString => if String.eqb cur "" then [] else [cur]
  | String c rest =>
      if Ascii.eqb c "/"%char
      then (if String.eqb cur "" then [] else [cur]) ++ segmentsFrom "" rest
      else segmentsFrom (cur +:+ String c EmptyString) rest
  end.

Definition segments (s : string) : list string := segmentsFrom "" s.

Fixpoint join (l : list string) : string :=
  match l with
  | [] => ""
  | [x] => x
  | x :: rest => x +:+ "/" +:+ join rest
  end.

Definition isAbsolute (s : string) : bool := String.prefix "/" s.

Definition dirname (s : string) : string :=
  let segs := segments s in
  let dir := join (take (length segs - 1) segs) in
  if isAbsolute s then "/" +:+ dir
  else if String.eqb dir "" then "." else dir.

Definition basename (s : string) : string :=
  match last (segments s) with
  | Some x => x
  | None => ""
  end.

Fixpoint dropCommon (a b : list string) : list string * list string :=
  match a, b with
  | x :: a', y :: b' => if String.eqb x y then dropCommon a' b' else (a, b)
  | _, _ => (a, b)
  end.

(** [path.relative] for absolute, normalised paths. *)
Definition relative (from to : string) : string :=
  let '(up, down) := dropCommon (segments from) (segments to) in
  join (map (fun _ => "..") up ++ down).

End Posix.

Module Scenario.

Definition builtins (resolved : option string) : option string :=
  match resolved with
  | Some name => if String.eqb name "fs" then Some "@empty" else Some ("/pub/shims/" +:+ name +:+ ".js")
  | None => None
  end.

Definition posix : Platform :=
  mkPlatform MD5.digest "/" Posix.dirname Posix.basename Posix.relative false builtins 2.

Definition ENOENT : JsError := mkError "ENOENT: no such file or directory" (Some "ENOENT").

Fixpoint assoc {A} (l : list (string * A)) (k : string) : option A :=
  match l with
  | [] => None
  | (k', v) :: rest => if String.eqb k k' then Some v else assoc rest k
  end.

Definition fileSystem (files : list (string * string)) (path : string) : Settled string :=
  match assoc files path with
  | Some content => Ok content
  | None => Err ENOENT
  end.

(** A resolver over a table of specifiers; formats by extension. *)
Definition formatOf (path : string) (cjsResolve : bool) : option string :=
  if endsWith path ".json" then Some "json"
  else if endsWith path ".cjs" then Some "cjs"
  else if endsWith path ".js" then (if cjsResolve then Some "cjs" else Some "esm")
  else None.

Definition resolver (table : list (string * string)) (name parent : string) (cjsResolve : bool)
    : Settled Resolution :=
  match assoc table name with
  | Some target =>
      if String.prefix "/" target
      then Ok (mkResolution (Some target) (formatOf target cjsResolve))
      else Ok (mkResolution (Some target) (Some "builtin"))
  | None => Err (mkError ("Cannot find module " +:+ name) (Some "MODULE_NOT_FOUND"))
  end.

(** A worker that analyses by table and transforms by tagging. *)
Definition lastSource (w : nat) (log : list (nat * Message)) : option string :=
  last (omap (fun '(w', m) =>
                match msg_data m with
                | SourceData (Some s) _ _ => if Nat.eqb w w' then Some s else None
                | _ => None
                end) log).

Definition worker (analysis : list (string * list string)) (w : nat)
    (log : list (nat * Message)) : WorkerMessage :=
  match last log with
  | Some (_, m) =>
      let src := default "" (lastSource w log) in
      if String.prefix "analyze" (msg_type m) then
        match assoc analysis src with
        | Some deps => WData (mkReplyData (Some deps) None None)
        | None => WError ("cannot parse " +:+ src)
        end
      else if String.prefix "transform" (msg_type m) then
        WData (mkReplyData None (Some ("/*" +:+ msg_type m +:+ "*/" +:+ src)) (Some "{}"))
      else WData (mkReplyData None None None)
  | None => WData (mkReplyData None None None)
  end.

Definition world (time : Z) (files : list (string * string)) (table : list (string * string))
    (analysis : list (string * list string)) : World :=
  mkWorld time (fileSystem files)
    (fun path => match assoc files path with Some _ => Ok 1000 | None => Err ENOENT end)
    (fun path => match assoc files path with Some _ => Ok tt | None => Err ENOENT end)
    (fun _ => false)
    (resolver table)
    (fun path cjs => Ok (formatOf path cjs))
    (fun _ => Ok (Some "/pub"))
    (worker analysis).

End Scenario.

Open Scope list_scope.

(** * utils/common.ts: file URLs and file names *)

(** A character of a [string] stands for a UTF-16 code unit below 256. *)
Module Common.

(** [s.substr(n)] *)
Fixpoint substrFrom (n : nat) (s : string) : string :=
  match n, s with
  | O, _ => s
  | S _, EmptyString => EmptyString
  | S n', String _ rest => substrFrom n' rest
  end.

(** [s.replace(pattern, replacement)] with a string for pattern, and a
    replacement without [$]: the first occurrence is replaced. *)
Fixpoint replaceFirst (pattern replacement s : string) : string :=
  if String.prefix pattern s then replacement +:+ substrFrom (String.length pattern) s
  else match s with
       | EmptyString => EmptyString
       | String c rest => String c (replaceFirst pattern replacement rest)
       end.

Definition toFileURL (P : Platform) (path : string) : string :=
  "file://" +:+ (if isWindows P then "/" else "") +:+ replaceWinSep path.

Definition fromFileURL (P : Platform) (url : string) : string :=
  if String.eqb (substr0 url 7) "file://"
  then replaceFirst (path_sep P) "/" (substrFrom (if isWindows P then 8 else 7) url)
  else url.

(** The class of [invalidFileCharRegEx]: the nine characters [<], [>],
    [:], the double quote, [/], the bar (written [\|]), [?], [*] and [^],
    and the range from U+0001 to U+0031. *)
Definition invalidFileChar (c : ascii) : bool :=
  existsb (Ascii.eqb c)
    ["<"; ">"; ":"; ascii_of_nat 34; "/"; "|"; "?"; "*"; "^"]%char
  || ((1 <=? nat_of_ascii c)%nat && (nat_of_ascii c <=? 49)%nat).

(** The index of the first match at or after [lastIndex], counting from
    [i] at the head of [s]. *)
Fixpoint firstMatch (s : string) (i lastIndex : nat) : option nat :=
  match s with
  | EmptyString => None
  | String c rest =>
      if (lastIndex <=? i)%nat && invalidFileChar c then Some i
      else firstMatch rest (S i) lastIndex
  end.

(** [invalidFileCharRegEx.test(str)].  The regex has the [g] flag: the
    search starts at its [lastIndex], which a match moves behind the
    match and a failure resets. *)
Definition test (str : string) (lastIndex : nat) : bool * nat :=
  match firstMatch str 0 lastIndex with
  | Some i => (true, S i)
  | None => (false, O)
  end.

Definition upperHexDigit (n : nat) : ascii :=
  nth n ["0"; "1"; "2"; "3"; "4"; "5"; "6"; "7"; "8"; "9"; "A"; "B"; "C"; "D"; "E"; "F"]%char
    "0"%char.

Definition percent (n : nat) : string :=
  String "%" (String (upperHexDigit (n / 16)) (String (upperHexDigit (n mod 16)) "")).

(** The characters [encodeURIComponent] leaves alone: letters, digits and
    the marks [-_.!~*'()]. *)
Definition uriUnescaped (c : ascii) : bool :=
  let n := nat_of_ascii c in
  ((48 <=? n) && (n <=? 57))%nat || ((65 <=? n) && (n <=? 90))%nat
  || ((97 <=? n) && (n <=? 122))%nat
  || existsb (Ascii.eqb c) ["-"; "_"; "."; "!"; "~"; "*"; "'"; "("; ")"]%char.

(** [encodeURIComponent] of one code unit: the bytes of its UTF-8 form,
    percent-encoded. *)
Definition encodeURIComponent (c : ascii) : string :=
  let n := nat_of_ascii c in
  if uriUnescaped c then String c ""
  else if (n <? 128)%nat then percent n
  else percent (192 + n / 64) +:+ percent (128 + n mod 64).

(** [char => char === '*' ? '%2A' : encodeURIComponent(char)] *)
Definition replacer (char : ascii) : string :=
  if Ascii.eqb char "*" then "%2A" else encodeURIComponent char.

(** [str.replace(invalidFileCharRegEx, replacer)]: every match is
    replaced, and the regex is left with [lastIndex] 0. *)
Fixpoint replaceInvalid (str : string) : string :=
  match str with
  | EmptyString => EmptyString
  | String c rest =>
      (if invalidFileChar c then replacer c else String c "") +:+ replaceInvalid rest
  end.

(** The function, with the [lastIndex] of the shared regex before the call;
    it returns the one after the call with the result. *)
Definition encodeInvalidFileChars (str : string) (lastIndex : nat) : string * nat :=
  let '(found, lastIndex) := test str lastIndex in
  if negb found then (str, lastIndex)
  else (replaceInvalid str, O).

End Common.

(** ** A small site

    A public directory [/pub] served through the reference platform, with
    two workers: a module with three kinds of dependency, a module without
    dependencies, a module that reaches out of the public directory, a
    JSON file and a text file. *)
Module Example.

Import Scenario.

Definition files : list (string * string) :=
  [("/pub/a.json", "[1, 2]"); ("/pub/a.js", "import b, fs, ./b.js"); ("/pub/b.js", "export");
   ("/pub/d.js", "import c"); ("/pub/e.js", "import c"); ("/pub/notes.txt", "text")].

(** The files after an edit: the JSON file has new content and [d.js] no
    longer reaches out of [/pub]. *)
Definition edited : list (string * string) :=
  ("/pub/a.json", "[3]") :: ("/pub/d.js", "import b") :: files.

Definition table : list (string * string) :=
  [("b", "/pub/b.js"); ("./b.js", "/pub/b.js"); ("fs", "fs"); ("c", "/other/c.js")].

Definition analysis : list (string * list string) :=
  [("import b, fs, ./b.js", ["b"; "fs"; "./b.js"]); ("export", []); ("import c", ["c"]);
   ("import b", ["b"])].

(** A world with other workers. *)
Definition withWorkers (reply : nat -> list (nat * Message) -> WorkerMessage) (W : World)
    : World :=
  mkWorld (now W) (readFile W) (stat W) (fsWatch W) (readlinkOk W) (jspmResolve W)
    (jspmFormat W) (packagePath W) reply.

(** Workers that never answer with an error: what the table does not
    know has no dependencies. *)
Definition obliging (w : nat) (log : list (nat * Message)) : WorkerMessage :=
  match worker analysis w log with
  | WError _ => WData (mkReplyData (Some []) None None)
  | WData data => WData data
  end.


Definition atStart : World := withWorkers obliging (world 0 files table analysis).
Definition later : World := withWorkers obliging (world 600 edited table analysis).

Definition fresh : Cache := constructor posix atStart "/pub" 500 10 false.


(** [b.js] served once. *)
Definition servedPlain : Cache := run posix [(atStart, Get "/pub/b.js" None)] fresh.

(** [d.js] requested once, in vain. *)
Definition failed : Cache := run posix [(atStart, Get "/pub/d.js" None)] fresh.

(** Then [d.js] is edited, and the timeout empties the hash slot. *)
Definition repaired : Cache :=
  run posix [(later, WatchEvent 0 "change"); (later, TimeoutFires 0)] failed.

(** [d.js] and [e.js] requested in vain: both workers stay bound. *)
Definition saturated : Cache :=
  run posix [(atStart, Get "/pub/d.js" None); (atStart, Get "/pub/e.js" None)] fresh.

(** The JSON file served, then edited after its hash slot was emptied. *)
Definition jsonEdited : Cache :=
  run posix [(atStart, Get "/pub/a.json?dew" None); (later, TimeoutFires 0);
             (later, WatchEvent 0 "change")] fresh.

End Example.

(** * The vocabulary of the properties *)

(** However [m] ends, it takes a cache satisfying [I] to a cache
    satisfying [I]. *)
Definition preserves {A} (I : Cache -> Prop) (m : Task A) : Prop :=
  forall c, I c -> I (finalState (m c)).

(** What the interval timer owns. *)
Definition timerView (c : Cache) : nat * Z * option Z * Z :=
  (FTC.resolveCache c, FTC.nextExpiry c, FTC.cacheInterval c, FTC.cacheClearInterval c).

(** The waiters [assignWorker] queues for [rids] from ticket [t] on. *)
Definition waitersFrom (t : nat) (rids : list nat) : list Waiter :=
  imap (fun i rid => mkWaiter rid (t + i)) rids.

(** Calls of [assignWorker] one after the other, and workers freed one after
    the other. *)
Definition assignAll (P : Platform) (W : World) (rids : list nat) (c : Cache) : Cache :=
  foldl (fun c rid => finalState (assignWorker P W rid c)) c rids.

(** Workers freed one after the other. *)
Definition freeAll (ws : list nat) (c : Cache) : Cache :=
  foldl (fun c w => finalState (freeWorker w c)) c ws.

(** The cache after [assignWorker rid] found every worker busy. *)
Definition enqueued (rid : nat) (c : Cache) : Cache :=
  FTC.set_nextTicket (S (FTC.nextTicket c))
    (FTC.set_transformQueue (FTC.transformQueue c ++ [mkWaiter rid (FTC.nextTicket c)]) c).

(** The cache after [freeWorker w] when [next] heads the queue. *)
Definition handedOver (w : nat) (next : Waiter) (rest : list Waiter) (c : Cache) : Cache :=
  FTC.set_handed (FTC.handed c ++ [(next, w)])
    (FTC.set_workers
       (alter (fun x => TW.mk (Some (waiter_record next)) (TW.msgResolve x) (TW.msgReject x)) w
          (alter (fun _ => TW.mk None None None) w (FTC.workers c)))
       (FTC.set_transformQueue rest c)).

(** The tickets handed over, followed by the tickets still waiting, are the
    tickets issued, in order. *)
Definition fifo (c : Cache) : Prop :=
  map (fun h => waiter_ticket (fst h)) (FTC.handed c)
    ++ map waiter_ticket (FTC.transformQueue c)
  = seq 0 (FTC.nextTicket c).

(** What one round of the loop comes to for a dependency: it resolves to
    the empty module, or to a path under the public directory with its
    rewritten specifier, or to a path outside of it, or the resolver
    throws. *)
Inductive DepOutcome :=
| DepEmpty
| DepInside (resolved rewritten : string)
| DepOutside (resolved relResolved : string)
| DepThrows (e : JsError).

(** The outcome of the round of [dep], read off [resolveDep]. *)
Definition classify (P : Platform) (W : World) (path : string) (dew : bool)
    (publicDir base dep : string) : DepOutcome :=
  match jspmResolve W (stripTrailingSlash dep) path dew with
  | Err e => DepThrows e
  | Ok res =>
      match substituteBuiltin P res with
      | None => DepEmpty
      | Some resolved =>
          if startsWith resolved publicDir
          then DepInside resolved
                 (rewrittenSpecifier dew res (relativeSpecifier P base resolved))
          else DepOutside resolved (relativeSpecifier P base resolved)
      end
  end.

(** The round goes through. *)
Definition resolvesCleanly (o : DepOutcome) : Prop :=
  match o with
  | DepEmpty | DepInside _ _ => True
  | DepOutside _ _ | DepThrows _ => False
  end.

(** The entry the resolve map holds for a dependency: [null] for the empty
    module, the rewritten specifier when it differs from the dependency,
    nothing otherwise. *)
Definition expectedEntry (dep : string) (o : DepOutcome) : option (option string) :=
  match o with
  | DepEmpty => Some None
  | DepInside _ rewritten =>
      if bool_decide (rewritten <> dep) then Some (Some rewritten) else None
  | _ => None
  end.

(** The bytes a dependency feeds to the rolling hash. *)
Definition hashedPair (dep : string) (o : DepOutcome) : string :=
  match o with
  | DepEmpty => dep +:+ "@empty"
  | DepInside resolved _ => dep +:+ resolved
  | _ => ""
  end.

(** The bytes the whole loop feeds to the rolling hash. *)
Fixpoint hashedPairs (P : Platform) (W : World) (path : string) (dew : bool)
    (publicDir base : string) (deps : list string) : string :=
  match deps with
  | [] => ""
  | dep :: rest =>
      hashedPair dep (classify P W path dew publicDir base dep)
      +:+ hashedPairs P W path dew publicDir base rest
  end.

(** The effect of a task on the cache. *)
Definition exec {A} (m : Task A) (c : Cache) : Cache := finalState (m c).

(** The message that primes a worker with the source of a record. *)
Definition sourceMessage (P : Platform) (c : Cache) (rid : nat) : Message :=
  mkMessage "source"
    (SourceData (FTR.originalSource (FTC.heap c rid))
       (path_basename P (FTR.path (FTC.heap c rid))) (FTC.production c)).

(** What [assignWorker] does to the cache when worker [w] is free: it binds
    it, sends the source and arms the reply slot. *)
Definition primed (P : Platform) (rid w : nat) (c : Cache) : Cache :=
  exec (setWorker w (fun x => TW.mk (Some rid) (TW.msgResolve x) (TW.msgReject x)) ;;
        send w (sourceMessage P c rid) ;;
        arm w "source") c.

(** The messages of the two phases. *)
Definition analyzeMessage (dew : bool) : Message :=
  mkMessage (if dew then "analyze-cjs" else "analyze-esm") FalseData.

Definition transformMessage (dew : bool) (resolveMap : option ResolveMap) : Message :=
  mkMessage (if dew then "transform-dew" else "transform-esm") (MapData resolveMap).

(** The record is one for which [doTransform] sends a transform message:
    not a JSON file, and not a non-legacy record without dependencies. *)
Definition sendsTransform (record : FileTransformRecord) : Prop :=
  endsWith (FTR.path record) ".json" = false /\
  (FTR.dew record = true \/ exists dep deps, FTR.deps record = Some (dep :: deps)).

(** The worker the transform runs on: the one passed in, or one obtained
    from the pool. *)
Definition obtainsWorker (P : Platform) (W : World) (rid : nat) (worker : option nat)
    (c : Cache) (w : nat) (c1 : Cache) : Prop :=
  match worker with
  | Some w' => w' = w /\ c1 = c
  | None => assignWorker P W rid c = Returns w c1
  end.

(** No record has the empty string as its [fullHash]. *)
Definition hashesNonEmpty (c : Cache) : Prop :=
  forall rid, FTR.fullHash (FTC.heap c rid) <> Some "".

(** A [transform-esm] or [transform-dew] message. *)
Definition isTransform (m : Message) : bool := String.prefix "transform-" (msg_type m).

(** The [transform-*] messages among those sent. *)
Definition transformsSent (c : Cache) : list (nat * Message) :=
  List.filter (fun wm => isTransform (snd wm)) (FTC.sent c).

(** Record [n] is allocated, with the given path and variant. *)
Definition holdsRecord (n : nat) (path : string) (dew : bool) (c : Cache) : Prop :=
  (n < FTC.nextRecord c)%nat /\
  FTR.path (FTC.heap c n) = path /\
  FTR.dew (FTC.heap c n) = dew.

(** The cache once the body of the hash phase has ended in [cb]: the
    cleanup is scheduled and the settled promise is in the record. *)
Definition hashSettled (W : World) (rid : nat) (p : Promise HashResult) (cb : Cache) : Cache :=
  exec (update rid (FTR.set_hashPromise (Some p))) (exec (scheduleHashCleanup W rid) cb).

(** What the body of the hash phase leaves alone: the store, the scheduled
    callbacks, and of every record its path, variant, source, transform
    slot and watcher. *)
Definition sameOutsideHash (c c' : Cache) : Prop :=
  FTC.records c' = FTC.records c /\
  FTC.timeouts c' = FTC.timeouts c /\
  FTC.cacheClearInterval c' = FTC.cacheClearInterval c /\
  FTC.publicDir c' = FTC.publicDir c /\
  forall rid,
    FTR.transformPromise (FTC.heap c' rid) = FTR.transformPromise (FTC.heap c rid) /\
    FTR.path (FTC.heap c' rid) = FTR.path (FTC.heap c rid) /\
    FTR.dew (FTC.heap c' rid) = FTR.dew (FTC.heap c rid) /\
    FTR.originalSource (FTC.heap c' rid) = FTR.originalSource (FTC.heap c rid) /\
    FTR.watching (FTC.heap c' rid) = FTR.watching (FTC.heap c rid).

(** A worker that answers every message with data. *)
Definition cooperative (W : World) (w : nat) : Prop :=
  forall log, exists data, workerReply W w log = WData data.

(** How the dependencies of the current source are known: from the last
    analysis when the source is the one analysed, from the worker
    otherwise. *)
Definition analysesTo (P : Platform) (W : World) (c : Cache) (rid : nat) (src : string)
    (w : nat) (deps : list string) : Prop :=
  let record := FTC.heap c rid in
  (FTR.originalSourceHash record = Some (md5 P src) /\ FTR.deps record = Some deps) \/
  (FTR.originalSourceHash record <> Some (md5 P src) /\
   exists data,
     workerReply W w (FTC.sent c ++ [(w, sourceMessage P c rid);
                                     (w, analyzeMessage (FTR.dew (FTC.heap c rid)))]) = WData data /\
     rd_deps data = Some deps).

(** A record that is registered under the key of the request, watched,
    with no phase in place. *)
Definition idleRecord (c : Cache) (key : string) (rid : nat) : Prop :=
  FTC.records c !! key = Some (Fulfilled (SlotRecord rid)) /\
  FTR.hashPromise (FTC.heap c rid) = None /\
  FTR.transformPromise (FTC.heap c rid) = None /\
  FTR.watching (FTC.heap c rid) = true.

(** The key of the store for a request: the path without its [?dew]
    suffix, followed by that suffix. *)
Definition requestKey (filePath : string) : string :=
  (if endsWith filePath "?dew"
   then substr0 filePath (String.length filePath - 4) else filePath)
  +:+ (if endsWith filePath "?dew" then "?dew" else "").

(** What a task settles to, without the state it leaves. *)
Definition result {A} (o : Outcome A) : option (Settled A) :=
  match o with
  | Returns a _ => Some (Ok a)
  | Throws e _ => Some (Err e)
  | Suspended _ => None
  end.

(** What the constructor fixes. *)
Definition configuration (c : Cache) : Z * bool * string * Z * nat :=
  (FTC.maxWatchCount c, FTC.production c, FTC.publicDir c, FTC.cacheClearInterval c,
   length (FTC.workers c)).

(** At most [m] watchers, [m] being the limit of the instance. *)
Definition watchBounded (m : Z) (c : Cache) : Prop :=
  FTC.maxWatchCount c = m /\ Z.of_nat (length (FTC.watching c)) <= m.

(** The watchers opened so far are still there. *)
Definition keepsWatchers (opened : list nat) (c : Cache) : Prop :=
  opened `prefix_of` FTC.watching c.

(** No record has a modification time. *)
Definition mtimesUndefined (c : Cache) : Prop :=
  forall rid, FTR.mtime (FTC.heap c rid) = None.

(** The format the resolver gives is one the variant transforms. *)
Definition accepted (dew : bool) (fmt : option string) : Prop :=
  if dew then fmt = Some "cjs" \/ fmt = Some "json" else fmt = Some "esm".

(** The path a request stands for: the path without [?dew]. *)
Definition requestPath (filePath : string) : string :=
  if endsWith filePath "?dew" then substr0 filePath (String.length filePath - 4) else filePath.

(** The error a round ends the loop with. *)
Definition failure (P : Platform) (path publicDir : string) (o : DepOutcome)
    : option JsError :=
  match o with
  | DepThrows e => Some e
  | DepOutside _ relResolved => Some (outsidePublicDir P path publicDir relResolved)
  | _ => None
  end.

(** Percent-decoding, used to tell encoded names apart. *)
Definition hexValue (c : ascii) : nat :=
  let n := nat_of_ascii c in
  if (n <? 58)%nat then (n - 48)%nat else (n - 55)%nat.

Fixpoint unescape (s : string) : string :=
  match s with
  | EmptyString => EmptyString
  | String "%" (String h (String l rest)) =>
      String (ascii_of_nat (16 * hexValue h + hexValue l)) (unescape rest)
  | String c rest => String c (unescape rest)
  end.

(** What one character of the name becomes. *)
Definition encoded (c : ascii) : string :=
  if Common.invalidFileChar c then Common.replacer c else String c "".

(** The characters of the class that an encoded name may hold. *)
Definition kept : list ascii := list_ascii_of_string "%!'()-.01".

Definition harmless (c : ascii) : bool :=
  negb (Common.invalidFileChar c) || existsb (Ascii.eqb c) kept.

(** ** More of the small site *)
Module Tour.

Import Scenario.

(** A module whose second dependency the resolver does not know. *)
Definition files : list (string * string) :=
  ("/pub/f.js", "import b, zzz, c") :: Example.files.

Definition analysis : list (string * list string) :=
  ("import b, zzz, c", ["b"; "zzz"; "c"]) :: Example.analysis.

Definition withUnknown : World := world 0 files Example.table analysis.

(** [b.js] edited: it now has a dependency. *)
Definition plainEdited : World :=
  Example.withWorkers Example.obliging
    (world 600 (("/pub/b.js", "import b") :: Example.files) Example.table Example.analysis).

(** An instance that watches nothing. *)
Definition unwatching : Cache := constructor posix Example.atStart "/pub" 500 0 false.

(** The record of a path, just created. *)
Definition created (path : string) : Cache :=
  exec (lookupRecord Example.atStart path false "") Example.fresh.

(** [b.js] served, and its hash slot emptied by the timeout. *)
Definition servedPlainIdle : Cache :=
  run posix [(Example.atStart, Get "/pub/b.js" None); (Example.later, TimeoutFires 0)]
    Example.fresh.

(** The JSON file served, and its hash slot emptied by the timeout. *)
Definition servedJsonIdle : Cache :=
  run posix [(Example.atStart, Get "/pub/a.json?dew" None); (Example.later, TimeoutFires 0)]
    Example.fresh.

(** The text file and the JSON file requested without [?dew]. *)
Definition refused : Cache :=
  run posix [(Example.atStart, Get "/pub/notes.txt" None);
             (Example.atStart, Get "/pub/a.json" None)] Example.fresh.

(** [f.js] requested, in vain. *)
Definition unresolved : Cache := run posix [(withUnknown, Get "/pub/f.js" None)] Example.fresh.

(** A module the workers cannot analyse. *)
Definition broken (time : Z) : World :=
  world time (("/pub/bad.js", "import (") :: Example.files) Example.table Example.analysis.



(** The reference platform with one CPU. *)
Definition singleCore : Platform :=
  mkPlatform (md5hex posix) (path_sep posix) (path_dirname posix) (path_basename posix)
    (path_relative posix) (isWindows posix) (resolveBuiltin posix) 1.

(** An instance with a single worker. *)
Definition lone : Cache := constructor singleCore Example.atStart "/pub" 500 10 false.

End Tour.

(** * Properties *)

(** *** Invariants of tasks

    [preserves I m]: whatever [m] does and however it ends, it takes a
    cache satisfying [I] to a cache satisfying [I]. *)

Section Preserves.

Context {A B : Type} (I : Cache -> Prop).

Lemma preserves_ret (a : A) : preserves I (ret a).
Proof. intros c Hc. exact Hc. Qed.

Lemma preserves_throw (e : JsError) : preserves I (@throw A e).
Proof. intros c Hc. exact Hc. Qed.

Lemma preserves_suspend : preserves I (@suspend A).
Proof. intros c Hc. exact Hc. Qed.

Lemma preserves_bind (m : Task A) (k : A -> Task B) :
  preserves I m -> (forall a, preserves I (k a)) -> preserves I (bind m k).
Proof.
  intros Hm Hk c Hc. unfold bind. specialize (Hm c Hc).
  destruct (m c); simpl in *; auto. apply Hk; auto.
Qed.

Lemma preserves_tryCatch (m : Task A) (h : JsError -> Task A) :
  preserves I m -> (forall e, preserves I (h e)) -> preserves I (tryCatch m h).
Proof.
  intros Hm Hh c Hc. unfold tryCatch. specialize (Hm c Hc).
  destruct (m c); simpl in *; auto. apply Hh; auto.
Qed.

Lemma preserves_tryFinally (m : Task A) (f : Task unit) :
  preserves I m -> preserves I f -> preserves I (tryFinally m f).
Proof.
  intros Hm Hf c Hc. unfold tryFinally. specialize (Hm c Hc).
  destruct (m c) as [a c'|e c'|c']; simpl in *; auto.
  - specialize (Hf c' Hm). unfold bind. destruct (f c'); simpl in *; auto.
  - specialize (Hf c' Hm). unfold bind. destruct (f c'); simpl in *; auto.
Qed.

Lemma preserves_settle (m : Task A) : preserves I m -> preserves I (settle m).
Proof.
  intros Hm c Hc. unfold settle. specialize (Hm c Hc).
  destruct (m c); simpl in *; auto.
Qed.

Lemma preserves_detach (m : Task A) : preserves I m -> preserves I (detach m).
Proof. intros Hm c Hc. unfold detach. simpl. auto. Qed.

Lemma preserves_await (p : Promise A) : preserves I (await p).
Proof. destruct p; intros c Hc; exact Hc. Qed.

Lemma preserves_awaitSettled (r : Settled A) : preserves I (awaitSettled r).
Proof. destruct r; intros c Hc; exact Hc. Qed.

Lemma preserves_this : preserves I this.
Proof. intros c Hc. exact Hc. Qed.

Lemma preserves_deref rid : preserves I (deref rid).
Proof. intros c Hc. exact Hc. Qed.

Lemma preserves_modify (f : Cache -> Cache) :
  (forall c, I c -> I (f c)) -> preserves I (modify f).
Proof. intros Hf c Hc. simpl. auto. Qed.

Lemma preserves_alloc (record : FileTransformRecord) :
  (forall c, I c -> I (allocated record c)) -> preserves I (alloc record).
Proof. intros Hf c Hc. simpl. auto. Qed.

End Preserves.

Create HintDb frame.

(** Decompose a task along its structure; [leaf] settles the state
    updates, the hint database what is known of whole functions. *)
Ltac frame_step leaf :=
  lazymatch goal with
  | |- preserves _ (ret _) => apply preserves_ret
  | |- preserves _ (throw _) => apply preserves_throw
  | |- preserves _ suspend => apply preserves_suspend
  | |- preserves _ this => apply preserves_this
  | |- preserves _ (deref _) => apply preserves_deref
  | |- preserves _ (await _) => apply preserves_await
  | |- preserves _ (awaitSettled _) => apply preserves_awaitSettled
  | |- preserves _ (bind _ _) => apply preserves_bind; [| intros ?]
  | |- preserves _ (tryCatch _ _) => apply preserves_tryCatch; [| intros ?]
  | |- preserves _ (tryFinally _ _) => apply preserves_tryFinally
  | |- preserves _ (settle _) => apply preserves_settle
  | |- preserves _ (detach _) => apply preserves_detach
  | |- preserves _ (modify _) => apply preserves_modify; leaf
  | |- preserves _ (alloc _) => apply preserves_alloc; leaf
  | |- preserves _ (match ?x with _ => _ end) => destruct x
  | |- preserves _ (let _ := _ in _) => cbv zeta
  | |- preserves _ _ => solve [auto with frame]
  end.

Ltac frame leaf := repeat frame_step leaf.

Ltac unfold_class :=
  unfold get, hashPhase, lookupRecord, checkFreshness, createRecord, refreshRecord,
    notModified, completed, onWatchEvent, doTransform, transformBody, doHash, hashBody,
    hashCleanup, scheduleHashCleanup, getResolveMap, watch, getMtime, freeIfAny.

Ltac unfold_messages := unfold awaitReply, arm, send.

Ltac unfold_pool :=
  unfold assignWorker, freeWorker, resolveNextJob, enqueue; unfold_messages.

Ltac unfold_prims := unfold update, setWorker, setSlot.

(** An invariant of every task is an invariant of every run. *)
Lemma run_invariant (P : Platform) (I : Cache -> Prop) :
  (forall W filePath hash, preserves I (get P W filePath hash)) ->
  (forall W rid type, preserves I (onWatchEvent P W rid type)) ->
  (forall W c, FTC.cacheInterval c <> None -> I c -> I (finalState (clearResolveCache W c))) ->
  (forall i rid c, I c ->
     I (finalState (hashCleanup rid (FTC.set_timeouts (delete i (FTC.timeouts c)) c)))) ->
  forall turns c, I c -> I (run P turns c).
Proof.
  intros Hget Hwatch Htick Htimeout turns.
  induction turns as [|[W ev] turns IH]; intros c Hc; simpl; [exact Hc|].
  apply IH. destruct ev as [filePath hash|rid type| |i]; simpl.
  - apply Hget, Hc.
  - case_bool_decide; [apply Hwatch, Hc | exact Hc].
  - destruct (FTC.cacheInterval c) eqn:E; [|exact Hc].
    apply Htick; [congruence | exact Hc].
  - destruct (FTC.timeouts c !! i) as [[due rid]|]; [|exact Hc].
    destruct (due <=? now W); [|exact Hc]. apply Htimeout, Hc.
Qed.

(** *** The resolver-cache timer *)

Lemma get_keeps_timer P W filePath hash v :
  preserves (fun c => timerView c = v) (get P W filePath hash).
Proof.
  unfold_class. unfold_pool. unfold_prims.
  frame ltac:(intros ? H; exact H).
Qed.

Lemma onWatchEvent_keeps_timer P W rid type v :
  preserves (fun c => timerView c = v) (onWatchEvent P W rid type).
Proof.
  unfold_class. unfold_pool. unfold_prims.
  frame ltac:(intros ? H; exact H).
Qed.

Lemma run_keeps_timer P turns c :
  FTC.cacheInterval c = None -> timerView (run P turns c) = timerView c.
Proof.
  intros Hnone.
  apply (run_invariant P (fun c' => timerView c' = timerView c)); try reflexivity.
  - intros. apply get_keeps_timer.
  - intros. apply onWatchEvent_keeps_timer.
  - intros W c' Hsome Hview. exfalso. apply Hsome.
    unfold timerView in Hview. congruence.
  - intros i rid c' Hview. exact Hview.
Qed.

(** C10: with a zero or negative [cacheClearInterval] the constructor leaves
    [cacheInterval] unset, and then in every run of the instance the
    resolver cache is the one the constructor made (no timer wipes it) and
    [nextExpiry] keeps the value the constructor gave it, construction time
    plus [cacheClearInterval]. *)
Theorem no_clear_timer_without_positive_interval
    (P : Platform) (W0 : World) (publicDir : string)
    (cacheClearInterval maxWatchCount : Z) (production : bool)
    (turns : list (World * Event)) :
  cacheClearInterval <= 0 ->
  FTC.cacheInterval (constructor P W0 publicDir cacheClearInterval maxWatchCount production)
    = None /\
  let c := run P turns
             (constructor P W0 publicDir cacheClearInterval maxWatchCount production) in
  FTC.cacheInterval c = None /\
  FTC.resolveCache c = 0%nat /\
  FTC.nextExpiry c = now W0 + cacheClearInterval.
Proof.
  intros Hle.
  assert (Hnone : FTC.cacheInterval
            (constructor P W0 publicDir cacheClearInterval maxWatchCount production) = None).
  { simpl. destruct (Z.gtb_spec cacheClearInterval 0); [lia | reflexivity]. }
  split; [exact Hnone|].
  pose proof (run_keeps_timer P turns _ Hnone) as Hview.
  unfold timerView in Hview. simpl in *.
  injection Hview as Hcache Hexpiry Hinterval _.
  rewrite Hinterval, Hcache, Hexpiry. rewrite Hnone. auto.
Qed.

(** *** The wait queue *)

Lemma assignWorker_busy P W rid c :
  findFree (FTC.workers c) 0 = None ->
  assignWorker P W rid c = Suspended (enqueued rid c).
Proof.
  intros Hbusy. unfold assignWorker, bind, this. rewrite Hbusy. reflexivity.
Qed.

Lemma waitersFrom_snoc t rids rid :
  waitersFrom t (rids ++ [rid]) = waitersFrom t rids ++ [mkWaiter rid (t + length rids)].
Proof.
  unfold waitersFrom. rewrite imap_app. simpl. do 3 f_equal. lia.
Qed.

Lemma assignAll_busy P W rids c :
  findFree (FTC.workers c) 0 = None ->
  let c1 := assignAll P W rids c in
  FTC.transformQueue c1 = FTC.transformQueue c ++ waitersFrom (FTC.nextTicket c) rids /\
  FTC.nextTicket c1 = (FTC.nextTicket c + length rids)%nat /\
  FTC.workers c1 = FTC.workers c /\
  FTC.handed c1 = FTC.handed c.
Proof.
  intros Hbusy. induction rids as [|rid rids IH] using rev_ind; simpl.
  - unfold waitersFrom. simpl. rewrite app_nil_r. auto with lia.
  - unfold assignAll in *. rewrite foldl_app. simpl.
    destruct IH as (Hq & Ht & Hw & Hh).
    rewrite assignWorker_busy by (rewrite Hw; exact Hbusy).
    simpl. rewrite Hq, Ht, Hw, Hh, waitersFrom_snoc, length_app. simpl.
    rewrite <- app_assoc. auto with lia.
Qed.

Lemma freeWorker_waiting w next rest c :
  FTC.transformQueue c = next :: rest ->
  freeWorker w c = Returns tt (handedOver w next rest c).
Proof.
  intros Hq. unfold freeWorker, setWorker, bind, modify, this. simpl. rewrite Hq. reflexivity.
Qed.

Lemma freeWorker_idle w c :
  FTC.transformQueue c = [] ->
  freeWorker w c =
    Returns tt (FTC.set_workers (alter (fun _ => TW.mk None None None) w (FTC.workers c)) c).
Proof.
  intros Hq. unfold freeWorker, setWorker, bind, modify, this. simpl. rewrite Hq. reflexivity.
Qed.

Lemma handedOver_worker w next rest c :
  (w < length (FTC.workers c))%nat ->
  FTC.workers (handedOver w next rest c) !! w
    = Some (TW.mk (Some (waiter_record next)) None None).
Proof.
  intros Hw. simpl.
  destruct (lookup_lt_is_Some_2 (FTC.workers c) w Hw) as [x Hx].
  rewrite !list_lookup_alter_eq, Hx. reflexivity.
Qed.

Lemma freeAll_waiting ws : forall waiters c,
  FTC.transformQueue c = waiters ->
  length ws = length waiters ->
  FTC.handed (freeAll ws c) = FTC.handed c ++ zip waiters ws /\
  FTC.transformQueue (freeAll ws c) = [] /\
  length (FTC.workers (freeAll ws c)) = length (FTC.workers c).
Proof.
  induction ws as [|w ws IH]; intros waiters c Hq Hlen.
  - destruct waiters; [|discriminate]. simpl. rewrite app_nil_r. auto.
  - destruct waiters as [|next rest]; [discriminate|].
    unfold freeAll in *. simpl. rewrite (freeWorker_waiting w next rest c Hq). simpl.
    destruct (IH rest (handedOver w next rest c)) as (Hh & Hq' & Hl);
      [reflexivity | simpl in Hlen; lia |].
    rewrite Hh, Hq', Hl. simpl. rewrite <- app_assoc.
    rewrite !length_alter. auto.
Qed.

Lemma freeAll_snoc ws w c :
  freeAll (ws ++ [w]) c = finalState (freeWorker w (freeAll ws c)).
Proof. unfold freeAll. rewrite foldl_app. reflexivity. Qed.

Lemma freeAll_queue ws : forall waiters c,
  FTC.transformQueue c = waiters ->
  (length ws <= length waiters)%nat ->
  FTC.transformQueue (freeAll ws c) = drop (length ws) waiters /\
  length (FTC.workers (freeAll ws c)) = length (FTC.workers c).
Proof.
  induction ws as [|w ws IH]; intros waiters c Hq Hlen.
  - simpl. rewrite drop_0. auto.
  - destruct waiters as [|next rest]; [simpl in Hlen; lia|].
    unfold freeAll in *. simpl. rewrite (freeWorker_waiting w next rest c Hq). simpl.
    destruct (IH rest (handedOver w next rest c)) as (Hq' & Hl);
      [reflexivity | simpl in Hlen; lia |].
    rewrite Hq', Hl. simpl. rewrite !length_alter. auto.
Qed.

(** C8: with every worker busy and nobody waiting, let [rids] call
    [assignWorker] in turn and let the workers [ws] be freed in turn, as
    many as there are waiters.  Every call is queued behind the earlier
    ones; the i-th [freeWorker] clears its worker's record and reply slots
    and binds the worker to the record of the i-th waiter; so the
    hand-overs are exactly the waiters in enqueue order paired with the
    workers in the order they were freed, and nobody is left waiting. *)
Theorem waiters_get_workers_in_enqueue_order
    (P : Platform) (W : World) (c : Cache) (rids ws : list nat) :
  findFree (FTC.workers c) 0 = None ->
  FTC.transformQueue c = [] ->
  length ws = length rids ->
  let c1 := assignAll P W rids c in
  let c2 := freeAll ws c1 in
  FTC.transformQueue c1 = waitersFrom (FTC.nextTicket c) rids /\
  FTC.handed c2 = FTC.handed c ++ zip (waitersFrom (FTC.nextTicket c) rids) ws /\
  map (fun h => (waiter_record (fst h), snd h)) (drop (length (FTC.handed c)) (FTC.handed c2))
    = zip rids ws /\
  FTC.transformQueue c2 = [] /\
  forall i w rid,
    ws !! i = Some w -> rids !! i = Some rid -> (w < length (FTC.workers c))%nat ->
    FTC.workers (freeAll (take (S i) ws) c1) !! w = Some (TW.mk (Some rid) None None).
Proof.
  intros Hbusy Hempty Hlen c1 c2.
  destruct (assignAll_busy P W rids c Hbusy) as (Hq & Ht & Hw & Hh).
  fold c1 in Hq, Ht, Hw, Hh. rewrite Hempty in Hq. simpl in Hq.
  assert (Hwl : length (waitersFrom (FTC.nextTicket c) rids) = length rids).
  { unfold waitersFrom. apply length_imap. }
  destruct (freeAll_waiting ws _ c1 Hq) as (Hh2 & Hq2 & _); [lia|].
  fold c2 in Hh2, Hq2. rewrite Hh in Hh2.
  split; [exact Hq|]. split; [exact Hh2|]. split; [|split; [exact Hq2|]].
  - rewrite Hh2, drop_app_length.
    unfold waitersFrom. clear -Hlen. generalize (FTC.nextTicket c) as t.
    revert ws Hlen. induction rids as [|rid rids IH]; intros [|w ws] Hlen t;
      try discriminate; simpl; [reflexivity|].
    f_equal. specialize (IH ws ltac:(simpl in Hlen; lia) (S t)).
    rewrite <- IH. do 2 f_equal. apply imap_ext. intros. simpl. f_equal. lia.
  - intros i w rid Hi Hr Hlt.
    rewrite (take_S_r ws i w Hi), freeAll_snoc.
    pose proof (lookup_lt_Some _ _ _ Hi) as Hilt.
    destruct (freeAll_queue (take i ws) _ c1 Hq) as (Hqi & Hli).
    { rewrite length_take. lia. }
    rewrite length_take, Nat.min_l in Hqi by lia.
    assert (Hnext : waitersFrom (FTC.nextTicket c) rids !! i
                    = Some (mkWaiter rid (FTC.nextTicket c + i))).
    { unfold waitersFrom. rewrite list_lookup_imap, Hr. reflexivity. }
    rewrite (drop_S _ _ _ Hnext) in Hqi.
    rewrite (freeWorker_waiting w _ _ _ Hqi). simpl finalState.
    rewrite handedOver_worker; [reflexivity|]. rewrite Hli, Hw. exact Hlt.
Qed.

Lemma freeWorker_fifo w : preserves fifo (freeWorker w).
Proof.
  intros c Hc. destruct (FTC.transformQueue c) as [|next rest] eqn:Hq.
  - rewrite freeWorker_idle by exact Hq. unfold fifo in *. simpl. exact Hc.
  - rewrite (freeWorker_waiting w next rest c Hq). unfold fifo in *. simpl.
    rewrite Hq in Hc. simpl in Hc. rewrite map_app, <- app_assoc. exact Hc.
Qed.

Lemma assignWorker_fifo P W rid : preserves fifo (assignWorker P W rid).
Proof.
  unfold assignWorker, awaitReply, arm, send, setWorker.
  frame ltac:(intros ? H; exact H).
  unfold enqueue. apply preserves_modify. intros c0 Hc. unfold fifo in *. simpl.
  rewrite map_app, app_assoc, Hc. simpl.
  exact (eq_sym (seq_S (FTC.nextTicket c0) 0)).
Qed.

#[local] Hint Resolve freeWorker_fifo assignWorker_fifo : frame.

Lemma get_fifo P W filePath hash : preserves fifo (get P W filePath hash).
Proof.
  unfold_class. unfold_messages. unfold_prims. frame ltac:(intros ? H; exact H).
Qed.

Lemma onWatchEvent_fifo P W rid type : preserves fifo (onWatchEvent P W rid type).
Proof.
  unfold_class. unfold_messages. unfold_prims. frame ltac:(intros ? H; exact H).
Qed.

Lemma run_fifo P W0 publicDir cacheClearInterval maxWatchCount production turns :
  fifo (run P turns (constructor P W0 publicDir cacheClearInterval maxWatchCount production)).
Proof.
  apply run_invariant.
  - intros. apply get_fifo.
  - intros. apply onWatchEvent_fifo.
  - intros W c _ Hc. exact Hc.
  - intros i rid c Hc. exact Hc.
  - reflexivity.
Qed.

(** *** The resolve map *)

Lemma append_assoc (a b c : string) : (a +:+ b) +:+ c = a +:+ (b +:+ c).
Proof.
  induction a as [|ch a IH]; [reflexivity|].
  change (String ch ((a +:+ b) +:+ c) = String ch (a +:+ (b +:+ c))).
  rewrite IH. reflexivity.
Qed.

Lemma append_empty_r (a : string) : a +:+ "" = a.
Proof.
  induction a as [|ch a IH]; [reflexivity|].
  change (String ch (a +:+ "") = String ch a).
  rewrite IH. reflexivity.
Qed.

Section ResolveMap.

Variables (P : Platform) (W : World) (path : string) (dew : bool) (publicDir base : string).

(** Assignments to the map: a key other than [__proto__] becomes an own
    property, and no assignment touches another key. *)
Lemma lookup_assign_eq key value (resolveMap : ResolveMap) :
  key <> "__proto__" -> assign key value resolveMap !! key = Some value.
Proof.
  intros Hkey. unfold assign. rewrite bool_decide_eq_false_2 by exact Hkey.
  apply (lookup_insert_eq (own resolveMap)).
Qed.

Lemma lookup_assign_ne key value (resolveMap : ResolveMap) k :
  k <> key -> assign key value resolveMap !! k = resolveMap !! k.
Proof.
  intros Hk. unfold assign.
  destruct (bool_decide (key = "__proto__") && inherits resolveMap).
  - destruct value; reflexivity.
  - apply (lookup_insert_ne (own resolveMap)). congruence.
Qed.

(** While the object inherits from [Object.prototype], an assignment to
    [__proto__] creates no property. *)
Lemma lookup_assign_proto value (resolveMap : ResolveMap) k :
  inherits resolveMap = true ->
  assign "__proto__" value resolveMap !! k = resolveMap !! k.
Proof.
  intros Hproto. unfold assign. rewrite Hproto, bool_decide_eq_true_2 by reflexivity.
  destruct value; reflexivity.
Qed.

Lemma resolveDep_clean dep resolveMap hash :
  resolvesCleanly (classify P W path dew publicDir base dep) ->
  exists resolveMap',
    resolveDep P W path dew publicDir base dep (resolveMap, hash)
      = Ok (resolveMap',
            hash +:+ hashedPair dep (classify P W path dew publicDir base dep)) /\
    (dep <> "__proto__" ->
     resolveMap' !! dep
       = match expectedEntry dep (classify P W path dew publicDir base dep) with
         | Some entry => Some entry
         | None => resolveMap !! dep
         end) /\
    forall k, k <> dep -> resolveMap' !! k = resolveMap !! k.
Proof.
  unfold classify, resolveDep, hashUpdate.
  destruct (jspmResolve W _ _ _) as [res|e]; [|intros []].
  destruct (substituteBuiltin P res) as [resolved|].
  - destruct (startsWith resolved publicDir); simpl; [intros _|intros []].
    rewrite append_assoc.
    set (rewritten := rewrittenSpecifier dew res (relativeSpecifier P base resolved)).
    destruct (decide (dep = rewritten)) as [Heq|Hne].
    + exists resolveMap. rewrite !bool_decide_eq_false_2 by congruence. auto.
    + exists (assign dep (Some rewritten) resolveMap).
      rewrite !bool_decide_eq_true_2 by congruence.
      split; [reflexivity|]. split; [apply lookup_assign_eq|].
      intros k Hk. apply lookup_assign_ne. exact Hk.
  - intros _. exists (assign dep None resolveMap). simpl.
    rewrite append_assoc. split; [reflexivity|]. split; [apply lookup_assign_eq|].
    intros k Hk. apply lookup_assign_ne. exact Hk.
Qed.

Lemma resolveDep_outside dep acc resolved relResolved :
  classify P W path dew publicDir base dep = DepOutside resolved relResolved ->
  resolveDep P W path dew publicDir base dep acc
    = Err (outsidePublicDir P path publicDir relResolved).
Proof.
  unfold classify, resolveDep. destruct acc as [resolveMap hash].
  destruct (jspmResolve W _ _ _) as [res|e]; [|discriminate].
  destruct (substituteBuiltin P res) as [resolved'|]; [|discriminate].
  destruct (startsWith resolved' publicDir); [discriminate|].
  intros [= <- <-]. reflexivity.
Qed.

Lemma resolveDeps_app deps1 deps2 acc :
  resolveDeps P W path dew publicDir base (deps1 ++ deps2) acc
  = match resolveDeps P W path dew publicDir base deps1 acc with
    | Ok acc' => resolveDeps P W path dew publicDir base deps2 acc'
    | Err e => Err e
    end.
Proof.
  revert acc. induction deps1 as [|dep deps1 IH]; intros acc; simpl; [reflexivity|].
  destruct (resolveDep P W path dew publicDir base dep acc); [apply IH | reflexivity].
Qed.

Lemma hashedPairs_app deps1 deps2 :
  hashedPairs P W path dew publicDir base (deps1 ++ deps2)
  = hashedPairs P W path dew publicDir base deps1 +:+ hashedPairs P W path dew publicDir base deps2.
Proof.
  induction deps1 as [|dep deps1 IH]; simpl; [reflexivity|].
  rewrite IH, append_assoc. reflexivity.
Qed.

(** The loop over dependencies that all resolve cleanly, from the empty
    map and the fresh hash object.  What the map holds is told for every
    key but [__proto__]. *)
Lemma resolveDeps_clean deps :
  Forall (fun dep => resolvesCleanly (classify P W path dew publicDir base dep)) deps ->
  exists resolveMap : ResolveMap,
    resolveDeps P W path dew publicDir base deps (∅, createHash)
      = Ok (resolveMap, hashedPairs P W path dew publicDir base deps) /\
    forall dep,
      dep <> "__proto__" ->
      resolveMap !! dep
      = if bool_decide (dep ∈ deps)
        then expectedEntry dep (classify P W path dew publicDir base dep)
        else None.
Proof.
  induction deps as [|dep deps IH] using rev_ind; intros Hclean.
  - exists ∅. split; [reflexivity|]. intros dep _.
    rewrite bool_decide_eq_false_2 by apply not_elem_of_nil.
    apply (lookup_empty (M := gmap string)).
  - apply Forall_app in Hclean as [Hdeps Hdep]. apply Forall_inv in Hdep.
    destruct (IH Hdeps) as (resolveMap & Hrun & Hmap).
    destruct (resolveDep_clean dep resolveMap (hashedPairs P W path dew publicDir base deps) Hdep)
      as (resolveMap' & Hstep & Hhere & Hother).
    exists resolveMap'. split.
    + rewrite resolveDeps_app, Hrun. cbn [resolveDeps]. rewrite Hstep.
      rewrite hashedPairs_app. cbn [hashedPairs]. rewrite append_empty_r. reflexivity.
    + intros k Hk. destruct (decide (k = dep)) as [->|Hne].
      * rewrite (Hhere Hk), (Hmap dep Hk).
        rewrite (bool_decide_eq_true_2 (dep ∈ deps ++ [dep]))
          by (apply elem_of_app; right; apply list_elem_of_singleton; reflexivity).
        destruct (expectedEntry dep _) eqn:Hentry; [reflexivity|].
        case_bool_decide; reflexivity.
      * rewrite (Hother k Hne), (Hmap k Hk).
        rewrite (bool_decide_ext (k ∈ deps) (k ∈ deps ++ [dep])); [reflexivity|].
        rewrite elem_of_app, list_elem_of_singleton. tauto.
Qed.

(** The loop stops at the first dependency outside of the public
    directory. *)
Lemma resolveDeps_outside before dep after resolved relResolved :
  Forall (fun dep => resolvesCleanly (classify P W path dew publicDir base dep)) before ->
  classify P W path dew publicDir base dep = DepOutside resolved relResolved ->
  forall acc,
    resolveDeps P W path dew publicDir base (before ++ dep :: after) acc
      = Err (outsidePublicDir P path publicDir relResolved).
Proof.
  intros Hbefore Hdep. induction Hbefore as [|dep' before Hdep' _ IH]; intros acc; simpl.
  - rewrite (resolveDep_outside _ _ _ _ Hdep). reflexivity.
  - destruct acc as [resolveMap hash].
    destruct (resolveDep_clean dep' resolveMap hash Hdep') as (resolveMap' & -> & _).
    apply IH.
Qed.

End ResolveMap.

(** *** Running tasks *)

Lemma bind_Returns {A B} (m : Task A) (k : A -> Task B) c a c' :
  m c = Returns a c' -> bind m k c = k a c'.
Proof. intros H. unfold bind. rewrite H. reflexivity. Qed.

Lemma bind_Throws {A B} (m : Task A) (k : A -> Task B) c e c' :
  m c = Throws e c' -> bind m k c = Throws e c'.
Proof. intros H. unfold bind. rewrite H. reflexivity. Qed.

Lemma bind_Returns_inv {A B} (m : Task A) (k : A -> Task B) c b c2 :
  bind m k c = Returns b c2 -> exists a c1, m c = Returns a c1 /\ k a c1 = Returns b c2.
Proof. unfold bind. destruct (m c) as [a c1| |]; [eauto | discriminate..]. Qed.

Lemma updateHeap_eq rid f h : updateHeap rid f h rid = f (h rid).
Proof. unfold updateHeap. rewrite Nat.eqb_refl. reflexivity. Qed.

Lemma updateHeap_ne rid rid' f h : rid' <> rid -> updateHeap rid f h rid' = h rid'.
Proof. intros H. unfold updateHeap. rewrite (proj2 (Nat.eqb_neq rid' rid) H). reflexivity. Qed.

Ltac unfold_task :=
  unfold exec, tryCatch, tryFinally, settle, detach, await, awaitSettled;
  unfold bind, ret, throw, suspend, this, deref, modify.

Ltac reduce :=
  cbn -[endsWith startsWith md5 updateHeap Nat.eqb lookup insert alter bool_decide
        resolveDeps String.append String.eqb getResolveMap assignWorker freeWorker
        freeIfAny doHash doTransform isGlobalCache].

(** [freeWorker] always returns. *)
Lemma freeWorker_returns w c : freeWorker w c = Returns tt (exec (freeWorker w) c).
Proof.
  unfold exec. destruct (FTC.transformQueue c) as [|next rest] eqn:Hq.
  - rewrite freeWorker_idle by exact Hq. reflexivity.
  - rewrite (freeWorker_waiting w next rest c Hq). reflexivity.
Qed.

Lemma freeIfAny_returns worker c : freeIfAny worker c = Returns tt (exec (freeIfAny worker) c).
Proof. destruct worker as [w|]; [apply freeWorker_returns | reflexivity]. Qed.

Lemma assignWorker_free P W rid c w :
  findFree (FTC.workers c) 0 = Some w ->
  assignWorker P W rid c
  = match workerReply W w (FTC.sent c ++ [(w, sourceMessage P c rid)]) with
    | WData _ => Returns w (primed P rid w c)
    | WError data => Throws (withCode "ETRANSFORM" (Error data)) (primed P rid w c)
    end.
Proof.
  intros Hfree. unfold assignWorker, primed, sourceMessage, awaitReply, arm, send, setWorker.
  unfold_task. rewrite Hfree. reduce.
  destruct (workerReply W w _); reflexivity.
Qed.

Lemma getResolveMap_run P W rid c :
  getResolveMap P W rid c
  = match FTR.deps (FTC.heap c rid) with
    | None => Throws (TypeError "record.deps is not iterable") c
    | Some deps =>
        match resolveDeps P W (FTR.path (FTC.heap c rid)) (FTR.dew (FTC.heap c rid))
                (FTC.publicDir c) (path_dirname P (FTR.path (FTC.heap c rid)))
                deps (∅, createHash) with
        | Ok (resolveMap, hash) => Returns (resolveMap, md5hex P hash) c
        | Err e => Throws e c
        end
    end.
Proof.
  unfold getResolveMap. unfold_task.
  destruct (FTR.deps (FTC.heap c rid)) as [deps|]; [|reflexivity].
  destruct (resolveDeps _ _ _ _ _ _ _ _) as [[resolveMap hash]|e]; reflexivity.
Qed.

(** *** The hash phase *)

Section HashPhase.

Variables (P : Platform) (W : World) (rid : nat) (c : Cache) (src : string).

Let record := FTC.heap c rid.

Hypothesis idle : FTR.hashPromise record = None.

Hypothesis hasSource : FTR.originalSource record = Some src.

Hypothesis notJson : endsWith (FTR.path record) ".json" = false.

(** The source is the one last analysed: no worker, no message, same deps. *)
Lemma doHash_unchanged :
  FTR.originalSourceHash record = Some (md5 P src) ->
  let c' := exec (doHash P W rid) c in
  FTR.deps (FTC.heap c' rid) = FTR.deps record /\
  FTC.workers c' = FTC.workers c /\
  FTC.sent c' = FTC.sent c /\
  FTC.transformQueue c' = FTC.transformQueue c /\
  forall hr c'', doHash P W rid c = Returns hr c'' -> hr_worker hr = None.
Proof.
  intros Hsame. subst record.
  unfold doHash, hashBody, scheduleHashCleanup, update. unfold_task. rewrite idle. reduce.
  rewrite !updateHeap_eq. reduce. rewrite hasSource, notJson, Hsame.
  rewrite bool_decide_eq_false_2 by (intros H; apply H; reflexivity).
  rewrite getResolveMap_run. reduce. rewrite !updateHeap_eq. reduce.
  destruct (FTR.deps (FTC.heap c rid)) as [deps|] eqn:Hdeps; reduce.
  - destruct (resolveDeps _ _ _ _ _ _ _ _) as [[resolveMap hash]|e]; reduce;
      rewrite !updateHeap_eq; reduce; unfold ret, throw;
      (do 4 (split; [congruence|])); [|discriminate].
    intros hr c'' [= <- _]. reflexivity.
  - rewrite !updateHeap_eq. reduce. do 4 (split; [congruence|]). discriminate.
Qed.

(** The source changed since the last analysis: a worker is bound and primed,
    the analyze message is sent, and [deps] and [originalSourceHash] are
    replaced. *)
Lemma doHash_changed w ack data :
  FTR.originalSourceHash record <> Some (md5 P src) ->
  findFree (FTC.workers c) 0 = Some w ->
  (w < length (FTC.workers c))%nat ->
  workerReply W w (FTC.sent c ++ [(w, sourceMessage P c rid)]) = WData ack ->
  workerReply W w (FTC.sent c ++ [(w, sourceMessage P c rid);
                                  (w, analyzeMessage (FTR.dew record))]) = WData data ->
  let c' := exec (doHash P W rid) c in
  TW.record <$> (FTC.workers c' !! w) = Some (Some rid) /\
  FTC.sent c' = FTC.sent c ++ [(w, sourceMessage P c rid); (w, analyzeMessage (FTR.dew record))] /\
  FTR.deps (FTC.heap c' rid) = rd_deps data /\
  FTR.originalSourceHash (FTC.heap c' rid) = Some (md5 P src) /\
  forall hr c'', doHash P W rid c = Returns hr c'' -> hr_worker hr = Some w.
Proof.
  intros Hchanged Hfree Hlt Hack Hdata. subst record.
  unfold doHash, hashBody, scheduleHashCleanup, arm, send, awaitReply, update, setWorker.
  unfold_task. rewrite idle. reduce.
  rewrite !updateHeap_eq. reduce. rewrite hasSource, notJson.
  rewrite bool_decide_eq_true_2 by exact Hchanged.
  rewrite (assignWorker_free P W rid _ w) by exact Hfree.
  unfold primed, sourceMessage, analyzeMessage, setWorker, send, arm in *. unfold_task.
  reduce. rewrite !updateHeap_eq. reduce.
  rewrite hasSource in *. rewrite Hack. reduce. rewrite <- !app_assoc. reduce.
  rewrite Hdata. reduce. rewrite getResolveMap_run. reduce. rewrite !updateHeap_eq. reduce.
  destruct (lookup_lt_is_Some_2 (FTC.workers c) w Hlt) as [x Hx].
  destruct (rd_deps data) as [deps|]; reduce.
  - destruct (resolveDeps _ _ _ _ _ _ _ _) as [[resolveMap hash]|e]; reduce;
      rewrite !updateHeap_eq; reduce; unfold ret, throw;
      (split; [rewrite !list_lookup_alter_eq, Hx; reflexivity|]);
      (do 3 (split; [reflexivity|])); [|discriminate].
    intros hr c'' [= <- _]. reflexivity.
  - rewrite !updateHeap_eq. reduce.
    split; [rewrite !list_lookup_alter_eq, Hx; reflexivity|].
    do 3 (split; [reflexivity|]). discriminate.
Qed.

End HashPhase.

(** *** The transform phase *)

Lemma assignWorker_keeps_record P W rid c w c1 :
  assignWorker P W rid c = Returns w c1 -> FTC.heap c1 = FTC.heap c.
Proof.
  unfold assignWorker. intros H.
  destruct (findFree (FTC.workers c) 0) as [w'|] eqn:Hfree.
  - revert H. unfold awaitReply, arm, send, setWorker, enqueue. unfold_task. rewrite Hfree.
    reduce. destruct (workerReply W w' _); [discriminate|]. intros [= _ <-]. reflexivity.
  - revert H. unfold enqueue. unfold_task. rewrite Hfree. discriminate.
Qed.

Lemma doTransform_frees_worker P W rid resolveMap worker c w c1 :
  let record := FTC.heap c rid in
  FTR.transformPromise record = None ->
  sendsTransform record ->
  obtainsWorker P W rid worker
    (exec (update rid (FTR.set_transformPromise (Some Pending))) c) w c1 ->
  (w < length (FTC.workers c1))%nat ->
  let c' := exec (doTransform P W rid resolveMap worker) c in
  FTR.transformPromise (FTC.heap c' rid) = None /\
  FTC.workers c' !! w
    = Some (TW.mk (waiter_record <$> head (FTC.transformQueue c1)) None None) /\
  FTC.transformQueue c' = tail (FTC.transformQueue c1) /\
  FTC.sent c' = FTC.sent c1 ++ [(w, transformMessage (FTR.dew record) resolveMap)] /\
  doTransform P W rid resolveMap worker c
  = match workerReply W w (FTC.sent c') with
    | WError data => Throws (withCode "ETRANSFORM" (Error data)) c'
    | WData _ =>
        match isGlobalCache W (FTR.path record) with
        | Ok _ => Returns tt c'
        | Err e => Throws e c'
        end
    end.
Proof.
  intros record Hidle [Hjson Hsends] Hworker Hlt c'. subst c' record.
  assert (Hheap : FTC.heap c1 rid
                  = FTR.set_transformPromise (Some Pending) (FTC.heap c rid)).
  { destruct worker as [w'|]; simpl in Hworker.
    - destruct Hworker as [_ ->]. unfold exec, update, modify. reduce.
      apply updateHeap_eq.
    - rewrite (assignWorker_keeps_record _ _ _ _ _ _ Hworker).
      unfold exec, update, modify. reduce. apply updateHeap_eq. }
  assert (Hkind : FTR.dew (FTC.heap c rid) = true \/
                  (FTR.dew (FTC.heap c rid) = false /\
                   exists dep deps, FTR.deps (FTC.heap c rid) = Some (dep :: deps))).
  { destruct (FTR.dew (FTC.heap c rid)); [left; reflexivity|].
    destruct Hsends as [?|?]; [discriminate | right; auto]. }
  clear Hsends.
  destruct (lookup_lt_is_Some_2 (FTC.workers c1) w Hlt) as [x Hx].
  destruct (FTC.transformQueue c1) as [|next rest] eqn:Hq.
  all: destruct (workerReply W w
                   (FTC.sent c1 ++ [(w, transformMessage (FTR.dew (FTC.heap c rid)) resolveMap)]))
         as [data|data] eqn:Hreply.
  all: destruct (isGlobalCache W (FTR.path (FTC.heap c rid))) as [g|e] eqn:Hprobe.
  all: unfold doTransform, transformBody, transformMessage, arm, send, awaitReply, update,
         setWorker in *.
  all: unfold exec in Hworker; unfold modify in Hworker.
  all: unfold_task; rewrite Hidle; reduce; rewrite !updateHeap_eq; reduce.
  all: rewrite Hjson; reduce.
  all: destruct Hkind as [Hdew|(Hdew & dep & deps & Hdeps)]; rewrite Hdew, ?Hdeps in *; reduce.
  all: rewrite ?bool_decide_eq_false_2 by discriminate; reduce.
  all: destruct worker as [w'|]; simpl in Hworker;
         [destruct Hworker as [-> ->] | rewrite Hworker]; reduce.
  all: cbn [FTC.workers FTC.set_heap FTC.heap FTC.transformQueue FTC.sent] in Hx, Hheap, Hq, Hreply.
  all: rewrite Hreply; reduce; rewrite ?updateHeap_eq; reduce; rewrite ?Hprobe; reduce.
  all: rewrite !freeWorker_returns; unfold exec, freeWorker, resolveNextJob, setWorker.
  all: unfold_task; reduce; rewrite ?Hq; reduce; rewrite ?updateHeap_eq; reduce.
  all: rewrite ?Hreply, ?Hq; reduce.
  all: rewrite !list_lookup_alter_eq, Hx, ?updateHeap_eq; simpl.
  all: repeat split; reflexivity.
Qed.

(** *** Content hashes are never empty *)

Lemma append_nonempty (a b : string) : a <> "" -> a +:+ b <> "".
Proof. destruct a; [congruence | discriminate]. Qed.

Section NonEmpty.

Variable P : Platform.

Hypothesis digest_nonempty : forall s, md5hex P s <> "".

Lemma md5_nonempty s : md5 P s <> "".
Proof. apply digest_nonempty. Qed.

Lemma fullHash_source s : Some (md5 P s) <> Some "".
Proof. intros [= H]. exact (md5_nonempty s H). Qed.

Lemma fullHash_composite s t : Some (md5 P s +:+ t) <> Some "".
Proof. intros [= H]. exact (append_nonempty _ _ (md5_nonempty s) H). Qed.

Ltac hash_leaf :=
  intros ? ?;
  first
    [ assumption
    | unfold hashesNonEmpty in *; intros ?;
      unfold allocated; cbn [FTC.heap FTC.set_heap FTC.set_nextRecord]; unfold updateHeap;
      match goal with
      | H : forall _, _ <> _ |- context [Nat.eqb ?r ?r'] =>
          destruct (Nat.eqb r r');
          [ cbn; first [ apply H | apply fullHash_source | apply fullHash_composite
                       | discriminate ]
          | apply H ]
      end ].

Lemma get_hashesNonEmpty W filePath hash :
  preserves hashesNonEmpty (get P W filePath hash).
Proof. unfold_class. unfold_pool. unfold_prims. frame ltac:(hash_leaf).
Qed.

Lemma onWatchEvent_hashesNonEmpty W rid type :
  preserves hashesNonEmpty (onWatchEvent P W rid type).
Proof. unfold_class. unfold_pool. unfold_prims. frame ltac:(hash_leaf). Qed.

Lemma lookupRecord_hashesNonEmpty W filePath dew dewSuffix :
  preserves hashesNonEmpty (lookupRecord W filePath dew dewSuffix).
Proof. unfold_class. unfold_pool. unfold_prims. frame ltac:(hash_leaf). Qed.

Lemma hashPhase_hashesNonEmpty W filePath dewSuffix rid :
  preserves hashesNonEmpty (hashPhase P W filePath dewSuffix rid).
Proof. unfold_class. unfold_pool. unfold_prims. frame ltac:(hash_leaf). Qed.

(** In every run of an instance the stored hashes are never the empty
    string. *)
Lemma run_hashesNonEmpty W0 publicDir cacheClearInterval maxWatchCount production turns :
  hashesNonEmpty
    (run P turns (constructor P W0 publicDir cacheClearInterval maxWatchCount production)).
Proof.
  apply run_invariant.
  - intros. apply get_hashesNonEmpty.
  - intros. apply onWatchEvent_hashesNonEmpty.
  - intros W c _ Hc. exact Hc.
  - intros i rid c Hc r. unfold hashCleanup, update. cbn. unfold updateHeap.
    destruct (Nat.eqb r rid); [cbn|]; apply Hc.
  - intros rid. discriminate.
Qed.

End NonEmpty.

(** *** The known-hash short circuit *)

Ltac sent_leaf :=
  intros ? ?;
  first
    [ assumption
    | unfold transformsSent in *; cbn [FTC.sent FTC.set_sent];
      rewrite List.filter_app;
      match goal with H : List.filter _ _ = _ |- _ => rewrite H end;
      repeat match goal with |- context [if ?b then _ else _] => destruct b end;
      cbn; apply app_nil_r ].

Lemma lookupRecord_sends_no_transform W filePath dew dewSuffix v :
  preserves (fun c => transformsSent c = v) (lookupRecord W filePath dew dewSuffix).
Proof. unfold_class. unfold_pool. unfold_prims. frame ltac:(sent_leaf). Qed.

Lemma hashPhase_sends_no_transform P W filePath dewSuffix rid v :
  preserves (fun c => transformsSent c = v) (hashPhase P W filePath dewSuffix rid).
Proof. unfold_class. unfold_pool. unfold_prims. frame ltac:(sent_leaf). Qed.

Lemma freeIfAny_sends_no_transform worker v :
  preserves (fun c => transformsSent c = v) (freeIfAny worker).
Proof. unfold_class. unfold_pool. unfold_prims. frame ltac:(sent_leaf). Qed.

Lemma bind_deref {B} rid (k : FileTransformRecord -> Task B) c :
  bind (deref rid) k c = k (FTC.heap c rid) c.
Proof. reflexivity. Qed.

Lemma hashMatches_same h : h <> "" -> hashMatches (Some h) (Some h) = true.
Proof.
  intros Hne. unfold hashMatches.
  rewrite (proj2 (String.eqb_neq h "") Hne), bool_decide_eq_true_2 by reflexivity.
  reflexivity.
Qed.

(** [freeWorker] clears the worker and gives it the record of the oldest
    waiter, if there is one, who leaves the queue. *)
Lemma freeWorker_frees w c :
  let c' := exec (freeWorker w) c in
  FTC.workers c'
  = alter (fun _ => TW.mk (waiter_record <$> head (FTC.transformQueue c)) None None) w
      (FTC.workers c) /\
  FTC.transformQueue c' = tail (FTC.transformQueue c).
Proof.
  unfold exec. destruct (FTC.transformQueue c) as [|next rest] eqn:Hq.
  - rewrite freeWorker_idle by exact Hq. cbn. rewrite Hq. split; reflexivity.
  - rewrite (freeWorker_waiting w next rest c Hq). cbn.
    rewrite list_alter_alter_eq. split; reflexivity.
Qed.

(** C1: a [get] that carries a known hash [h], finds or creates the record,
    and whose hash phase settles with [fullHash] equal to [h], returns the
    not-modified result: no source, no source map, the hash [h].  The call
    sends no [transform-*] message, and it frees the worker its own hash
    phase obtained, if any: the worker's reply slots are cleared and it
    holds no record, or the record of the oldest waiter, who leaves the
    queue.  Without such a worker the pool and the queue are as the hash
    phase left them. *)
Theorem get_with_known_hash_is_not_modified
    (P : Platform) (W : World) (filePath h : string) (c : Cache)
    (rid : nat) (c1 : Cache) (owned : option nat) (c2 : Cache) :
  let dew := endsWith filePath "?dew" in
  let dewSuffix := if dew then "?dew" else "" in
  let path := if dew then substr0 filePath (String.length filePath - 4) else filePath in
  (forall s, md5hex P s <> "") ->
  hashesNonEmpty c ->
  lookupRecord W path dew dewSuffix c = Returns (SlotRecord rid) c1 ->
  hashPhase P W path dewSuffix rid c1 = Returns owned c2 ->
  FTR.fullHash (FTC.heap c2 rid) = Some h ->
  let c3 := exec (freeIfAny owned) c2 in
  get P W filePath (Some h) c
    = Returns (Some (mkGetResult None None (Some h) (FTR.isGlobalCache (FTC.heap c3 rid)))) c3
  /\ transformsSent c3 = transformsSent c
  /\ FTC.heap c3 = FTC.heap c2
  /\ match owned with
     | Some w =>
         FTC.workers c3
         = alter (fun _ => TW.mk (waiter_record <$> head (FTC.transformQueue c2)) None None) w
             (FTC.workers c2) /\
         FTC.transformQueue c3 = tail (FTC.transformQueue c2)
     | None =>
         FTC.workers c3 = FTC.workers c2 /\
         FTC.transformQueue c3 = FTC.transformQueue c2
     end.
Proof.
  intros dew dewSuffix path Hdigest Hinv Hlookup Hphase Hfull c3.
  assert (Hfreed : match owned with
                   | Some w =>
                       FTC.workers c3
                       = alter (fun _ => TW.mk (waiter_record <$> head (FTC.transformQueue c2))
                                           None None) w (FTC.workers c2) /\
                       FTC.transformQueue c3 = tail (FTC.transformQueue c2)
                   | None =>
                       FTC.workers c3 = FTC.workers c2 /\
                       FTC.transformQueue c3 = FTC.transformQueue c2
                   end).
  { subst c3. destruct owned as [w|]; [apply freeWorker_frees | split; reflexivity]. }
  assert (Hne : h <> "").
  { pose proof (lookupRecord_hashesNonEmpty W path dew dewSuffix c Hinv) as H1.
    rewrite Hlookup in H1. simpl in H1.
    pose proof (hashPhase_hashesNonEmpty P Hdigest W path dewSuffix rid c1 H1) as H2.
    rewrite Hphase in H2. simpl in H2. specialize (H2 rid). congruence. }
  assert (Hsent : transformsSent c3 = transformsSent c).
  { pose proof (lookupRecord_sends_no_transform W path dew dewSuffix _ c eq_refl) as H1.
    rewrite Hlookup in H1. simpl in H1.
    pose proof (hashPhase_sends_no_transform P W path dewSuffix rid _ c1 eq_refl) as H2.
    rewrite Hphase in H2. simpl in H2.
    pose proof (freeIfAny_sends_no_transform owned _ c2 eq_refl) as H3.
    fold (exec (freeIfAny owned) c2) in H3. fold c3 in H3. congruence. }
  assert (Hheap : FTC.heap c3 = FTC.heap c2).
  { subst c3. destruct owned as [w|]; [|reflexivity]. unfold freeIfAny, exec.
    destruct (FTC.transformQueue c2) as [|next rest] eqn:Hq.
    - rewrite freeWorker_idle by exact Hq. reflexivity.
    - rewrite (freeWorker_waiting w next rest c2 Hq). reflexivity. }
  split; [|split; [exact Hsent | split; [exact Hheap | exact Hfreed]]].
  unfold get. fold dew dewSuffix path. rewrite (bind_Returns _ _ _ _ _ Hlookup).
  cbv beta iota. unfold hashPhase in Hphase. unfold notModified.
  rewrite bind_deref in Hphase. rewrite bind_deref.
  destruct (FTR.hashPromise (FTC.heap c1 rid)) as [hashPromise|].
  - (* a hash phase is in flight *)
    apply bind_Returns_inv in Hphase as (hr & c1' & Hawait & Hret).
    injection Hret as <- <-. rewrite (bind_Returns _ _ _ _ _ Hawait).
    rewrite !bind_deref, Hfull, (hashMatches_same h Hne). reflexivity.
  - destruct (FTR.transformPromise (FTC.heap c1 rid)) as [transformPromise|].
    + (* a transform is in place *)
      injection Hphase as <- <-. rewrite Hfull, (hashMatches_same h Hne).
      rewrite bind_deref. reflexivity.
    + (* the call runs the hash phase itself *)
      apply bind_Returns_inv in Hphase as ([] & c1' & Hfresh & Hphase).
      apply bind_Returns_inv in Hphase as (hr & c2' & Hhash & Hret).
      injection Hret as <- <-.
      rewrite (bind_Returns _ _ _ _ _ Hfresh), (bind_Returns _ _ _ _ _ Hhash).
      rewrite bind_deref, Hfull, (hashMatches_same h Hne).
      unfold bind at 1. rewrite freeIfAny_returns. fold c3. rewrite bind_deref. reflexivity.
Qed.

(** *** The resolve map, entry by entry *)


(** *** The mtime probe *)

Lemma statPromise_run W path :
  statPromise W path
  = match stat W path with
    | Ok mtimeMs => Ok mtimeMs
    | Err err =>
        if bool_decide (code err = Some "ENOENT" \/ code err = Some "EACCES")
        then Ok (-1) else Err err
    end.
Proof. unfold statPromise. destruct (stat W path); reflexivity. Qed.

(** [getMtime] never returns a number: what [fs.stat] answered is awaited
    and dropped. *)
Lemma getMtime_run W path c :
  getMtime W path c
  = match statPromise W path with
    | Ok _ => Returns None c
    | Err e => Throws e c
    end.
Proof. unfold getMtime, bind. destruct (statPromise W path); reflexivity. Qed.

(** *** The first request of a key *)

Lemma bind_ret {A B} (a : A) (k : A -> Task B) c : bind (ret a) k c = k a c.
Proof. reflexivity. Qed.

Lemma bind_this {B} (k : Cache -> Task B) c : bind this k c = k c c.
Proof. reflexivity. Qed.

Lemma bind_modify {B} (f : Cache -> Cache) (k : unit -> Task B) c :
  bind (modify f) k c = k tt (f c).
Proof. reflexivity. Qed.

Lemma bind_throw {A B} (e : JsError) (k : A -> Task B) c :
  bind (throw e) k c = Throws e c.
Proof. reflexivity. Qed.

Lemma bind_bind {A B C} (m : Task A) (k : A -> Task B) (k' : B -> Task C) c :
  bind (bind m k) k' c = bind m (fun a => bind (k a) k') c.
Proof. unfold bind. destruct (m c); reflexivity. Qed.

Lemma preserves_after {A B} (I : Cache -> Prop) (m : Task A) (k : A -> Task B) c :
  I (finalState (m c)) -> (forall a, preserves I (k a)) -> I (finalState (bind m k c)).
Proof.
  intros Hm Hk. unfold bind. destruct (m c) as [a c'| |]; simpl in *; auto.
  apply Hk, Hm.
Qed.

Lemma finalState_settle {A} (m : Task A) c : finalState (settle m c) = finalState (m c).
Proof. unfold settle. destruct (m c); reflexivity. Qed.

Ltac record_leaf :=
  intros ? ?;
  first
    [ assumption
    | match goal with
      | H : holdsRecord _ _ _ _ |- _ =>
          let Hlt := fresh in
          let Hpath := fresh in
          let Hdew := fresh in
          destruct H as (Hlt & Hpath & Hdew);
          unfold holdsRecord, allocated;
          cbn [FTC.heap FTC.set_heap FTC.set_nextRecord FTC.nextRecord];
          unfold updateHeap;
          repeat match goal with
                 | |- context [Nat.eqb ?x ?y] => destruct (Nat.eqb_spec x y)
                 end;
          cbn; repeat split; solve [assumption | lia]
      end ].

Lemma get_holdsRecord P W filePath hash n path dew :
  preserves (holdsRecord n path dew) (get P W filePath hash).
Proof. unfold_class. unfold_pool. unfold_prims. frame ltac:(record_leaf). Qed.

Lemma watch_holdsRecord W rid n path dew :
  preserves (holdsRecord n path dew) (watch W rid).
Proof. unfold_class. unfold_pool. unfold_prims. frame ltac:(record_leaf). Qed.

(** C5 as the code has it: on the first [get] of a key of the non-legacy
    variant the resolver's format decides.  With format [esm] a record for
    the path is created.  With [json] or [cjs] the stored handle resolves
    to [null] and [get] returns nothing.  With any other format, or none,
    [get] throws an error that carries a message and no [code], and the
    stored handle is rejected with it. *)
Theorem first_get_goes_by_format
    (P : Platform) (W : World) (filePath : string) (hash : option string) (c : Cache)
    (fmt : option string) :
  endsWith filePath "?dew" = false ->
  FTC.records c !! filePath = None ->
  jspmFormat W filePath false = Ok fmt ->
  let c' := exec (get P W filePath hash) c in
  (fmt = Some "esm" -> holdsRecord (FTC.nextRecord c) filePath false c') /\
  (fmt = Some "json" \/ fmt = Some "cjs" ->
   get P W filePath hash c = Returns None c' /\
   FTC.records c' !! filePath = Some (Fulfilled SlotNull) /\
   FTC.nextRecord c' = FTC.nextRecord c) /\
  (fmt <> Some "esm" -> fmt <> Some "json" -> fmt <> Some "cjs" ->
   let e := Error ("Unable to transform module format " +:+ orUnknown fmt +:+ ".") in
   get P W filePath hash c = Throws e c' /\
   code e = None /\
   FTC.records c' !! filePath = Some (Rejected e) /\
   FTC.nextRecord c' = FTC.nextRecord c).
Proof.
  intros Hdew Hnew Hformat c'. subst c'. unfold exec, get. rewrite !Hdew.
  cbv zeta iota. unfold lookupRecord.
  rewrite !bind_bind, bind_this, !append_empty_r, Hnew, !bind_bind, bind_ret.
  unfold setSlot. rewrite !bind_bind, bind_modify.
  unfold createRecord. rewrite Hformat.
  split; [|split].
  - intros ->. apply preserves_after; [apply preserves_after|].
    + rewrite finalState_settle. unfold awaitSettled.
      rewrite bind_ret, bool_decide_eq_true_2 by reflexivity.
      rewrite bind_ret.
      apply preserves_after.
      * simpl. unfold holdsRecord, allocated. cbn. rewrite updateHeap_eq. cbn. auto.
      * intros rid. unfold_class. unfold_prims. frame ltac:(record_leaf).
    + intros p. frame ltac:(record_leaf).
    + intros record. unfold_class. unfold_pool. unfold_prims. frame ltac:(record_leaf).
  - intros Hfmt. unfold settle, awaitSettled.
    assert (Hnot : fmt <> Some "esm") by (destruct Hfmt as [-> | ->]; discriminate).
    unfold bind, ret, modify, await.
    rewrite (bool_decide_eq_false_2 _ Hnot), (bool_decide_eq_true_2 _ Hfmt). cbn.
    rewrite lookup_insert_eq. auto.
  - intros Hesm Hjson Hcjs. unfold settle, awaitSettled.
    assert (Hnot : ~ (fmt = Some "json" \/ fmt = Some "cjs")) by (intros [?|?]; contradiction).
    unfold bind, ret, modify, await, throw.
    rewrite (bool_decide_eq_false_2 _ Hesm), (bool_decide_eq_false_2 _ Hnot). cbn.
    rewrite lookup_insert_eq. auto.
Qed.

(** *** How a hash phase settles *)

Lemma doHash_idle P W rid c :
  FTR.hashPromise (FTC.heap c rid) = None ->
  doHash P W rid c
  = match hashBody P W rid (exec (update rid (FTR.set_hashPromise (Some Pending))) c) with
    | Returns hr cb => Returns hr (hashSettled W rid (Fulfilled hr) cb)
    | Throws e cb => Throws e (hashSettled W rid (Rejected e) cb)
    | Suspended cb => Suspended cb
    end.
Proof.
  intros Hidle. unfold doHash. rewrite bind_deref, Hidle.
  unfold hashSettled, exec, update, scheduleHashCleanup.
  unfold settle, tryFinally, bind, modify, await, ret, throw.
  destruct (hashBody P W rid _) as [hr cb|e cb|cb]; reflexivity.
Qed.

Ltac outside_leaf :=
  intros ? ?;
  first
    [ assumption
    | match goal with
      | H : sameOutsideHash _ _ |- _ =>
          let H1 := fresh in
          let H2 := fresh in
          let H3 := fresh in
          let H4 := fresh in
          let H5 := fresh in
          destruct H as (H1 & H2 & H3 & H4 & H5);
          unfold sameOutsideHash;
          cbn [FTC.heap FTC.set_heap FTC.records FTC.timeouts FTC.cacheClearInterval
               FTC.publicDir FTC.set_workers FTC.set_sent FTC.set_transformQueue
               FTC.set_nextTicket FTC.set_handed];
          (do 4 (split; [assumption|]));
          intros ?; unfold updateHeap;
          match goal with
          | |- context [Nat.eqb ?x ?y] => destruct (Nat.eqb x y)
          end; cbn; apply H5
      end ].

Lemma hashBody_sameOutside P W rid c0 :
  preserves (sameOutsideHash c0) (hashBody P W rid).
Proof. unfold_class. unfold_pool. unfold_prims. frame ltac:(outside_leaf). Qed.

Lemma sameOutsideHash_refl c : sameOutsideHash c c.
Proof. unfold sameOutsideHash. auto 10. Qed.

(** A hash phase started on an idle record and failing leaves the rejected
    promise in the record, touches neither the store nor the transform
    slot, and has scheduled the cleanup that makes the record idle again. *)
Lemma failed_hash_phase_is_cleaned_up P W rid c e c' :
  FTR.hashPromise (FTC.heap c rid) = None ->
  doHash P W rid c = Throws e c' ->
  FTR.hashPromise (FTC.heap c' rid) = Some (Rejected e) /\
  FTR.transformPromise (FTC.heap c' rid) = FTR.transformPromise (FTC.heap c rid) /\
  FTR.path (FTC.heap c' rid) = FTR.path (FTC.heap c rid) /\
  FTC.records c' = FTC.records c /\
  FTC.timeouts c' = FTC.timeouts c ++ [(now W + FTC.cacheClearInterval c, rid)] /\
  FTR.hashPromise (FTC.heap (exec (hashCleanup rid) c') rid) = None.
Proof.
  intros Hidle Hrun. rewrite (doHash_idle P W rid c Hidle) in Hrun.
  pose proof (hashBody_sameOutside P W rid c
                (exec (update rid (FTR.set_hashPromise (Some Pending))) c)) as Hsame.
  destruct (hashBody P W rid _) as [hr cb|e' cb|cb]; try discriminate.
  injection Hrun as <- <-.
  destruct Hsame as (Hrecords & Htimeouts & Hinterval & _ & Hheap).
  { unfold exec, update, modify. cbn. unfold sameOutsideHash. cbn.
    do 4 (split; [reflexivity|]). intros r. unfold updateHeap.
    destruct (Nat.eqb r rid); cbn; auto 10. }
  simpl in Hrecords, Htimeouts, Hinterval, Hheap.
  destruct (Hheap rid) as (Htransform & Hpath & _).
  unfold hashSettled, hashCleanup, exec, update, scheduleHashCleanup, modify. cbn.
  rewrite !updateHeap_eq. cbn. rewrite Htransform, Hpath, Hrecords, Htimeouts, Hinterval.
  auto 10.
Qed.

(** A hash phase that re-analyses a changed source and whose dependencies
    all resolve returns, with the worker it used. *)
Lemma doHash_changed_returns P W rid c src w ack data deps :
  let record := FTC.heap c rid in
  let outcome :=
    classify P W (FTR.path record) (FTR.dew record) (FTC.publicDir c)
      (path_dirname P (FTR.path record)) in
  FTR.hashPromise record = None ->
  FTR.originalSource record = Some src ->
  endsWith (FTR.path record) ".json" = false ->
  FTR.originalSourceHash record <> Some (md5 P src) ->
  findFree (FTC.workers c) 0 = Some w ->
  workerReply W w (FTC.sent c ++ [(w, sourceMessage P c rid)]) = WData ack ->
  workerReply W w (FTC.sent c ++ [(w, sourceMessage P c rid);
                                  (w, analyzeMessage (FTR.dew record))]) = WData data ->
  rd_deps data = Some deps ->
  Forall (fun dep => resolvesCleanly (outcome dep)) deps ->
  let c' := exec (doHash P W rid) c in
  exists resolveMap : ResolveMap,
    doHash P W rid c = Returns (mkHashResult (Some resolveMap) (Some w)) c' /\
    FTR.transformPromise (FTC.heap c' rid) = FTR.transformPromise record /\
    FTR.path (FTC.heap c' rid) = FTR.path record /\
    FTR.dew (FTC.heap c' rid) = FTR.dew record /\
    FTR.originalSource (FTC.heap c' rid) = Some src /\
    FTR.deps (FTC.heap c' rid) = Some deps /\
    FTR.fullHash (FTC.heap c' rid)
      = Some (md5 P src +:+
              md5hex P (hashedPairs P W (FTR.path record) (FTR.dew record) (FTC.publicDir c)
                          (path_dirname P (FTR.path record)) deps)) /\
    length (FTC.workers c') = length (FTC.workers c).
Proof.
  intros record outcome Hidle Hsrc Hjson Hchanged Hfree Hack Hdata Hdeps Hclean c'.
  subst record c'.
  destruct (resolveDeps_clean P W _ _ _ _ deps Hclean) as (resolveMap & Hrun & _).
  exists resolveMap.
  unfold doHash, hashBody, scheduleHashCleanup, arm, send, awaitReply, update, setWorker.
  unfold_task. rewrite Hidle. reduce.
  rewrite !updateHeap_eq. reduce. rewrite Hsrc, Hjson.
  rewrite bool_decide_eq_true_2 by exact Hchanged.
  rewrite (assignWorker_free P W rid _ w) by exact Hfree.
  unfold primed, sourceMessage, analyzeMessage, setWorker, send, arm in *. unfold_task.
  reduce. rewrite !updateHeap_eq. reduce.
  rewrite Hsrc in *. rewrite Hack. reduce. rewrite <- !app_assoc. reduce.
  rewrite Hdata. reduce. rewrite getResolveMap_run. reduce. rewrite !updateHeap_eq. reduce.
  rewrite Hdeps. reduce. rewrite Hrun. reduce. rewrite !updateHeap_eq. reduce.
  rewrite Hsrc, !length_alter. unfold ret. auto 10.
Qed.

(** *** A transform phase that succeeds *)

Ltac fullHash_leaf :=
  intros ? ?;
  first
    [ assumption
    | cbn [FTC.heap FTC.set_heap]; unfold updateHeap;
      match goal with
      | |- context [Nat.eqb ?x ?y] => destruct (Nat.eqb x y)
      end; cbn; assumption ].

Lemma doTransform_keeps_fullHash P W rid resolveMap worker rid' v :
  preserves (fun c => FTR.fullHash (FTC.heap c rid') = v)
    (doTransform P W rid resolveMap worker).
Proof. unfold_class. unfold_pool. unfold_prims. frame ltac:(fullHash_leaf). Qed.

(** A non-legacy record without dependencies: the source is passed through
    and the phase returns. *)
Lemma doTransform_no_deps P W rid resolveMap worker c g :
  let record := FTC.heap c rid in
  FTR.transformPromise record = None ->
  endsWith (FTR.path record) ".json" = false ->
  FTR.dew record = false ->
  FTR.deps record = Some [] ->
  isGlobalCache W (FTR.path record) = Ok g ->
  doTransform P W rid resolveMap worker c = Returns tt (exec (doTransform P W rid resolveMap worker) c) /\
  FTR.source (FTC.heap (exec (doTransform P W rid resolveMap worker) c) rid)
    = FTR.originalSource record.
Proof.
  intros record Hidle Hjson Hdew Hdeps Hprobe. subst record.
  unfold doTransform, transformBody, update. unfold_task. rewrite Hidle. reduce.
  rewrite !updateHeap_eq. reduce. rewrite Hjson, Hdew, Hdeps. reduce.
  rewrite bool_decide_eq_true_2 by reflexivity. rewrite Hprobe. reduce.
  rewrite freeIfAny_returns. unfold exec. reduce.
  assert (Hheap : forall c0, FTC.heap (finalState (freeIfAny worker c0)) = FTC.heap c0).
  { intros c0. destruct worker as [w|]; [|reflexivity]. unfold freeIfAny.
    destruct (FTC.transformQueue c0) as [|next rest] eqn:Hq.
    - rewrite freeWorker_idle by exact Hq. reflexivity.
    - rewrite (freeWorker_waiting w next rest c0 Hq). reflexivity. }
  rewrite !Hheap. reduce. rewrite !updateHeap_eq. reduce.
  rewrite !Hheap. reduce. rewrite !updateHeap_eq. reduce. auto.
Qed.

(** With the worker of the hash phase passed on, a cooperative worker and a
    package probe that does not throw, the transform phase returns. *)
Lemma doTransform_with_worker_returns P W rid resolveMap w c g :
  let record := FTC.heap c rid in
  FTR.transformPromise record = None ->
  sendsTransform record ->
  (w < length (FTC.workers c))%nat ->
  cooperative W w ->
  isGlobalCache W (FTR.path record) = Ok g ->
  doTransform P W rid resolveMap (Some w) c
  = Returns tt (exec (doTransform P W rid resolveMap (Some w)) c).
Proof.
  intros record Hidle Hsends Hlt Hcoop Hprobe.
  destruct (doTransform_frees_worker P W rid resolveMap (Some w) c w
              (exec (update rid (FTR.set_transformPromise (Some Pending))) c)
              Hidle Hsends (conj eq_refl eq_refl) Hlt) as (_ & _ & _ & _ & Hrun).
  rewrite Hrun. destruct (Hcoop (FTC.sent (exec (doTransform P W rid resolveMap (Some w)) c)))
    as [data ->].
  fold record. rewrite Hprobe. reflexivity.
Qed.

(** With no worker passed on, the transform phase takes a free one. *)
Lemma doTransform_assigning_returns P W rid resolveMap w c g :
  let record := FTC.heap c rid in
  FTR.transformPromise record = None ->
  sendsTransform record ->
  findFree (FTC.workers c) 0 = Some w ->
  (w < length (FTC.workers c))%nat ->
  cooperative W w ->
  isGlobalCache W (FTR.path record) = Ok g ->
  doTransform P W rid resolveMap None c
  = Returns tt (exec (doTransform P W rid resolveMap None) c).
Proof.
  intros record Hidle Hsends Hfree Hlt Hcoop Hprobe.
  set (c0 := exec (update rid (FTR.set_transformPromise (Some Pending))) c).
  assert (Hassign : assignWorker P W rid c0 = Returns w (primed P rid w c0)).
  { rewrite (assignWorker_free P W rid c0 w) by exact Hfree.
    destruct (Hcoop (FTC.sent c0 ++ [(w, sourceMessage P c0 rid)])) as [data ->].
    reflexivity. }
  destruct (doTransform_frees_worker P W rid resolveMap None c w (primed P rid w c0)
              Hidle Hsends Hassign) as (_ & _ & _ & _ & Hrun).
  { unfold primed, exec, setWorker, send, arm, bind, modify. cbn.
    rewrite !length_alter. exact Hlt. }
  rewrite Hrun. destruct (Hcoop (FTC.sent (exec (doTransform P W rid resolveMap None) c)))
    as [data ->].
  fold record. rewrite Hprobe. reflexivity.
Qed.

(** A hash phase on a source that was already analysed, whose dependencies
    all resolve, returns without a worker. *)
Lemma doHash_unchanged_returns P W rid c src deps :
  let record := FTC.heap c rid in
  let outcome :=
    classify P W (FTR.path record) (FTR.dew record) (FTC.publicDir c)
      (path_dirname P (FTR.path record)) in
  FTR.hashPromise record = None ->
  FTR.originalSource record = Some src ->
  endsWith (FTR.path record) ".json" = false ->
  FTR.originalSourceHash record = Some (md5 P src) ->
  FTR.deps record = Some deps ->
  Forall (fun dep => resolvesCleanly (outcome dep)) deps ->
  let c' := exec (doHash P W rid) c in
  exists resolveMap : ResolveMap,
    doHash P W rid c = Returns (mkHashResult (Some resolveMap) None) c' /\
    FTR.transformPromise (FTC.heap c' rid) = FTR.transformPromise record /\
    FTR.path (FTC.heap c' rid) = FTR.path record /\
    FTR.dew (FTC.heap c' rid) = FTR.dew record /\
    FTR.originalSource (FTC.heap c' rid) = Some src /\
    FTR.deps (FTC.heap c' rid) = Some deps /\
    FTR.fullHash (FTC.heap c' rid)
      = Some (md5 P src +:+
              md5hex P (hashedPairs P W (FTR.path record) (FTR.dew record) (FTC.publicDir c)
                          (path_dirname P (FTR.path record)) deps)) /\
    FTC.workers c' = FTC.workers c.
Proof.
  intros record outcome Hidle Hsrc Hjson Hsame Hdeps Hclean c'. subst record c'.
  destruct (resolveDeps_clean P W _ _ _ _ deps Hclean) as (resolveMap & Hrun & _).
  exists resolveMap.
  unfold doHash, hashBody, scheduleHashCleanup, update. unfold_task. rewrite Hidle. reduce.
  rewrite !updateHeap_eq. reduce. rewrite Hsrc, Hjson, Hsame.
  rewrite bool_decide_eq_false_2 by (intros H; apply H; reflexivity).
  rewrite getResolveMap_run. reduce. rewrite !updateHeap_eq. reduce.
  rewrite Hdeps. reduce. rewrite Hrun. reduce. rewrite !updateHeap_eq. reduce.
  rewrite Hsrc, Hdeps. unfold ret. auto 10.
Qed.

(** *** Serving an idle record *)

Lemma lookupRecord_existing W path dew dewSuffix rid c :
  FTC.records c !! (path +:+ dewSuffix) = Some (Fulfilled (SlotRecord rid)) ->
  lookupRecord W path dew dewSuffix c = Returns (SlotRecord rid) c.
Proof. intros H. unfold lookupRecord. rewrite bind_this, H. reflexivity. Qed.

Lemma checkFreshness_watched W path dewSuffix rid c :
  FTR.watching (FTC.heap c rid) = true ->
  checkFreshness W path dewSuffix rid c = Returns tt c.
Proof.
  intros H. unfold checkFreshness. rewrite bind_this, bind_deref, H, andb_false_r.
  reflexivity.
Qed.

(** A [get] of an idle record returns when a worker is free and
    cooperative, the dependencies of the current source all resolve, and
    the package probe does not throw. *)
Lemma get_idle_returns P W filePath c rid src w deps g :
  let record := FTC.heap c rid in
  let outcome :=
    classify P W (FTR.path (FTC.heap c rid)) (FTR.dew (FTC.heap c rid)) (FTC.publicDir c)
      (path_dirname P (FTR.path (FTC.heap c rid))) in
  idleRecord c (requestKey filePath) rid ->
  FTR.originalSource record = Some src ->
  endsWith (FTR.path (FTC.heap c rid)) ".json" = false ->
  findFree (FTC.workers c) 0 = Some w ->
  (w < length (FTC.workers c))%nat ->
  cooperative W w ->
  analysesTo P W c rid src w deps ->
  Forall (fun dep => resolvesCleanly (outcome dep)) deps ->
  isGlobalCache W (FTR.path (FTC.heap c rid)) = Ok g ->
  exists res c',
    get P W filePath None c = Returns (Some res) c' /\
    gr_hash res
    = Some (md5 P src +:+
            md5hex P (hashedPairs P W (FTR.path (FTC.heap c rid)) (FTR.dew (FTC.heap c rid)) (FTC.publicDir c)
                        (path_dirname P (FTR.path (FTC.heap c rid))) deps)).
Proof.
  intros record outcome (Hkey & Hidle & Hnotransform & Hwatched) Hsrc Hjson Hfree Hlt Hcoop
    Hanalysis Hclean Hprobe.
  subst record outcome. unfold requestKey in Hkey. unfold get.
  rewrite (bind_Returns _ _ _ _ _ (lookupRecord_existing W _ _ _ rid c Hkey)).
  rewrite bind_deref. rewrite Hidle, Hnotransform.
  rewrite (bind_Returns _ _ _ _ _ (checkFreshness_watched W _ _ rid c Hwatched)).
  assert (Hhash : exists resolveMap worker,
            doHash P W rid c
              = Returns (mkHashResult (Some resolveMap) worker) (exec (doHash P W rid) c) /\
            (worker = Some w \/
             worker = None /\ FTC.workers (exec (doHash P W rid) c) = FTC.workers c) /\
            length (FTC.workers (exec (doHash P W rid) c)) = length (FTC.workers c) /\
            FTR.transformPromise (FTC.heap (exec (doHash P W rid) c) rid) = None /\
            FTR.path (FTC.heap (exec (doHash P W rid) c) rid) = FTR.path (FTC.heap c rid) /\
            FTR.dew (FTC.heap (exec (doHash P W rid) c) rid) = FTR.dew (FTC.heap c rid) /\
            FTR.deps (FTC.heap (exec (doHash P W rid) c) rid) = Some deps /\
            FTR.fullHash (FTC.heap (exec (doHash P W rid) c) rid)
              = Some (md5 P src +:+
                      md5hex P (hashedPairs P W (FTR.path (FTC.heap c rid)) (FTR.dew (FTC.heap c rid))
                                  (FTC.publicDir c) (path_dirname P (FTR.path (FTC.heap c rid))) deps))).
  { destruct Hanalysis as [(Hsame & Hdeps)|(Hchanged & data & Hdata & Hdeps)].
    - destruct (doHash_unchanged_returns P W rid c src deps Hidle Hsrc Hjson Hsame Hdeps Hclean)
        as (resolveMap & Hrun & Htp & Hpath & Hdew & _ & Hdeps' & Hfull & Hworkers).
      exists resolveMap, None. rewrite Hworkers.
      rewrite Hnotransform in Htp. auto 12.
    - destruct (Hcoop (FTC.sent c ++ [(w, sourceMessage P c rid)])) as [ack Hack].
      destruct (doHash_changed_returns P W rid c src w ack data deps Hidle Hsrc Hjson
                  Hchanged Hfree Hack Hdata Hdeps Hclean)
        as (resolveMap & Hrun & Htp & Hpath & Hdew & _ & Hdeps' & Hfull & Hlen).
      exists resolveMap, (Some w).
      rewrite Hnotransform in Htp. auto 12. }
  destruct Hhash as (resolveMap & worker & Hrun & Hworker & Hlen & Htp & Hpath & Hdew
                     & Hdeps & Hfull).
  set (c2 := exec (doHash P W rid) c) in *.
  rewrite (bind_Returns _ _ _ _ _ Hrun), bind_deref. cbn [hashMatches hr_resolveMap hr_worker].
  assert (Htransform :
            doTransform P W rid (Some resolveMap) worker c2
            = Returns tt (exec (doTransform P W rid (Some resolveMap) worker) c2)).
  { assert (Hjson2 : endsWith (FTR.path (FTC.heap c2 rid)) ".json" = false)
      by (rewrite Hpath; exact Hjson).
    assert (Hprobe2 : isGlobalCache W (FTR.path (FTC.heap c2 rid)) = Ok g)
      by (rewrite Hpath; exact Hprobe).
    destruct (FTR.dew (FTC.heap c2 rid)) eqn:Hdew2; [|destruct deps as [|dep deps']].
    - assert (Hsends : sendsTransform (FTC.heap c2 rid)) by (split; auto).
      destruct Hworker as [->|[-> Hworkers]].
      + apply (doTransform_with_worker_returns P W rid _ w c2 g Htp Hsends); auto. lia.
      + apply (doTransform_assigning_returns P W rid _ w c2 g Htp Hsends); auto.
        * rewrite Hworkers. exact Hfree.
        * lia.
    - apply (doTransform_no_deps P W rid _ worker c2 g Htp Hjson2 Hdew2 Hdeps Hprobe2).
    - assert (Hsends : sendsTransform (FTC.heap c2 rid)) by (split; eauto).
      destruct Hworker as [->|[-> Hworkers]].
      + apply (doTransform_with_worker_returns P W rid _ w c2 g Htp Hsends); auto. lia.
      + apply (doTransform_assigning_returns P W rid _ w c2 g Htp Hsends); auto.
        * rewrite Hworkers. exact Hfree.
        * lia. }
  rewrite (bind_Returns _ _ _ _ _ Htransform). unfold completed. rewrite bind_deref.
  eexists _, _. split; [reflexivity|]. cbn [gr_hash].
  exact (doTransform_keeps_fullHash P W rid (Some resolveMap) worker rid _ c2 Hfull).
Qed.

(** A hash phase that fails on an idle record leaves it idle once the
    cleanup has run. *)
Lemma failed_hash_phase_leaves_idle P W rid c e c' key :
  idleRecord c key rid ->
  doHash P W rid c = Throws e c' ->
  idleRecord (exec (hashCleanup rid) c') key rid.
Proof.
  intros (Hkey & Hidle & Hnone & Hwatched) Hrun.
  rewrite (doHash_idle P W rid c Hidle) in Hrun.
  pose proof (hashBody_sameOutside P W rid c
                (exec (update rid (FTR.set_hashPromise (Some Pending))) c)) as Hsame.
  destruct (hashBody P W rid _) as [hr cb|e' cb|cb]; try discriminate.
  injection Hrun as <- <-.
  destruct Hsame as (Hrecords & _ & _ & _ & Hheap).
  { unfold exec, update, modify. cbn. unfold sameOutsideHash. cbn.
    do 4 (split; [reflexivity|]). intros r. unfold updateHeap.
    destruct (Nat.eqb r rid); cbn; auto 10. }
  simpl in Hrecords, Hheap.
  destruct (Hheap rid) as (Htransform & _ & _ & _ & Hwatching).
  unfold idleRecord, hashSettled, hashCleanup, exec, update, scheduleHashCleanup, modify. cbn.
  rewrite !updateHeap_eq. cbn. rewrite Htransform, Hwatching, Hrecords. auto.
Qed.

(** A dependency that resolves outside of the public directory makes
    [getResolveMap] throw the [ETRANSFORM] error whose message names the
    dependency relative to the directory of the record; the dependencies
    before it must have resolved.  A hash phase that fails with this
    error leaves the record registered, with its transform slot as it
    was and its hash slot emptied by the cleanup timeout, so that an idle
    record is idle again.  And a [get] of an idle, watched record returns
    the transformed module once its current source has dependencies that
    all resolve, provided a worker is free and cooperative: the worker
    the failed phase obtained is not that one. *)
Theorem outside_public_dir_fails_recoverably P W rid c before dep after resolved relResolved :
  let record := FTC.heap c rid in
  let base := path_dirname P (FTR.path record) in
  let e := outsidePublicDir P (FTR.path record) (FTC.publicDir c) relResolved in
  FTR.deps record = Some (before ++ dep :: after) ->
  Forall (fun dep => resolvesCleanly
            (classify P W (FTR.path record) (FTR.dew record) (FTC.publicDir c) base dep))
    before ->
  classify P W (FTR.path record) (FTR.dew record) (FTC.publicDir c) base dep
    = DepOutside resolved relResolved ->
  (getResolveMap P W rid c = Throws e c /\
   code e = Some "ETRANSFORM" /\
   message e = "Path " +:+ replaceWinSep (path_relative P (FTC.publicDir c) (FTR.path record))
               +:+ " has a dependency " +:+ relativeSpecifier P base resolved
               +:+ " outside of the public directory." /\
   startsWith resolved (FTC.publicDir c) = false) /\
  (forall c1,
     FTR.hashPromise record = None ->
     doHash P W rid c = Throws e c1 ->
     FTC.records c1 = FTC.records c /\
     FTR.path (FTC.heap c1 rid) = FTR.path record /\
     FTR.transformPromise (FTC.heap c1 rid) = FTR.transformPromise record /\
     FTR.hashPromise (FTC.heap c1 rid) = Some (Rejected e) /\
     FTC.timeouts c1 = FTC.timeouts c ++ [(now W + FTC.cacheClearInterval c, rid)] /\
     FTR.hashPromise (FTC.heap (exec (hashCleanup rid) c1) rid) = None /\
     forall key, idleRecord c key rid -> idleRecord (exec (hashCleanup rid) c1) key rid) /\
  (forall W' filePath c2 src w deps g,
     let record' := FTC.heap c2 rid in
     idleRecord c2 (requestKey filePath) rid ->
     FTR.originalSource record' = Some src ->
     endsWith (FTR.path record') ".json" = false ->
     findFree (FTC.workers c2) 0 = Some w ->
     (w < length (FTC.workers c2))%nat ->
     cooperative W' w ->
     analysesTo P W' c2 rid src w deps ->
     Forall (fun dep => resolvesCleanly
               (classify P W' (FTR.path record') (FTR.dew record') (FTC.publicDir c2)
                  (path_dirname P (FTR.path record')) dep)) deps ->
     isGlobalCache W' (FTR.path record') = Ok g ->
     exists res c3,
       get P W' filePath None c2 = Returns (Some res) c3 /\
       gr_hash res
       = Some (md5 P src +:+
               md5hex P (hashedPairs P W' (FTR.path record') (FTR.dew record')
                           (FTC.publicDir c2) (path_dirname P (FTR.path record')) deps))).
Proof.
  intros record base e Hdeps Hbefore Hdep. split; [|split].
  - split; [|split; [reflexivity|split]].
    + rewrite getResolveMap_run. fold record. rewrite Hdeps.
      rewrite (resolveDeps_outside P W _ _ _ _ before dep after resolved relResolved Hbefore Hdep).
      reflexivity.
    + unfold classify in Hdep.
      destruct (jspmResolve W _ _ _) as [res|]; [|discriminate].
      destruct (substituteBuiltin P res) as [resolved'|]; [|discriminate].
      destruct (startsWith resolved' _); [discriminate|].
      injection Hdep as <- <-. reflexivity.
    + unfold classify in Hdep.
      destruct (jspmResolve W _ _ _) as [res|]; [|discriminate].
      destruct (substituteBuiltin P res) as [resolved'|]; [|discriminate].
      destruct (startsWith resolved' _) eqn:Hprefix; [discriminate|].
      injection Hdep as <- <-. exact Hprefix.
  - intros c1 Hidle Hrun.
    destruct (failed_hash_phase_is_cleaned_up P W rid c e c1 Hidle Hrun)
      as (Hrejected & Htransform & Hpath & Hrecords & Htimeouts & Hcleanup).
    do 6 (split; [assumption|]).
    intros key Hregistered.
    exact (failed_hash_phase_leaves_idle P W rid c e c1 key Hregistered Hrun).
  - intros W' filePath c2 src w deps g record'. subst record'.
    apply get_idle_returns.
Qed.

(** *** Outcomes by evaluation *)

Lemma returns_exec {A} (m : Task A) (c : Cache) (a : A) :
  result (m c) = Some (Ok a) -> m c = Returns a (exec m c).
Proof. unfold exec. destruct (m c); simpl; congruence. Qed.

Lemma throws_exec {A} (m : Task A) (c : Cache) (e : JsError) :
  result (m c) = Some (Err e) -> m c = Throws e (exec m c).
Proof. unfold exec. destruct (m c); simpl; congruence. Qed.

(** *** The hash phase, both ways *)

(** The hash phase of a record that is not a JSON file.  If the hash of
    the current source differs from [originalSourceHash], and a worker is
    free and answers the source and the analyze message with data, that
    worker is bound to the record and primed, the analyze message is sent
    to it, and [deps] and [originalSourceHash] are replaced by what the
    worker found and by the new source hash; the phase hands that worker
    on.  If the hashes agree, [deps] is left as it is, no worker is
    touched, nothing is sent, and the worker slot of the result is empty.
    In both cases the phase returns when the dependencies all resolve. *)
Theorem hash_phase_analyses_iff_source_changed
    (P : Platform) (W : World) (rid : nat) (c : Cache) (src : string) :
  let record := FTC.heap c rid in
  let outcome :=
    classify P W (FTR.path record) (FTR.dew record) (FTC.publicDir c)
      (path_dirname P (FTR.path record)) in
  FTR.hashPromise record = None ->
  FTR.originalSource record = Some src ->
  endsWith (FTR.path record) ".json" = false ->
  let c' := exec (doHash P W rid) c in
  (FTR.originalSourceHash record <> Some (md5 P src) ->
   forall w ack data,
     findFree (FTC.workers c) 0 = Some w ->
     (w < length (FTC.workers c))%nat ->
     workerReply W w (FTC.sent c ++ [(w, sourceMessage P c rid)]) = WData ack ->
     workerReply W w (FTC.sent c ++ [(w, sourceMessage P c rid);
                                     (w, analyzeMessage (FTR.dew record))]) = WData data ->
     TW.record <$> (FTC.workers c' !! w) = Some (Some rid) /\
     FTC.sent c' = FTC.sent c ++ [(w, sourceMessage P c rid);
                                  (w, analyzeMessage (FTR.dew record))] /\
     FTR.deps (FTC.heap c' rid) = rd_deps data /\
     FTR.originalSourceHash (FTC.heap c' rid) = Some (md5 P src) /\
     (forall hr c'', doHash P W rid c = Returns hr c'' -> hr_worker hr = Some w) /\
     (forall deps,
        rd_deps data = Some deps ->
        Forall (fun dep => resolvesCleanly (outcome dep)) deps ->
        exists resolveMap,
          doHash P W rid c = Returns (mkHashResult (Some resolveMap) (Some w)) c'))
  /\
  (FTR.originalSourceHash record = Some (md5 P src) ->
   FTR.deps (FTC.heap c' rid) = FTR.deps record /\
   FTC.workers c' = FTC.workers c /\
   FTC.sent c' = FTC.sent c /\
   FTC.transformQueue c' = FTC.transformQueue c /\
   (forall hr c'', doHash P W rid c = Returns hr c'' -> hr_worker hr = None) /\
   (forall deps,
      FTR.deps record = Some deps ->
      Forall (fun dep => resolvesCleanly (outcome dep)) deps ->
      exists resolveMap,
        doHash P W rid c = Returns (mkHashResult (Some resolveMap) None) c')).
Proof.
  intros record outcome Hidle Hsrc Hjson c'. split.
  - intros Hchanged w ack data Hfree Hlt Hack Hdata.
    destruct (doHash_changed P W rid c src Hidle Hsrc Hjson w ack data Hchanged Hfree Hlt
                Hack Hdata) as (Hbound & Hsent & Hdeps & Hhash & Hworker).
    do 5 (split; [assumption|]).
    intros deps Hfound Hclean.
    destruct (doHash_changed_returns P W rid c src w ack data deps Hidle Hsrc Hjson
                Hchanged Hfree Hack Hdata Hfound Hclean) as (resolveMap & Hrun & _).
    exists resolveMap. exact Hrun.
  - intros Hsame.
    destruct (doHash_unchanged P W rid c src Hidle Hsrc Hjson Hsame)
      as (Hdeps & Hworkers & Hsent & Hqueue & Hworker).
    do 5 (split; [assumption|]).
    intros deps Hstored Hclean.
    destruct (doHash_unchanged_returns P W rid c src deps Hidle Hsrc Hjson Hsame Hstored
                Hclean) as (resolveMap & Hrun & _).
    exists resolveMap. exact Hrun.
Qed.

(** *** The transform phase, whatever the worker replies *)


(** *** What the mtime probe returns *)

(** C6: [getMtime] awaits what [fs.stat] answered and returns nothing:
    where the probe is meant to give [-1] or [mtimeMs], the caller
    gets [undefined].  Only the rejection is as intended: a stat error
    other than [ENOENT] and [EACCES] is thrown on. *)
Theorem getMtime_returns_undefined (W : World) (path : string) (c : Cache) :
  getMtime W path c
  = match stat W path with
    | Ok mtimeMs => Returns None c
    | Err err =>
        if bool_decide (code err = Some "ENOENT" \/ code err = Some "EACCES")
        then Returns None c
        else Throws err c
    end.
Proof.
  rewrite getMtime_run, statPromise_run.
  destruct (stat W path) as [mtimeMs|err]; [reflexivity|].
  case_bool_decide; reflexivity.
Qed.

(** *** JSON files after an edit *)

(** C2: a JSON file served, then edited.  The record keeps the settled
    [transformPromise] of its first transform, so the transform the edit
    asks for is never run: the next [get] returns the wrapper of the old
    content under the hash of the new content. *)
Theorem json_source_is_stale_after_edit :
  FTR.originalSource (FTC.heap Example.jsonEdited 0) = Some "[3]" /\
  exists c',
    get Scenario.posix Example.later "/pub/a.json?dew" None Example.jsonEdited
    = Returns (Some (mkGetResult (Some (jsonWrapper +:+ "[1, 2]")) None
                       (Some (md5 Scenario.posix "[3]")) false)) c' /\
    FTR.source (FTC.heap c' 0) = Some (jsonWrapper +:+ "[1, 2]") /\
    FTR.originalSource (FTC.heap c' 0) = Some "[3]" /\
    FTR.source (FTC.heap c' 0)
      <> Some (jsonWrapper +:+ show (FTR.originalSource (FTC.heap c' 0))).
Proof.
  split; [vm_compute; reflexivity|].
  exists (exec (get Scenario.posix Example.later "/pub/a.json?dew" None) Example.jsonEdited).
  split; [|split; [|split]].
  - apply returns_exec. vm_compute. reflexivity.
  - vm_compute. reflexivity.
  - vm_compute. reflexivity.
  - vm_compute. discriminate.
Qed.

(** *** The worker of a failed hash phase *)

(** A hash phase that analyses a changed source and then fails on a
    dependency outside of the public directory throws with its worker
    still bound to the record: nothing frees it. *)
Theorem failed_hash_phase_keeps_its_worker
    (P : Platform) (W : World) (rid : nat) (c : Cache) (src : string) (w : nat)
    (ack data : ReplyData) (before : list string) (dep : string) (after : list string)
    (resolved relResolved : string) :
  let record := FTC.heap c rid in
  let outcome :=
    classify P W (FTR.path record) (FTR.dew record) (FTC.publicDir c)
      (path_dirname P (FTR.path record)) in
  FTR.hashPromise record = None ->
  FTR.originalSource record = Some src ->
  endsWith (FTR.path record) ".json" = false ->
  FTR.originalSourceHash record <> Some (md5 P src) ->
  findFree (FTC.workers c) 0 = Some w ->
  (w < length (FTC.workers c))%nat ->
  workerReply W w (FTC.sent c ++ [(w, sourceMessage P c rid)]) = WData ack ->
  workerReply W w (FTC.sent c ++ [(w, sourceMessage P c rid);
                                  (w, analyzeMessage (FTR.dew record))]) = WData data ->
  rd_deps data = Some (before ++ dep :: after) ->
  Forall (fun dep => resolvesCleanly (outcome dep)) before ->
  outcome dep = DepOutside resolved relResolved ->
  let c' := exec (doHash P W rid) c in
  doHash P W rid c
    = Throws (outsidePublicDir P (FTR.path record) (FTC.publicDir c) relResolved) c' /\
  TW.record <$> (FTC.workers c' !! w) = Some (Some rid) /\
  FTR.hashPromise (FTC.heap c' rid)
    = Some (Rejected (outsidePublicDir P (FTR.path record) (FTC.publicDir c) relResolved)).
Proof.
  intros record outcome Hidle Hsrc Hjson Hchanged Hfree Hlt Hack Hdata Hdeps Hbefore Hdep c'.
  destruct (doHash_changed P W rid c src Hidle Hsrc Hjson w ack data Hchanged Hfree Hlt
              Hack Hdata) as (Hbound & _).
  assert (Hrun : doHash P W rid c
                 = Throws (outsidePublicDir P (FTR.path record) (FTC.publicDir c) relResolved)
                     c').
  { subst record outcome c'.
    pose proof (resolveDeps_outside P W _ _ _ _ before dep after resolved relResolved
                  Hbefore Hdep (∅, createHash)) as Hloop.
    unfold doHash, hashBody, scheduleHashCleanup, arm, send, awaitReply, update, setWorker.
    unfold_task. rewrite Hidle. reduce.
    rewrite !updateHeap_eq. reduce. rewrite Hsrc, Hjson.
    rewrite bool_decide_eq_true_2 by exact Hchanged.
    rewrite (assignWorker_free P W rid _ w) by exact Hfree.
    unfold primed, sourceMessage, analyzeMessage, setWorker, send, arm in *. unfold_task.
    reduce. rewrite !updateHeap_eq. reduce.
    rewrite Hsrc in *. rewrite Hack. reduce. rewrite <- !app_assoc. reduce.
    rewrite Hdata. reduce. rewrite getResolveMap_run. reduce. rewrite !updateHeap_eq. reduce.
    rewrite Hdeps. reduce. rewrite Hloop. reduce. reflexivity. }
  split; [exact Hrun|]. split; [exact Hbound|].
  destruct (failed_hash_phase_is_cleaned_up P W rid c _ c' Hidle Hrun) as (Hrejected & _).
  exact Hrejected.
Qed.

(** The first hash phase of [d.js]. *)
Lemma failed_hash_phase_keeps_its_worker_witness :
  let c := exec (lookupRecord Example.atStart "/pub/d.js" false "") Example.fresh in
  let c' := exec (doHash Scenario.posix Example.atStart 0) c in
  findFree (FTC.workers c) 0 = Some 0%nat /\
  FTR.originalSource (FTC.heap c 0) = Some "import c" /\
  doHash Scenario.posix Example.atStart 0 c
    = Throws (outsidePublicDir Scenario.posix (FTR.path (FTC.heap c 0)) (FTC.publicDir c)
                "../other/c.js") c' /\
  TW.record <$> (FTC.workers c' !! 0%nat) = Some (Some 0%nat).
Proof.
  intros c c'.
  assert (Hfree : findFree (FTC.workers c) 0 = Some 0%nat) by (vm_compute; reflexivity).
  assert (Hsrc : FTR.originalSource (FTC.heap c 0) = Some "import c")
    by (vm_compute; reflexivity).
  destruct (failed_hash_phase_keeps_its_worker Scenario.posix Example.atStart 0 c "import c"
              0%nat (mkReplyData None None None) (mkReplyData (Some ["c"]) None None)
              [] "c" [] "/other/c.js" "../other/c.js"
              ltac:(vm_compute; reflexivity) Hsrc ltac:(vm_compute; reflexivity)
              ltac:(vm_compute; discriminate) Hfree ltac:(vm_compute; lia)
              ltac:(vm_compute; reflexivity) ltac:(vm_compute; reflexivity) eq_refl
              (List.Forall_nil _) ltac:(vm_compute; reflexivity))
    as (Hthrows & Hbound & _).
  split; [exact Hfree|]. split; [exact Hsrc|]. split; [exact Hthrows | exact Hbound].
Defined.

(** With as many failed requests as workers, no worker is free: a request
    that needs one waits, and so does the same request after the
    timeouts have emptied the hash slots. *)
Theorem leaked_workers_starve_requests :
  findFree (FTC.workers Example.saturated) 0 = None /\
  result (get Scenario.posix Example.atStart "/pub/b.js" None Example.saturated) = None /\
  let c := run Scenario.posix [(Example.later, TimeoutFires 0); (Example.later, TimeoutFires 0)]
             Example.saturated in
  FTC.timeouts c = [] /\
  findFree (FTC.workers c) 0 = None /\
  result (get Scenario.posix Example.later "/pub/b.js" None c) = None.
Proof. repeat split; vm_compute; reflexivity. Qed.

(** *** JSON files: the first transform *)

(** A [get] of an idle JSON record whose transform slot is empty wraps the
    current source, and answers with its hash alone; the settled promise
    of the transform stays in the record. *)
Theorem json_get_wraps_source
    (P : Platform) (W : World) (filePath : string) (c : Cache) (rid : nat) (src : string)
    (g : bool) :
  let record := FTC.heap c rid in
  idleRecord c (requestKey filePath) rid ->
  FTR.originalSource record = Some src ->
  endsWith (FTR.path record) ".json" = true ->
  isGlobalCache W (FTR.path record) = Ok g ->
  let c' := exec (get P W filePath None) c in
  get P W filePath None c
    = Returns (Some (mkGetResult (Some (jsonWrapper +:+ src)) (FTR.sourceMap record)
                       (Some (md5 P src)) g)) c' /\
  FTR.source (FTC.heap c' rid) = Some (jsonWrapper +:+ src) /\
  FTR.fullHash (FTC.heap c' rid) = Some (md5 P src) /\
  FTR.transformPromise (FTC.heap c' rid) = Some (Fulfilled tt).
Proof.
  intros record (Hkey & Hidle & Hnone & Hwatched) Hsrc Hjson Hprobe c'.
  subst record c'. unfold requestKey in Hkey. unfold exec, get.
  rewrite (bind_Returns _ _ _ _ _ (lookupRecord_existing W _ _ _ rid c Hkey)).
  rewrite bind_deref, Hidle, Hnone.
  rewrite (bind_Returns _ _ _ _ _ (checkFreshness_watched W _ _ rid c Hwatched)).
  unfold doHash, hashBody, doTransform, transformBody, completed, scheduleHashCleanup, update.
  unfold_task. rewrite Hidle. reduce. rewrite !updateHeap_eq. reduce.
  rewrite Hsrc, Hjson. reduce. rewrite !updateHeap_eq. reduce.
  rewrite Hnone. reduce. rewrite !updateHeap_eq. reduce. rewrite Hjson, Hprobe. reduce.
  rewrite !updateHeap_eq. reduce. rewrite Hsrc. reduce. rewrite !updateHeap_eq. reduce.
  split; [reflexivity|]. auto.
Qed.

(** The first request for the JSON file. *)
Lemma json_get_wraps_source_witness :
  let c := exec (lookupRecord Example.atStart "/pub/a.json" true "?dew") Example.fresh in
  let c' := exec (get Scenario.posix Example.atStart "/pub/a.json?dew" None) c in
  idleRecord c (requestKey "/pub/a.json?dew") 0 /\
  FTR.originalSource (FTC.heap c 0) = Some "[1, 2]" /\
  get Scenario.posix Example.atStart "/pub/a.json?dew" None c
    = Returns (Some (mkGetResult (Some (jsonWrapper +:+ "[1, 2]"))
                       (FTR.sourceMap (FTC.heap c 0))
                       (Some (md5 Scenario.posix "[1, 2]")) false)) c' /\
  FTR.transformPromise (FTC.heap c' 0) = Some (Fulfilled tt).
Proof.
  intros c c'.
  assert (Hidle : idleRecord c (requestKey "/pub/a.json?dew") 0)
    by (repeat split; vm_compute; reflexivity).
  assert (Hsrc : FTR.originalSource (FTC.heap c 0) = Some "[1, 2]")
    by (vm_compute; reflexivity).
  destruct (json_get_wraps_source Scenario.posix Example.atStart "/pub/a.json?dew" c 0
              "[1, 2]" false Hidle Hsrc ltac:(vm_compute; reflexivity)
              ltac:(vm_compute; reflexivity)) as (Hrun & _ & _ & Hkept).
  split; [exact Hidle|]. split; [exact Hsrc|]. split; [exact Hrun | exact Hkept].
Defined.

(** ** The properties on the small site *)

(** The reference digest is 32 characters long, so never empty. *)
Lemma digest_nonempty (s : string) : MD5.digest s <> "".
Proof.
  unfold MD5.digest. destruct (MD5.blocks _ _ _) as [[[a b] c] d]. discriminate.
Qed.

Lemma obliging_cooperative (w : nat) : cooperative Example.later w.
Proof.
  intros log. change (exists data, Example.obliging w log = WData data).
  unfold Example.obliging.
  destruct (Scenario.worker Example.analysis w log) as [data|data]; eexists; reflexivity.
Qed.

(** No timer with a zero interval: after a request and a tick that
    never comes. *)
Lemma no_clear_timer_without_positive_interval_witness :
  0 <= 0 /\
  let c := run Scenario.posix
             [(Example.atStart, Get "/pub/b.js" None); (Example.later, IntervalTick)]
             (constructor Scenario.posix Example.atStart "/pub" 0 10 false) in
  FTC.cacheInterval c = None /\
  FTC.resolveCache c = 0%nat /\
  FTC.nextExpiry c = now Example.atStart + 0.
Proof.
  split; [lia|].
  exact (proj2 (no_clear_timer_without_positive_interval Scenario.posix Example.atStart
                  "/pub" 0 10 false
                  [(Example.atStart, Get "/pub/b.js" None); (Example.later, IntervalTick)]
                  ltac:(lia))).
Defined.

(** Three waiters on the two bound workers of [saturated]. *)
Lemma waiters_get_workers_in_enqueue_order_witness :
  findFree (FTC.workers Example.saturated) 0 = None /\
  FTC.transformQueue Example.saturated = [] /\
  let c1 := assignAll Scenario.posix Example.atStart [0; 1; 0]%nat Example.saturated in
  let c2 := freeAll [1; 0; 1]%nat c1 in
  FTC.transformQueue c1 = waitersFrom (FTC.nextTicket Example.saturated) [0; 1; 0]%nat /\
  map (fun h => (waiter_record (fst h), snd h))
    (drop (length (FTC.handed Example.saturated)) (FTC.handed c2))
  = zip [0; 1; 0]%nat [1; 0; 1]%nat.
Proof.
  assert (Hbusy : findFree (FTC.workers Example.saturated) 0 = None)
    by (vm_compute; reflexivity).
  assert (Hqueue : FTC.transformQueue Example.saturated = []) by (vm_compute; reflexivity).
  split; [exact Hbusy|]. split; [exact Hqueue|].
  pose proof (waiters_get_workers_in_enqueue_order Scenario.posix Example.atStart
                Example.saturated [0; 1; 0]%nat [1; 0; 1]%nat Hbusy Hqueue eq_refl)
    as (Henqueued & _ & Horder & _).
  split; [exact Henqueued | exact Horder].
Defined.

(** A first request for [a.js] that carries the hash the module will
    have: worker 0 analyses the source, no transform is asked for, and
    the worker is free again. *)
Lemma get_with_known_hash_is_not_modified_witness :
  let h := "1edc557468ec3725515071b9b4c695a8d8654afcd0d4c6c4de044a47d9027a5d" in
  let c := Example.fresh in
  let c1 := exec (lookupRecord Example.atStart "/pub/a.js" false "") c in
  let c2 := exec (hashPhase Scenario.posix Example.atStart "/pub/a.js" "" 0) c1 in
  let c3 := exec (freeIfAny (Some 0%nat)) c2 in
  FTR.fullHash (FTC.heap c2 0) = Some h /\
  TW.record <$> (FTC.workers c2 !! 0%nat) = Some (Some 0%nat) /\
  get Scenario.posix Example.atStart "/pub/a.js" (Some h) c
    = Returns (Some (mkGetResult None None (Some h) (FTR.isGlobalCache (FTC.heap c3 0)))) c3 /\
  transformsSent c3 = transformsSent c /\
  FTC.workers c3 !! 0%nat = Some (TW.mk None None None) /\
  FTC.transformQueue c3 = [].
Proof.
  intros h c c1 c2 c3.
  assert (Hfull : FTR.fullHash (FTC.heap c2 0) = Some h) by (vm_compute; reflexivity).
  assert (Hbound : TW.record <$> (FTC.workers c2 !! 0%nat) = Some (Some 0%nat))
    by (vm_compute; reflexivity).
  assert (Hlookup : lookupRecord Example.atStart "/pub/a.js" false "" c
                    = Returns (SlotRecord 0) c1)
    by (exact (returns_exec (lookupRecord Example.atStart "/pub/a.js" false "") c
                 (SlotRecord 0) ltac:(vm_compute; reflexivity))).
  assert (Hphase : hashPhase Scenario.posix Example.atStart "/pub/a.js" "" 0 c1
                   = Returns (Some 0%nat) c2)
    by (exact (returns_exec (hashPhase Scenario.posix Example.atStart "/pub/a.js" "" 0) c1
                 (Some 0%nat) ltac:(vm_compute; reflexivity))).
  split; [exact Hfull|]. split; [exact Hbound|].
  destruct (get_with_known_hash_is_not_modified Scenario.posix Example.atStart "/pub/a.js" h c
              0%nat c1 (Some 0%nat) c2 digest_nonempty
              (run_hashesNonEmpty Scenario.posix digest_nonempty Example.atStart "/pub" 500 10
                 false [])
              Hlookup Hphase Hfull) as (Hget & Hsent & _ & Hworkers & Hqueue).
  split; [exact Hget|]. split; [exact Hsent|]. split.
  - fold c3 in Hworkers. rewrite Hworkers. vm_compute. reflexivity.
  - fold c3 in Hqueue. rewrite Hqueue. vm_compute. reflexivity.
Defined.


(** [d.js] reaches out of [/pub]: the request fails; once the file no
    longer does, and the hash slot has been emptied, the request is
    served by the worker that is still free. *)
Lemma outside_public_dir_fails_recoverably_witness :
  FTR.deps (FTC.heap Example.failed 0) = Some ["c"] /\
  getResolveMap Scenario.posix Example.atStart 0 Example.failed
    = Throws (mkError "Path d.js has a dependency ../other/c.js outside of the public directory."
                (Some "ETRANSFORM")) Example.failed /\
  FTR.originalSource (FTC.heap Example.repaired 0) = Some "import b" /\
  exists res c3,
    get Scenario.posix Example.later "/pub/d.js" None Example.repaired = Returns (Some res) c3 /\
    gr_hash res = Some "6cbd8d965d7d6e11d4403fb77bca3c34b212db6813b0d33241570eeedbbb8487".
Proof.
  assert (Hdeps : FTR.deps (FTC.heap Example.failed 0) = Some ([] ++ "c" :: []))
    by (vm_compute; reflexivity).
  assert (Hsrc : FTR.originalSource (FTC.heap Example.repaired 0) = Some "import b")
    by (vm_compute; reflexivity).
  destruct (outside_public_dir_fails_recoverably Scenario.posix Example.atStart 0
              Example.failed [] "c" [] "/other/c.js" "../other/c.js" Hdeps
              (List.Forall_nil _) ltac:(vm_compute; reflexivity))
    as ((Hthrows & _) & _ & Hrecovers).
  split; [exact Hdeps|]. split; [exact Hthrows|]. split; [exact Hsrc|].
  destruct (Hrecovers Example.later "/pub/d.js" Example.repaired "import b" 1%nat ["b"] false)
    as (res & c3 & Hrun & Hhash).
  - repeat split; vm_compute; reflexivity.
  - exact Hsrc.
  - vm_compute. reflexivity.
  - vm_compute. reflexivity.
  - vm_compute. lia.
  - apply obliging_cooperative.
  - right. split; [vm_compute; discriminate|].
    exists (mkReplyData (Some ["b"]) None None). split; vm_compute; reflexivity.
  - apply List.Forall_cons; [vm_compute; exact I | apply List.Forall_nil].
  - vm_compute. reflexivity.
  - exists res, c3. split; [exact Hrun|]. rewrite Hhash. vm_compute. reflexivity.
Defined.

(** A text file: the resolver knows no format for it. *)
Lemma first_get_goes_by_format_witness :
  jspmFormat Example.atStart "/pub/notes.txt" false = Ok None /\
  let c' := exec (get Scenario.posix Example.atStart "/pub/notes.txt" None) Example.fresh in
  let e := Error ("Unable to transform module format " +:+ orUnknown None +:+ ".") in
  get Scenario.posix Example.atStart "/pub/notes.txt" None Example.fresh = Throws e c' /\
  code e = None /\
  FTC.records c' !! "/pub/notes.txt" = Some (Rejected e) /\
  FTC.nextRecord c' = FTC.nextRecord Example.fresh.
Proof.
  assert (Hformat : jspmFormat Example.atStart "/pub/notes.txt" false = Ok None)
    by (vm_compute; reflexivity).
  split; [exact Hformat|].
  refine (proj2 (proj2 (first_get_goes_by_format Scenario.posix Example.atStart
                          "/pub/notes.txt" None Example.fresh None
                          ltac:(vm_compute; reflexivity) ltac:(vm_compute; reflexivity)
                          Hformat)) _ _ _); discriminate.
Defined.

(** The error thrown for an unknown format carries no code at all. *)
Lemma unsupported_format_error_has_no_code :
  exists e c',
    get Scenario.posix Example.atStart "/pub/notes.txt" None Example.fresh = Throws e c' /\
    message e = "Unable to transform module format unknown." /\
    forall tag : string, code e <> Some tag.
Proof.
  exists (Error "Unable to transform module format unknown.").
  exists (exec (get Scenario.posix Example.atStart "/pub/notes.txt" None) Example.fresh).
  split; [|split; [reflexivity | discriminate]].
  exact (throws_exec (get Scenario.posix Example.atStart "/pub/notes.txt" None) Example.fresh
           _ ltac:(vm_compute; reflexivity)).
Qed.

(** [d.js] after the edit: its source is no longer the one analysed. *)
Lemma hash_phase_analyses_iff_source_changed_witness :
  let c := Example.repaired in
  let c' := exec (doHash Scenario.posix Example.later 0) c in
  FTR.hashPromise (FTC.heap c 0) = None /\
  FTR.originalSource (FTC.heap c 0) = Some "import b" /\
  FTR.originalSourceHash (FTC.heap c 0) <> Some (md5 Scenario.posix "import b") /\
  TW.record <$> (FTC.workers c' !! 1%nat) = Some (Some 0%nat) /\
  FTR.deps (FTC.heap c' 0) = Some ["b"] /\
  FTR.originalSourceHash (FTC.heap c' 0) = Some (md5 Scenario.posix "import b") /\
  exists resolveMap,
    doHash Scenario.posix Example.later 0 c
    = Returns (mkHashResult (Some resolveMap) (Some 1%nat)) c'.
Proof.
  intros c c'.
  assert (Hidle : FTR.hashPromise (FTC.heap c 0) = None) by (vm_compute; reflexivity).
  assert (Hsrc : FTR.originalSource (FTC.heap c 0) = Some "import b")
    by (vm_compute; reflexivity).
  assert (Hchanged : FTR.originalSourceHash (FTC.heap c 0)
                     <> Some (md5 Scenario.posix "import b"))
    by (vm_compute; discriminate).
  destruct (hash_phase_analyses_iff_source_changed Scenario.posix Example.later 0 c
              "import b" Hidle Hsrc ltac:(vm_compute; reflexivity)) as [Hanalyses _].
  destruct (Hanalyses Hchanged 1%nat (mkReplyData None None None)
              (mkReplyData (Some ["b"]) None None))
    as (Hbound & _ & Hdeps & Hhash & _ & Hreturns).
  - vm_compute. reflexivity.
  - vm_compute. lia.
  - vm_compute. reflexivity.
  - vm_compute. reflexivity.
  - do 3 (split; [assumption|]). split; [exact Hbound|]. split; [exact Hdeps|].
    split; [exact Hhash|].
    apply (Hreturns ["b"] eq_refl).
    apply List.Forall_cons; [vm_compute; exact I | apply List.Forall_nil].
Defined.


(** ** What a run never changes *)

(** The class without [watch] and [getMtime], which some invariants take
    as a whole. *)
Ltac unfold_requests :=
  unfold get, lookupRecord, checkFreshness, createRecord, refreshRecord,
    notModified, completed, onWatchEvent, doTransform, transformBody, doHash, hashBody,
    hashCleanup, scheduleHashCleanup, getResolveMap, freeIfAny.

(** *** The configuration and the size of the pool *)

Ltac configuration_leaf :=
  intros ? ?;
  first
    [ assumption
    | unfold configuration in *;
      cbn [FTC.maxWatchCount FTC.production FTC.publicDir FTC.cacheClearInterval FTC.workers
           FTC.set_workers FTC.set_heap FTC.set_records FTC.set_watching FTC.set_sent
           FTC.set_transformQueue FTC.set_timeouts FTC.set_nextTicket FTC.set_handed
           FTC.set_nextRecord];
      rewrite ?length_alter; assumption ].

Lemma get_keeps_configuration P W filePath hash v :
  preserves (fun c => configuration c = v) (get P W filePath hash).
Proof.
  unfold_class. unfold_pool. unfold_prims. frame ltac:(configuration_leaf).
Qed.

Lemma onWatchEvent_keeps_configuration P W rid type v :
  preserves (fun c => configuration c = v) (onWatchEvent P W rid type).
Proof.
  unfold_class. unfold_pool. unfold_prims. frame ltac:(configuration_leaf).
Qed.

(** However long the instance runs, its public directory, its flags and
    intervals are those of the constructor, and its pool has one worker
    per CPU, whatever failed on the way. *)
Theorem run_keeps_configuration
    (P : Platform) (W0 : World) (publicDir : string)
    (cacheClearInterval maxWatchCount : Z) (production : bool)
    (turns : list (World * Event)) :
  let c0 := constructor P W0 publicDir cacheClearInterval maxWatchCount production in
  let c := run P turns c0 in
  FTC.maxWatchCount c = maxWatchCount /\
  FTC.production c = production /\
  FTC.publicDir c = FTC.publicDir c0 /\
  FTC.cacheClearInterval c = cacheClearInterval /\
  length (FTC.workers c) = cpus P.
Proof.
  intros c0 c.
  assert (Hfixed : configuration c = configuration c0).
  { apply (run_invariant P (fun c' => configuration c' = configuration c0)).
    - intros. apply get_keeps_configuration.
    - intros. apply onWatchEvent_keeps_configuration.
    - intros W c' _ Hc'. exact Hc'.
    - intros i rid c' Hc'. exact Hc'.
    - reflexivity. }
  unfold configuration in Hfixed. injection Hfixed as Hwatch Hproduction Hdir Hinterval Hpool.
  rewrite Hwatch, Hproduction, Hdir, Hinterval, Hpool. subst c0. cbn.
  rewrite length_replicate. auto.
Qed.

(** *** Watchers *)

Lemma preserves_getMtime (I : Cache -> Prop) W path : preserves I (getMtime W path).
Proof. intros c Hc. rewrite getMtime_run. destruct (statPromise W path); exact Hc. Qed.

#[export] Hint Resolve preserves_getMtime : frame.

Lemma watch_bounded W rid m : preserves (watchBounded m) (watch W rid).
Proof.
  intros c [Hmax Hle]. unfold watch, update, exec. unfold_task. cbn.
  destruct (Z.of_nat (length (FTC.watching c)) =? FTC.maxWatchCount c) eqn:Hfull.
  - cbn. rewrite getMtime_run. destruct (statPromise W _); split; assumption.
  - apply Z.eqb_neq in Hfull.
    destruct (fsWatch W _); cbn; [|split; assumption].
    unfold watchBounded. cbn. rewrite length_app. cbn. lia.
Qed.

Lemma watch_keepsWatchers W rid opened : preserves (keepsWatchers opened) (watch W rid).
Proof.
  intros c Hc. unfold watch, update, exec. unfold_task. cbn.
  destruct (Z.of_nat (length (FTC.watching c)) =? FTC.maxWatchCount c).
  - cbn. rewrite getMtime_run. destruct (statPromise W _); exact Hc.
  - destruct (fsWatch W _); cbn; [|exact Hc].
    unfold keepsWatchers in *. cbn. apply prefix_app_r. exact Hc.
Qed.

#[export] Hint Resolve watch_bounded watch_keepsWatchers : frame.

Lemma get_watchBounded P W filePath hash m :
  preserves (watchBounded m) (get P W filePath hash).
Proof.
  unfold_requests. unfold_pool. unfold_prims. frame ltac:(intros ? H; exact H).
Qed.

Lemma onWatchEvent_watchBounded P W rid type m :
  preserves (watchBounded m) (onWatchEvent P W rid type).
Proof.
  unfold_requests. unfold_pool. unfold_prims. frame ltac:(intros ? H; exact H).
Qed.

Lemma get_keepsWatchers P W filePath hash opened :
  preserves (keepsWatchers opened) (get P W filePath hash).
Proof.
  unfold_requests. unfold_pool. unfold_prims. frame ltac:(intros ? H; exact H).
Qed.

Lemma onWatchEvent_keepsWatchers P W rid type opened :
  preserves (keepsWatchers opened) (onWatchEvent P W rid type).
Proof.
  unfold_requests. unfold_pool. unfold_prims. frame ltac:(intros ? H; exact H).
Qed.

(** With a limit that is not negative, no run ever has more watchers
    than [maxWatchCount]. *)
Theorem watchers_never_exceed_limit
    (P : Platform) (W0 : World) (publicDir : string)
    (cacheClearInterval maxWatchCount : Z) (production : bool)
    (turns : list (World * Event)) :
  0 <= maxWatchCount ->
  let c := run P turns
             (constructor P W0 publicDir cacheClearInterval maxWatchCount production) in
  Z.of_nat (length (FTC.watching c)) <= maxWatchCount.
Proof.
  intros Hlimit c.
  apply (run_invariant P (watchBounded maxWatchCount)).
  - intros. apply get_watchBounded.
  - intros. apply onWatchEvent_watchBounded.
  - intros W c' _ Hc'. exact Hc'.
  - intros i rid c' Hc'. exact Hc'.
  - split; [reflexivity | exact Hlimit].
Qed.

(** No turn closes a watcher: not the [rename] event of a file that went
    away, not a failed read.  The list of watchers only grows, so a slot
    under the limit is never given back. *)
Theorem watchers_are_never_released
    (P : Platform) (turns : list (World * Event)) (c : Cache) :
  FTC.watching c `prefix_of` FTC.watching (run P turns c).
Proof.
  apply (run_invariant P (keepsWatchers (FTC.watching c))).
  - intros. apply get_keepsWatchers.
  - intros. apply onWatchEvent_keepsWatchers.
  - intros W c' _ Hc'. exact Hc'.
  - intros i rid c' Hc'. exact Hc'.
  - unfold keepsWatchers. reflexivity.
Qed.

(** *** Modification times *)

(** What [getMtime] hands to its continuation is [undefined]. *)
Lemma preserves_after_getMtime {B} (I : Cache -> Prop) W path (k : option Z -> Task B) :
  preserves I (k None) -> preserves I (mtime <- getMtime W path ;; k mtime).
Proof.
  intros Hk c Hc. unfold bind. rewrite getMtime_run.
  destruct (statPromise W path); [apply Hk, Hc | exact Hc].
Qed.

Ltac mtime_leaf :=
  intros ? ?;
  first
    [ assumption
    | unfold mtimesUndefined in *; intros ?;
      unfold allocated; cbn [FTC.heap FTC.set_heap FTC.set_nextRecord]; unfold updateHeap;
      match goal with
      | H : forall _, _ = None |- context [Nat.eqb ?r ?r'] =>
          destruct (Nat.eqb r r'); [cbn; first [apply H | reflexivity] | apply H]
      end ].

Ltac frame_mtime :=
  repeat first
    [ apply preserves_after_getMtime
    | frame_step ltac:(mtime_leaf) ].

Lemma get_mtimesUndefined P W filePath hash :
  preserves mtimesUndefined (get P W filePath hash).
Proof.
  unfold_requests. unfold watch. unfold_pool. unfold_prims. frame_mtime.
Qed.

Lemma onWatchEvent_mtimesUndefined P W rid type :
  preserves mtimesUndefined (onWatchEvent P W rid type).
Proof.
  unfold_requests. unfold_pool. unfold_prims. frame_mtime.
Qed.

Lemma run_mtimesUndefined P W0 publicDir cacheClearInterval maxWatchCount production turns :
  mtimesUndefined
    (run P turns (constructor P W0 publicDir cacheClearInterval maxWatchCount production)).
Proof.
  apply run_invariant.
  - intros. apply get_mtimesUndefined.
  - intros. apply onWatchEvent_mtimesUndefined.
  - intros W c _ Hc. exact Hc.
  - intros i rid c Hc r. unfold hashCleanup, update. cbn. unfold updateHeap.
    destruct (Nat.eqb r rid); [cbn|]; apply Hc.
  - intros rid. reflexivity.
Qed.

(** The mtime check of a record that is not watched never reads the file
    again.  Every record has [mtime] undefined, and [getMtime] answers
    undefined, so the two always agree: in every state the instance can
    reach, the check leaves all records as they are and stores the
    record again under its key, or, when [fs.stat] fails with another
    error than [ENOENT] and [EACCES], stores the rejection. *)
Theorem mtime_check_never_rereads
    (P : Platform) (W0 : World) (publicDir : string)
    (cacheClearInterval maxWatchCount : Z) (production : bool)
    (turns : list (World * Event)) (W : World) (filePath : string) (rid : nat) :
  let c := run P turns
             (constructor P W0 publicDir cacheClearInterval maxWatchCount production) in
  refreshRecord W filePath rid c
  = match stat W (FTR.path (FTC.heap c rid)) with
    | Ok _ => Returns (SlotRecord rid) c
    | Err err =>
        if bool_decide (code err = Some "ENOENT" \/ code err = Some "EACCES")
        then Returns (SlotRecord rid) c
        else Throws err c
    end.
Proof.
  intros c.
  pose proof (run_mtimesUndefined P W0 publicDir cacheClearInterval maxWatchCount production
                turns rid) as Hmtime.
  fold c in Hmtime.
  unfold refreshRecord. rewrite bind_deref. unfold bind at 1.
  rewrite getMtime_run, statPromise_run, Hmtime.
  destruct (stat W _) as [mtimeMs|err]; [reflexivity|].
  case_bool_decide; reflexivity.
Qed.

(** ** Requests for a key whose handle is settled without a record *)

(** A [get] of a key whose stored handle is rejected (the file was not
    found, its format has no transform, [fs.watch] or [fs.stat] failed)
    throws the error of the handle and does nothing else: the call does
    not read the file or ask for its format, whatever they have become,
    and stores nothing. *)
Theorem rejected_handle_is_replayed
    (P : Platform) (W : World) (filePath : string) (hash : option string) (e : JsError)
    (c : Cache) :
  FTC.records c !! requestKey filePath = Some (Rejected e) ->
  get P W filePath hash c = Throws e c.
Proof.
  unfold requestKey. intros Hkey. unfold get, lookupRecord.
  rewrite !bind_bind, bind_this, Hkey. reflexivity.
Qed.

(** A [get] of a key whose stored handle is [null] (a file the resolver
    took for [json] or [cjs], asked for without the [?dew] suffix) returns
    nothing and does nothing else, whatever the file has become. *)
Theorem null_handle_returns_nothing
    (P : Platform) (W : World) (filePath : string) (hash : option string) (c : Cache) :
  FTC.records c !! requestKey filePath = Some (Fulfilled SlotNull) ->
  get P W filePath hash c = Returns None c.
Proof.
  unfold requestKey. intros Hkey. unfold get, lookupRecord.
  rewrite !bind_bind, bind_this, Hkey. reflexivity.
Qed.

(** *** A failed hash phase is replayed *)

(** After a hash phase has failed, and until the cleanup timeout empties
    the slot, every [get] of the record throws the error of that phase
    and does nothing else: nothing is resolved or analysed again,
    whatever the file has become. *)
Theorem failed_hash_phase_is_replayed
    (P : Platform) (W : World) (rid : nat) (c : Cache) (e : JsError) (c1 : Cache)
    (W' : World) (filePath : string) (hash : option string) :
  idleRecord c (requestKey filePath) rid ->
  doHash P W rid c = Throws e c1 ->
  get P W' filePath hash c1 = Throws e c1.
Proof.
  intros (Hkey & Hidle & _) Hrun.
  destruct (failed_hash_phase_is_cleaned_up P W rid c e c1 Hidle Hrun)
    as (Hrejected & _ & _ & Hrecords & _).
  unfold requestKey in Hkey. unfold get.
  rewrite <- Hrecords in Hkey.
  rewrite (bind_Returns _ _ _ _ _ (lookupRecord_existing W' _ _ _ rid c1 Hkey)).
  rewrite bind_deref, Hrejected. reflexivity.
Qed.

(** ** The first request of a key, when it fails *)

(** The first [get] of a key of the legacy variant ([?dew]).  With format
    [cjs] or [json] a record for the path without the suffix is created.
    With any other format, or none, [get] throws the [ENOTRANSFORM] error
    that names the format, and the handle of the key is rejected with
    it. *)
Theorem legacy_first_get_goes_by_format
    (P : Platform) (W : World) (filePath : string) (hash : option string) (c : Cache)
    (fmt : option string) :
  let path := substr0 filePath (String.length filePath - 4) in
  endsWith filePath "?dew" = true ->
  FTC.records c !! (path +:+ "?dew") = None ->
  jspmFormat W path true = Ok fmt ->
  let c' := exec (get P W filePath hash) c in
  (fmt = Some "cjs" \/ fmt = Some "json" -> holdsRecord (FTC.nextRecord c) path true c') /\
  (fmt <> Some "cjs" -> fmt <> Some "json" ->
   let e := withCode "ENOTRANSFORM"
              (Error ("No dew transform for " +:+ show fmt +:+ " format.")) in
   get P W filePath hash c = Throws e c' /\
   FTC.records c' !! (path +:+ "?dew") = Some (Rejected e) /\
   FTC.nextRecord c' = FTC.nextRecord c).
Proof.
  intros path Hdew Hnew Hformat c'. subst c' path. unfold exec, get. rewrite !Hdew.
  cbv zeta iota. unfold lookupRecord.
  rewrite !bind_bind, bind_this, Hnew, !bind_bind, bind_ret.
  unfold setSlot. rewrite !bind_bind, bind_modify.
  unfold createRecord. rewrite Hformat.
  split.
  - intros Hfmt. apply preserves_after; [apply preserves_after|].
    + rewrite finalState_settle. unfold awaitSettled.
      rewrite bind_ret.
      assert (Hok : bool_decide (fmt <> Some "cjs") && bool_decide (fmt <> Some "json") = false).
      { destruct Hfmt as [-> | ->].
        - rewrite (bool_decide_eq_false_2 (Some "cjs" <> Some "cjs")) by congruence.
          reflexivity.
        - rewrite (bool_decide_eq_false_2 (Some "json" <> Some "json")) by congruence.
          apply andb_false_r. }
      rewrite Hok, bind_ret.
      apply preserves_after.
      * simpl. unfold holdsRecord, allocated. cbn. rewrite updateHeap_eq. cbn. auto.
      * intros rid. unfold_class. unfold_prims. frame ltac:(record_leaf).
    + intros p. frame ltac:(record_leaf).
    + intros record. unfold_class. unfold_pool. unfold_prims. frame ltac:(record_leaf).
  - intros Hcjs Hjson. unfold settle, awaitSettled.
    unfold bind, ret, modify, await, throw.
    rewrite (bool_decide_eq_true_2 _ Hcjs), (bool_decide_eq_true_2 _ Hjson). cbn.
    rewrite lookup_insert_eq. auto.
Qed.

(** The state in which [createRecord] reads the source: the record is
    allocated and [watch] has run. *)
Lemma createRecord_accepted W path dew fmt c :
  jspmFormat W path dew = Ok fmt ->
  accepted dew fmt ->
  createRecord W path dew c
  = (rid <- alloc (newRecord W path dew) ;;
     watch W rid ;;
     source <- tryCatch (awaitSettled (readFile W path))
                 (fun err =>
                    if bool_decide (code err = Some "ENOENT")
                    then throw (withCode "ENOTFOUND" err)
                    else throw err) ;;
     update rid (FTR.set_originalSource (Some source)) ;;
     ret (SlotRecord rid)) c.
Proof.
  intros Hformat Hfmt. unfold createRecord. rewrite Hformat. unfold awaitSettled.
  rewrite bind_ret.
  destruct dew; simpl in Hfmt.
  - assert (Hok : bool_decide (fmt <> Some "cjs") && bool_decide (fmt <> Some "json") = false).
    { destruct Hfmt as [-> | ->].
      - rewrite (bool_decide_eq_false_2 (Some "cjs" <> Some "cjs")) by congruence.
        reflexivity.
      - rewrite (bool_decide_eq_false_2 (Some "json" <> Some "json")) by congruence.
        apply andb_false_r. }
    rewrite Hok, bind_ret. reflexivity.
  - rewrite (bool_decide_eq_true_2 _ Hfmt), bind_ret. reflexivity.
Qed.

Lemma createRecord_not_found W path dew fmt err c :
  jspmFormat W path dew = Ok fmt ->
  accepted dew fmt ->
  Z.of_nat (length (FTC.watching c)) = FTC.maxWatchCount c \/ fsWatch W path = Ok tt ->
  readFile W path = Err err ->
  let e := if bool_decide (code err = Some "ENOENT") then withCode "ENOTFOUND" err else err in
  let c' := exec (createRecord W path dew) c in
  createRecord W path dew c = Throws e c' /\
  FTC.records c' = FTC.records c /\
  FTC.nextRecord c' = S (FTC.nextRecord c).
Proof.
  intros Hformat Hfmt Hwatch Hread e c'. subst c' e. unfold exec.
  rewrite (createRecord_accepted W path dew fmt c Hformat Hfmt).
  unfold alloc, allocated, watch, update. unfold_task. cbn.
  rewrite !updateHeap_eq. cbn. rewrite Hread.
  destruct (Z.of_nat (length (FTC.watching c)) =? FTC.maxWatchCount c) eqn:Hfull.
  - rewrite getMtime_run. destruct (statPromise W path); cbn;
      destruct (bool_decide (code err = Some "ENOENT")); cbn; auto.
  - destruct Hwatch as [Hlimit|Hwatch]; [apply Z.eqb_eq in Hlimit; congruence|].
    rewrite Hwatch. cbn. destruct (bool_decide (code err = Some "ENOENT")); cbn; auto.
Qed.

Lemma settle_Throws {A} (m : Task A) c e c' :
  m c = Throws e c' -> settle m c = Returns (Rejected e) c'.
Proof. unfold settle. intros ->. reflexivity. Qed.

(** The first [get] of a key whose file cannot be read, the format being
    one the variant transforms and [fs.watch] not failing.  The error of
    the read is thrown, with its code [ENOENT] replaced by [ENOTFOUND];
    the handle of the key is rejected with it, after a record was
    allocated for the path. *)
Theorem first_get_not_found
    (P : Platform) (W : World) (filePath : string) (hash : option string) (c : Cache)
    (fmt : option string) (err : JsError) :
  let dew := endsWith filePath "?dew" in
  let path := requestPath filePath in
  FTC.records c !! requestKey filePath = None ->
  jspmFormat W path dew = Ok fmt ->
  accepted dew fmt ->
  Z.of_nat (length (FTC.watching c)) = FTC.maxWatchCount c \/ fsWatch W path = Ok tt ->
  readFile W path = Err err ->
  let e := if bool_decide (code err = Some "ENOENT") then withCode "ENOTFOUND" err else err in
  let c' := exec (get P W filePath hash) c in
  get P W filePath hash c = Throws e c' /\
  FTC.records c' !! requestKey filePath = Some (Rejected e) /\
  FTC.nextRecord c' = S (FTC.nextRecord c).
Proof.
  intros dew path Hnew Hformat Hfmt Hwatch Hread e c'.
  subst c'. unfold exec, get. fold dew. unfold requestKey, requestPath in *.
  fold dew in Hnew, path |- *. fold path in Hnew |- *.
  cbv zeta. unfold lookupRecord.
  rewrite !bind_bind, bind_this, Hnew, !bind_bind, bind_ret.
  unfold setSlot. rewrite !bind_bind, bind_modify.
  set (c1 := FTC.set_records _ c).
  destruct (createRecord_not_found W path dew fmt err c1 Hformat Hfmt Hwatch Hread)
    as (Hrun & Hrecords & Hnext).
  rewrite !bind_bind.
  rewrite (bind_Returns _ _ _ _ _ (settle_Throws _ _ _ _ Hrun)).
  cbn. rewrite lookup_insert_eq. rewrite Hnext. auto.
Qed.

Lemma createRecord_watch_error W path dew fmt err c :
  jspmFormat W path dew = Ok fmt ->
  accepted dew fmt ->
  Z.of_nat (length (FTC.watching c)) <> FTC.maxWatchCount c ->
  fsWatch W path = Err err ->
  let c' := exec (createRecord W path dew) c in
  createRecord W path dew c = Throws err c' /\
  FTC.records c' = FTC.records c /\
  FTC.watching c' = FTC.watching c.
Proof.
  intros Hformat Hfmt Hbelow Hwatch c'. subst c'. unfold exec.
  rewrite (createRecord_accepted W path dew fmt c Hformat Hfmt).
  unfold alloc, allocated, watch, update. unfold_task. cbn.
  rewrite !updateHeap_eq. cbn.
  apply Z.eqb_neq in Hbelow. rewrite Hbelow, Hwatch. cbn. auto.
Qed.

(** The first [get] of a key when [fs.watch] throws, the limit of
    watchers not being reached: the error is thrown as it is.  Only the
    error of the read is mapped, so an [ENOENT] of [fs.watch] reaches the
    caller as [ENOENT], not as [ENOTFOUND]; the source is never read. *)
Theorem first_get_watch_error
    (P : Platform) (W : World) (filePath : string) (hash : option string) (c : Cache)
    (fmt : option string) (err : JsError) :
  let dew := endsWith filePath "?dew" in
  let path := requestPath filePath in
  FTC.records c !! requestKey filePath = None ->
  jspmFormat W path dew = Ok fmt ->
  accepted dew fmt ->
  Z.of_nat (length (FTC.watching c)) <> FTC.maxWatchCount c ->
  fsWatch W path = Err err ->
  let c' := exec (get P W filePath hash) c in
  get P W filePath hash c = Throws err c' /\
  FTC.records c' !! requestKey filePath = Some (Rejected err) /\
  FTC.watching c' = FTC.watching c.
Proof.
  intros dew path Hnew Hformat Hfmt Hbelow Hwatch c'.
  subst c'. unfold exec, get. fold dew. unfold requestKey, requestPath in *.
  fold dew in Hnew, path |- *. fold path in Hnew |- *.
  cbv zeta. unfold lookupRecord.
  rewrite !bind_bind, bind_this, Hnew, !bind_bind, bind_ret.
  unfold setSlot. rewrite !bind_bind, bind_modify.
  set (c1 := FTC.set_records _ c).
  destruct (createRecord_watch_error W path dew fmt err c1 Hformat Hfmt Hbelow Hwatch)
    as (Hrun & Hrecords & Hwatching).
  rewrite !bind_bind.
  rewrite (bind_Returns _ _ _ _ _ (settle_Throws _ _ _ _ Hrun)).
  cbn. rewrite lookup_insert_eq. rewrite Hwatching. auto.
Qed.


(** *** The first request of a key, when the record is created *)

Lemma createRecord_returns W path dew fmt src c :
  jspmFormat W path dew = Ok fmt ->
  accepted dew fmt ->
  Z.of_nat (length (FTC.watching c)) <> FTC.maxWatchCount c ->
  fsWatch W path = Ok tt ->
  readFile W path = Ok src ->
  let rid := FTC.nextRecord c in
  let c' := exec (createRecord W path dew) c in
  createRecord W path dew c = Returns (SlotRecord rid) c' /\
  FTC.heap c' rid
  = FTR.set_originalSource (Some src) (FTR.set_watching true (newRecord W path dew)) /\
  FTC.records c' = FTC.records c /\
  FTC.watching c' = FTC.watching c ++ [rid] /\
  FTC.workers c' = FTC.workers c /\
  FTC.sent c' = FTC.sent c /\
  FTC.transformQueue c' = FTC.transformQueue c /\
  FTC.publicDir c' = FTC.publicDir c.
Proof.
  intros Hformat Hfmt Hbelow Hwatch Hread rid c'. subst rid c'. unfold exec.
  rewrite (createRecord_accepted W path dew fmt c Hformat Hfmt).
  unfold alloc, allocated, watch, update. unfold_task. cbn.
  rewrite !updateHeap_eq. cbn.
  apply Z.eqb_neq in Hbelow. rewrite Hbelow, Hwatch, Hread. cbn.
  rewrite ?updateHeap_eq. cbn. rewrite ?updateHeap_eq. auto 10.
Qed.

(** The first [get] of a key whose file has a format the variant
    transforms, can be watched and can be read: a record is created for
    the path, watched, holding the source and nothing else; it is stored
    under the key, and the request goes on as a request for this idle
    record. *)
Theorem first_get_creates_idle_record
    (P : Platform) (W : World) (filePath : string) (hash : option string) (c : Cache)
    (fmt : option string) (src : string) :
  let dew := endsWith filePath "?dew" in
  let path := requestPath filePath in
  let rid := FTC.nextRecord c in
  FTC.records c !! requestKey filePath = None ->
  jspmFormat W path dew = Ok fmt ->
  accepted dew fmt ->
  Z.of_nat (length (FTC.watching c)) <> FTC.maxWatchCount c ->
  fsWatch W path = Ok tt ->
  readFile W path = Ok src ->
  let c1 := exec (lookupRecord W path dew (if dew then "?dew" else "")) c in
  get P W filePath hash c = get P W filePath hash c1 /\
  idleRecord c1 (requestKey filePath) rid /\
  FTC.heap c1 rid
  = FTR.set_originalSource (Some src) (FTR.set_watching true (newRecord W path dew)) /\
  FTC.watching c1 = FTC.watching c ++ [rid] /\
  FTC.workers c1 = FTC.workers c /\
  FTC.sent c1 = FTC.sent c /\
  FTC.transformQueue c1 = FTC.transformQueue c /\
  FTC.publicDir c1 = FTC.publicDir c.
Proof.
  intros dew path rid Hnew Hformat Hfmt Hbelow Hwatch Hread c1.
  unfold requestKey, requestPath in *. fold dew in Hnew, path |- *. fold path in Hnew |- *.
  set (key := path +:+ (if dew then "?dew" else "")) in *.
  set (c0 := FTC.set_records (<[key := Pending]> (FTC.records c)) c).
  destruct (createRecord_returns W path dew fmt src c0 Hformat Hfmt Hbelow Hwatch Hread)
    as (Hrun & Hheap & Hrecords & Hwatching & Hworkers & Hsent & Hqueue & Hdir).
  set (c2 := exec (createRecord W path dew) c0) in *.
  change (FTC.nextRecord c0) with rid in Hrun, Hheap, Hwatching.
  assert (Hlookup : lookupRecord W path dew (if dew then "?dew" else "") c
                    = Returns (SlotRecord rid)
                        (FTC.set_records (<[key := Fulfilled (SlotRecord rid)]>
                                            (FTC.records c2)) c2)).
  { unfold lookupRecord. rewrite ?bind_bind, bind_this. fold key. rewrite Hnew.
    rewrite ?bind_bind, bind_ret. unfold setSlot. rewrite ?bind_bind, bind_modify.
    fold c0. unfold settle, bind. rewrite Hrun. reflexivity. }
  assert (Hc1 : c1 = FTC.set_records (<[key := Fulfilled (SlotRecord rid)]>
                                        (FTC.records c2)) c2)
    by (subst c1; unfold exec; rewrite Hlookup; reflexivity).
  assert (Hkey1 : FTC.records c1 !! key = Some (Fulfilled (SlotRecord rid)))
    by (rewrite Hc1; cbn; apply lookup_insert_eq).
  split.
  - unfold get. fold dew. cbv zeta. fold path.
    rewrite (bind_Returns _ _ _ _ _ Hlookup). rewrite <- Hc1.
    rewrite (bind_Returns _ _ _ _ _ (lookupRecord_existing W _ _ _ rid c1 Hkey1)).
    reflexivity.
  - rewrite Hc1 in *. cbn [FTC.heap FTC.set_records FTC.watching FTC.workers FTC.sent
                            FTC.transformQueue FTC.publicDir].
    split; [|auto 10].
    unfold idleRecord. cbn [FTC.heap FTC.set_records]. rewrite Hheap.
    split; [exact Hkey1|]. auto.
Qed.

(** ** Edits of a file whose transform slot is occupied

    The transform phase leaves its settled promise in the record when it
    does not go through a worker: for a JSON file, and for a module
    without dependencies.  From then on [doTransform] returns that
    promise. *)

(** A JSON file that was served, then edited: the [change] event stores
    the new content and its hash, and leaves the wrapper of the old
    content in place; the next [get] returns the old wrapper under the
    new hash. *)
Theorem json_edit_is_never_served
    (P : Platform) (W W' : World) (filePath : string) (rid : nat) (c : Cache)
    (src' : string) :
  let record := FTC.heap c rid in
  FTC.records c !! requestKey filePath = Some (Fulfilled (SlotRecord rid)) ->
  endsWith (FTR.path record) ".json" = true ->
  FTR.hashPromise record = None ->
  FTR.transformPromise record = Some (Fulfilled tt) ->
  readFile W (FTR.path record) = Ok src' ->
  let c1 := exec (onWatchEvent P W rid "change") c in
  FTR.originalSource (FTC.heap c1 rid) = Some src' /\
  FTR.fullHash (FTC.heap c1 rid) = Some (md5 P src') /\
  FTR.source (FTC.heap c1 rid) = FTR.source record /\
  get P W' filePath None c1
  = Returns (Some (mkGetResult (FTR.source record) (FTR.sourceMap record)
                     (Some (md5 P src')) (FTR.isGlobalCache record))) c1.
Proof.
  intros record Hkey Hjson Hidle Hslot Hread c1. subst c1 record.
  assert (Hevent :
            exec (onWatchEvent P W rid "change") c
            = hashSettled W rid (Fulfilled (mkHashResult None None))
                (exec (update rid (FTR.set_fullHash (Some (md5 P src'))))
                   (exec (update rid (FTR.set_hashPromise None))
                      (exec (update rid (FTR.set_hashPromise (Some Pending)))
                         (exec (update rid (FTR.set_originalSource (Some src'))) c))))).
  { unfold exec, onWatchEvent. cbn [String.eqb Ascii.eqb Bool.eqb].
    unfold doHash, hashBody, doTransform, hashSettled, scheduleHashCleanup, update, freeIfAny.
    unfold_task. reduce. rewrite Hread. reduce. rewrite !updateHeap_eq. reduce.
    rewrite Hslot. reduce. rewrite ?updateHeap_eq. reduce. rewrite Hidle. reduce.
    rewrite !updateHeap_eq. reduce.
    rewrite Hjson. reduce. rewrite !updateHeap_eq. reduce.
    destruct (bool_decide _); reduce; rewrite ?updateHeap_eq; reduce;
      rewrite ?Hslot; reflexivity. }
  rewrite Hevent.
  unfold hashSettled, scheduleHashCleanup, exec, update. unfold_task. reduce.
  rewrite !updateHeap_eq. reduce.
  do 3 (split; [reflexivity|]).
  match goal with
  | |- get P W' filePath None ?s = _ => set (c1 := s)
  end.
  assert (Hkey1 : FTC.records c1 !! requestKey filePath = Some (Fulfilled (SlotRecord rid)))
    by exact Hkey.
  unfold requestKey in Hkey1. unfold get.
  rewrite (bind_Returns _ _ _ _ _ (lookupRecord_existing W' _ _ _ rid c1 Hkey1)).
  subst c1. unfold completed. unfold_task. reduce.
  repeat (progress (rewrite ?updateHeap_eq; reduce)).
  rewrite Hslot. reduce. repeat (progress (rewrite ?updateHeap_eq; reduce)). reflexivity.
Qed.

Lemma doHash_keeps_source P W rid rid' v :
  preserves (fun c => FTR.source (FTC.heap c rid') = v) (doHash P W rid).
Proof. unfold_class. unfold_pool. unfold_prims. frame ltac:(fullHash_leaf). Qed.

(** A module that was served without going through a worker (it had no
    dependencies), then edited.  The [change] event analyses the new
    source on a free worker and stores the new hash; the transform it
    asks for is the settled promise of the first one, so the source
    served stays the old one, and the worker of the analysis, handed to
    that transform, is never freed. *)
Theorem edit_of_served_module_keeps_source_and_worker
    (P : Platform) (W : World) (rid : nat) (c : Cache) (src' : string) (w : nat)
    (ack data : ReplyData) (deps : list string) :
  let record := FTC.heap c rid in
  let c0 := exec (update rid (FTR.set_originalSource (Some src'))) c in
  let outcome :=
    classify P W (FTR.path record) (FTR.dew record) (FTC.publicDir c)
      (path_dirname P (FTR.path record)) in
  let fullHash :=
    md5 P src' +:+
    md5hex P (hashedPairs P W (FTR.path record) (FTR.dew record) (FTC.publicDir c)
                (path_dirname P (FTR.path record)) deps) in
  endsWith (FTR.path record) ".json" = false ->
  FTR.hashPromise record = None ->
  FTR.transformPromise record = Some (Fulfilled tt) ->
  readFile W (FTR.path record) = Ok src' ->
  FTR.originalSourceHash record <> Some (md5 P src') ->
  findFree (FTC.workers c) 0 = Some w ->
  (w < length (FTC.workers c))%nat ->
  workerReply W w (FTC.sent c ++ [(w, sourceMessage P c0 rid)]) = WData ack ->
  workerReply W w (FTC.sent c ++ [(w, sourceMessage P c0 rid);
                                  (w, analyzeMessage (FTR.dew record))]) = WData data ->
  rd_deps data = Some deps ->
  Forall (fun dep => resolvesCleanly (outcome dep)) deps ->
  FTR.fullHash record <> Some fullHash ->
  let c1 := exec (onWatchEvent P W rid "change") c in
  onWatchEvent P W rid "change" c = Returns tt c1 /\
  FTR.originalSource (FTC.heap c1 rid) = Some src' /\
  FTR.fullHash (FTC.heap c1 rid) = Some fullHash /\
  FTR.source (FTC.heap c1 rid) = FTR.source record /\
  TW.record <$> (FTC.workers c1 !! w) = Some (Some rid).
Proof.
  intros record c0 outcome fullHash Hjson Hidle Hslot Hread Hchanged Hfree Hlt Hack Hdata
    Hdeps Hclean Hnew c1.
  assert (Hheap0 : FTC.heap c0 rid = FTR.set_originalSource (Some src') record).
  { subst c0 record. unfold exec, update, modify. cbn. apply updateHeap_eq. }
  assert (Hidle0 : FTR.hashPromise (FTC.heap c0 rid) = None)
    by (rewrite Hheap0; exact Hidle).
  assert (Hsrc0 : FTR.originalSource (FTC.heap c0 rid) = Some src')
    by (rewrite Hheap0; reflexivity).
  assert (Hjson0 : endsWith (FTR.path (FTC.heap c0 rid)) ".json" = false)
    by (rewrite Hheap0; exact Hjson).
  assert (Hchanged0 : FTR.originalSourceHash (FTC.heap c0 rid) <> Some (md5 P src'))
    by (rewrite Hheap0; exact Hchanged).
  assert (Hdata0 : workerReply W w (FTC.sent c0 ++ [(w, sourceMessage P c0 rid);
                      (w, analyzeMessage (FTR.dew (FTC.heap c0 rid)))]) = WData data)
    by (rewrite Hheap0; exact Hdata).
  assert (Hclean0 : Forall (fun dep => resolvesCleanly
                      (classify P W (FTR.path (FTC.heap c0 rid)) (FTR.dew (FTC.heap c0 rid))
                         (FTC.publicDir c0) (path_dirname P (FTR.path (FTC.heap c0 rid)))
                         dep)) deps)
    by (rewrite Hheap0; exact Hclean).
  destruct (doHash_changed_returns P W rid c0 src' w ack data deps Hidle0 Hsrc0 Hjson0
              Hchanged0 Hfree Hack Hdata0 Hdeps Hclean0)
    as (resolveMap & Hrun & Hslot1 & _ & _ & Hsrc1 & _ & Hfull1 & _).
  destruct (doHash_changed P W rid c0 src' Hidle0 Hsrc0 Hjson0 w ack data Hchanged0 Hfree
              Hlt Hack Hdata0) as (Hbound & _).
  pose proof (doHash_keeps_source P W rid rid (FTR.source record) c0) as Hsource.
  cbv beta in Hsource.
  rewrite Hheap0 in Hslot1, Hfull1, Hsource.
  cbn [FTR.transformPromise FTR.path FTR.dew FTR.source FTR.set_originalSource]
    in Hslot1, Hfull1, Hsource.
  fold record in Hslot1, Hfull1. rewrite Hslot in Hslot1.
  specialize (Hsource eq_refl).
  set (c2 := exec (doHash P W rid) c0) in *.
  assert (Hevent : onWatchEvent P W rid "change" c = Returns tt c2).
  { unfold onWatchEvent. cbn [String.eqb Ascii.eqb Bool.eqb].
    rewrite bind_deref. fold record. rewrite Hread. unfold awaitSettled at 1.
    rewrite bind_ret. unfold update at 1. rewrite bind_modify.
    change (FTC.set_heap _ c) with c0.
    rewrite bind_deref, Hheap0. cbn [FTR.transformPromise FTR.set_originalSource FTR.fullHash].
    fold record. rewrite Hslot. unfold await at 1. rewrite bind_ret.
    rewrite (bind_Returns _ _ _ _ _ Hrun). rewrite bind_deref. fold c2.
    rewrite Hfull1. cbn [hr_resolveMap hr_worker].
    rewrite bool_decide_eq_true_2 by exact Hnew.
    unfold detach, doTransform. rewrite bind_deref. fold c2. rewrite Hslot1. reflexivity. }
  assert (Hc1 : c1 = c2) by (subst c1; unfold exec at 1; rewrite Hevent; reflexivity).
  rewrite Hc1.
  split; [exact Hevent|]. split; [exact Hsrc1|]. split; [exact Hfull1|].
  split; [exact Hsource | exact Hbound].
Qed.

(** ** The public directory *)

Lemma lastChar_cons (a : ascii) (s : string) :
  lastChar (String a s) = match s with EmptyString => Some a | _ => lastChar s end.
Proof.
  unfold lastChar. cbn [String.length]. rewrite Nat.sub_succ, Nat.sub_0_r.
  destruct s as [|b s]; [reflexivity|].
  cbn [String.length String.get]. rewrite Nat.sub_succ, Nat.sub_0_r. reflexivity.
Qed.

Lemma lastChar_append (s : string) (a : ascii) :
  lastChar (s +:+ String a EmptyString) = Some a.
Proof.
  induction s as [|b s IH]; [reflexivity|].
  change (lastChar (String b (s +:+ String a EmptyString)) = Some a).
  rewrite lastChar_cons. destruct s; exact IH.
Qed.

Lemma lastChar_replaceWinSep (s : string) :
  lastChar (replaceWinSep s)
  = option_map (fun c => if Ascii.eqb c "\"%char then "/"%char else c) (lastChar s).
Proof.
  induction s as [|b s IH]; [reflexivity|].
  cbn [replaceWinSep]. rewrite !lastChar_cons.
  destruct s as [|b' s]; [reflexivity|]. exact IH.
Qed.

(** Whatever directory the constructor is given, on a platform whose
    separator is [/] or [\] the public directory it stores ends in [/]:
    the prefix test of [getResolveMap] stops at a directory boundary. *)
Theorem publicDir_ends_with_slash
    (P : Platform) (W : World) (publicDir : string)
    (cacheClearInterval maxWatchCount : Z) (production : bool) :
  path_sep P = "/" \/ path_sep P = "\" ->
  lastChar (FTC.publicDir
              (constructor P W publicDir cacheClearInterval maxWatchCount production))
  = Some "/"%char.
Proof.
  intros Hsep. cbn [constructor FTC.publicDir]. rewrite lastChar_replaceWinSep.
  case_bool_decide as Hlast.
  - destruct Hsep as [-> | ->]; rewrite lastChar_append; reflexivity.
  - destruct (lastChar publicDir) as [a|]; [|discriminate].
    cbn in Hlast. destruct Hsep as [Hsep|Hsep]; rewrite Hsep in Hlast;
      injection Hlast as ->; reflexivity.
Qed.

(** ** The resolve map, when a dependency fails *)

Lemma resolveDep_failure P W path dew publicDir base dep acc e :
  failure P path publicDir (classify P W path dew publicDir base dep) = Some e ->
  resolveDep P W path dew publicDir base dep acc = Err e.
Proof.
  unfold classify, resolveDep. destruct acc as [resolveMap hash].
  destruct (jspmResolve W _ _ _) as [res|e']; [|intros [= <-]; reflexivity].
  destruct (substituteBuiltin P res) as [resolved|]; [|discriminate].
  destruct (startsWith resolved publicDir); [discriminate|].
  intros [= <-]. reflexivity.
Qed.

(** [getResolveMap] fails with the error of the first dependency, in the
    order of [record.deps], whose round fails: the error the resolver
    threw for it, or the [ETRANSFORM] error when it resolves outside of
    the public directory.  What comes after it in the list plays no
    part. *)
Theorem resolve_map_fails_at_first_failure
    (P : Platform) (W : World) (rid : nat) (c : Cache)
    (before : list string) (dep : string) (after : list string) (e : JsError) :
  let record := FTC.heap c rid in
  let outcome :=
    classify P W (FTR.path record) (FTR.dew record) (FTC.publicDir c)
      (path_dirname P (FTR.path record)) in
  FTR.deps record = Some (before ++ dep :: after) ->
  Forall (fun dep => resolvesCleanly (outcome dep)) before ->
  failure P (FTR.path record) (FTC.publicDir c) (outcome dep) = Some e ->
  getResolveMap P W rid c = Throws e c.
Proof.
  intros record outcome Hdeps Hbefore Hfails.
  rewrite getResolveMap_run. fold record. rewrite Hdeps.
  assert (Hloop : forall acc,
            resolveDeps P W (FTR.path record) (FTR.dew record) (FTC.publicDir c)
              (path_dirname P (FTR.path record)) (before ++ dep :: after) acc = Err e).
  { clear Hdeps. induction Hbefore as [|dep' before Hdep' _ IH]; intros acc; simpl.
    - rewrite (resolveDep_failure _ _ _ _ _ _ _ _ _ Hfails). reflexivity.
    - destruct acc as [resolveMap hash].
      destruct (resolveDep_clean P W _ _ _ _ dep' resolveMap hash Hdep')
        as (resolveMap' & -> & _).
      apply IH. }
  rewrite Hloop. reflexivity.
Qed.

(** ** What a request returns *)

(** The transform phase on a worker that replies with data: the reply is
    stored in the record. *)
Lemma doTransform_stores_reply P W rid resolveMap worker c w c1 data g :
  let record := FTC.heap c rid in
  FTR.transformPromise record = None ->
  sendsTransform record ->
  obtainsWorker P W rid worker
    (exec (update rid (FTR.set_transformPromise (Some Pending))) c) w c1 ->
  (w < length (FTC.workers c1))%nat ->
  workerReply W w (FTC.sent c1 ++ [(w, transformMessage (FTR.dew record) resolveMap)])
    = WData data ->
  isGlobalCache W (FTR.path record) = Ok g ->
  let c' := exec (doTransform P W rid resolveMap worker) c in
  FTR.source (FTC.heap c' rid) = rd_source data /\
  FTR.sourceMap (FTC.heap c' rid) = rd_sourceMap data /\
  FTR.isGlobalCache (FTC.heap c' rid) = g /\
  FTR.fullHash (FTC.heap c' rid) = FTR.fullHash record.
Proof.
  intros record Hidle [Hjson Hsends] Hworker Hlt Hreply Hprobe c'. subst c' record.
  assert (Hheap : FTC.heap c1 rid
                  = FTR.set_transformPromise (Some Pending) (FTC.heap c rid)).
  { destruct worker as [w'|]; simpl in Hworker.
    - destruct Hworker as [_ ->]. unfold exec, update, modify. reduce.
      apply updateHeap_eq.
    - rewrite (assignWorker_keeps_record _ _ _ _ _ _ Hworker).
      unfold exec, update, modify. reduce. apply updateHeap_eq. }
  assert (Hkind : FTR.dew (FTC.heap c rid) = true \/
                  (FTR.dew (FTC.heap c rid) = false /\
                   exists dep deps, FTR.deps (FTC.heap c rid) = Some (dep :: deps))).
  { destruct (FTR.dew (FTC.heap c rid)); [left; reflexivity|].
    destruct Hsends as [?|?]; [discriminate | right; auto]. }
  clear Hsends.
  destruct (lookup_lt_is_Some_2 (FTC.workers c1) w Hlt) as [x Hx].
  destruct (FTC.transformQueue c1) as [|next rest] eqn:Hq.
  all: unfold doTransform, transformBody, transformMessage, arm, send, awaitReply, update,
         setWorker in *.
  all: unfold exec in Hworker; unfold modify in Hworker.
  all: unfold_task; rewrite Hidle; reduce; rewrite !updateHeap_eq; reduce.
  all: rewrite Hjson; reduce.
  all: destruct Hkind as [Hdew|(Hdew & dep & deps & Hdeps)]; rewrite Hdew, ?Hdeps in *; reduce.
  all: rewrite ?bool_decide_eq_false_2 by discriminate; reduce.
  all: destruct worker as [w'|]; simpl in Hworker;
         [destruct Hworker as [-> ->] | rewrite Hworker]; reduce.
  all: cbn [FTC.workers FTC.set_heap FTC.heap FTC.transformQueue FTC.sent] in Hx, Hheap, Hq, Hreply.
  all: rewrite Hreply; reduce; rewrite ?updateHeap_eq; reduce; rewrite ?Hprobe; reduce.
  all: rewrite !freeWorker_returns; unfold exec, freeWorker, resolveNextJob, setWorker.
  all: unfold_task; reduce; rewrite ?Hq; reduce; rewrite ?updateHeap_eq; reduce.
  all: rewrite ?Hreply, ?Hq; reduce.
  all: rewrite ?updateHeap_eq; simpl.
  all: rewrite ?Hheap; repeat split; reflexivity.
Qed.

(** The hash phase in full: what it returns and what it leaves in the
    record, when the source is new to the record ... *)
Lemma doHash_changed_result P W rid c src w ack data deps :
  let record := FTC.heap c rid in
  let base := path_dirname P (FTR.path record) in
  let outcome := classify P W (FTR.path record) (FTR.dew record) (FTC.publicDir c) base in
  let pairs := hashedPairs P W (FTR.path record) (FTR.dew record) (FTC.publicDir c) base deps in
  FTR.hashPromise record = None ->
  FTR.originalSource record = Some src ->
  endsWith (FTR.path record) ".json" = false ->
  FTR.originalSourceHash record <> Some (md5 P src) ->
  findFree (FTC.workers c) 0 = Some w ->
  workerReply W w (FTC.sent c ++ [(w, sourceMessage P c rid)]) = WData ack ->
  workerReply W w (FTC.sent c ++ [(w, sourceMessage P c rid);
                                  (w, analyzeMessage (FTR.dew record))]) = WData data ->
  rd_deps data = Some deps ->
  Forall (fun dep => resolvesCleanly (outcome dep)) deps ->
  let c' := exec (doHash P W rid) c in
  exists resolveMap : ResolveMap,
    resolveDeps P W (FTR.path record) (FTR.dew record) (FTC.publicDir c) base deps
      (∅, createHash) = Ok (resolveMap, pairs) /\
    doHash P W rid c = Returns (mkHashResult (Some resolveMap) (Some w)) c' /\
    FTC.heap c' rid
    = FTR.set_hashPromise (Some (Fulfilled (mkHashResult (Some resolveMap) (Some w))))
        (FTR.set_fullHash (Some (md5 P src +:+ md5hex P pairs))
           (FTR.set_deps (Some deps)
              (FTR.set_originalSourceHash (Some (md5 P src))
                 (FTR.set_hashPromise (Some Pending) record)))) /\
    FTC.sent c' = FTC.sent c ++ [(w, sourceMessage P c rid);
                                 (w, analyzeMessage (FTR.dew record))] /\
    FTC.transformQueue c' = FTC.transformQueue c /\
    length (FTC.workers c') = length (FTC.workers c).
Proof.
  intros record base outcome pairs Hidle Hsrc Hjson Hchanged Hfree Hack Hdata Hdeps Hclean c'.
  subst record base outcome pairs c'.
  destruct (resolveDeps_clean P W _ _ _ _ deps Hclean) as (resolveMap & Hrun & _).
  exists resolveMap. split; [exact Hrun|].
  unfold doHash, hashBody, scheduleHashCleanup, arm, send, awaitReply, update, setWorker.
  unfold_task. rewrite Hidle. reduce.
  rewrite !updateHeap_eq. reduce. rewrite Hsrc, Hjson.
  rewrite bool_decide_eq_true_2 by exact Hchanged.
  rewrite (assignWorker_free P W rid _ w) by exact Hfree.
  unfold primed, sourceMessage, analyzeMessage, setWorker, send, arm in *. unfold_task.
  reduce. rewrite !updateHeap_eq. reduce.
  rewrite Hsrc in *. rewrite Hack. reduce. rewrite <- !app_assoc. reduce.
  rewrite Hdata. reduce. rewrite getResolveMap_run. reduce. rewrite !updateHeap_eq. reduce.
  rewrite Hdeps. reduce. rewrite Hrun. reduce. rewrite !updateHeap_eq. reduce.
  rewrite !length_alter. unfold ret. auto 10.
Qed.

(** ... and when the source is the one last analysed. *)
Lemma doHash_unchanged_result P W rid c src deps :
  let record := FTC.heap c rid in
  let base := path_dirname P (FTR.path record) in
  let outcome := classify P W (FTR.path record) (FTR.dew record) (FTC.publicDir c) base in
  let pairs := hashedPairs P W (FTR.path record) (FTR.dew record) (FTC.publicDir c) base deps in
  FTR.hashPromise record = None ->
  FTR.originalSource record = Some src ->
  endsWith (FTR.path record) ".json" = false ->
  FTR.originalSourceHash record = Some (md5 P src) ->
  FTR.deps record = Some deps ->
  Forall (fun dep => resolvesCleanly (outcome dep)) deps ->
  let c' := exec (doHash P W rid) c in
  exists resolveMap : ResolveMap,
    resolveDeps P W (FTR.path record) (FTR.dew record) (FTC.publicDir c) base deps
      (∅, createHash) = Ok (resolveMap, pairs) /\
    doHash P W rid c = Returns (mkHashResult (Some resolveMap) None) c' /\
    FTC.heap c' rid
    = FTR.set_hashPromise (Some (Fulfilled (mkHashResult (Some resolveMap) None)))
        (FTR.set_fullHash (Some (md5 P src +:+ md5hex P pairs))
           (FTR.set_hashPromise (Some Pending) record)) /\
    FTC.sent c' = FTC.sent c /\
    FTC.transformQueue c' = FTC.transformQueue c /\
    FTC.workers c' = FTC.workers c.
Proof.
  intros record base outcome pairs Hidle Hsrc Hjson Hsame Hdeps Hclean c'.
  subst record base outcome pairs c'.
  destruct (resolveDeps_clean P W _ _ _ _ deps Hclean) as (resolveMap & Hrun & _).
  exists resolveMap. split; [exact Hrun|].
  unfold doHash, hashBody, scheduleHashCleanup, update. unfold_task. rewrite Hidle. reduce.
  rewrite !updateHeap_eq. reduce. rewrite Hsrc, Hjson, Hsame.
  rewrite bool_decide_eq_false_2 by (intros H; apply H; reflexivity).
  rewrite getResolveMap_run. reduce. rewrite !updateHeap_eq. reduce.
  rewrite Hdeps. reduce. rewrite Hrun. reduce. rewrite !updateHeap_eq. reduce.
  unfold ret. auto 10.
Qed.

Lemma freeIfAny_keeps_records worker c :
  FTC.heap (exec (freeIfAny worker) c) = FTC.heap c /\
  FTC.sent (exec (freeIfAny worker) c) = FTC.sent c.
Proof.
  unfold exec. destruct worker as [w|]; [|split; reflexivity]. unfold freeIfAny.
  destruct (FTC.transformQueue c) as [|next rest] eqn:Hq.
  - rewrite freeWorker_idle by exact Hq. split; reflexivity.
  - rewrite (freeWorker_waiting w next rest c Hq). split; reflexivity.
Qed.

(** The transform phase of a module without dependencies, in full. *)
Lemma doTransform_no_deps_result P W rid resolveMap worker c g :
  let record := FTC.heap c rid in
  FTR.transformPromise record = None ->
  endsWith (FTR.path record) ".json" = false ->
  FTR.dew record = false ->
  FTR.deps record = Some [] ->
  isGlobalCache W (FTR.path record) = Ok g ->
  let c' := exec (doTransform P W rid resolveMap worker) c in
  doTransform P W rid resolveMap worker c = Returns tt c' /\
  FTC.heap c' rid
  = FTR.set_transformPromise (Some (Fulfilled tt))
      (FTR.set_isGlobalCache g
         (FTR.set_source (FTR.originalSource record)
            (FTR.set_transformPromise (Some Pending) record))) /\
  FTC.sent c' = FTC.sent c.
Proof.
  intros record Hidle Hjson Hdew Hdeps Hprobe c'. subst record c'.
  unfold doTransform, transformBody, update. unfold_task. rewrite Hidle. reduce.
  rewrite !updateHeap_eq. reduce. rewrite Hjson, Hdew, Hdeps. reduce.
  rewrite bool_decide_eq_true_2 by reflexivity. rewrite Hprobe. reduce.
  rewrite freeIfAny_returns. reduce.
  match goal with
  | |- context [exec (freeIfAny worker) ?s] =>
      destruct (freeIfAny_keeps_records worker s) as [Hheap Hsent];
      set (c1 := exec (freeIfAny worker) s) in *
  end.
  rewrite !Hheap. reduce. rewrite !updateHeap_eq. reduce.
  unfold exec. reduce. rewrite ?Hheap, ?Hsent. reduce. rewrite !updateHeap_eq. reduce.
  rewrite ?Hheap, ?Hsent. auto.
Qed.

(** The hash phase of a [get] of an idle record, whichever way the
    dependencies are known. *)
Lemma get_idle_hash_phase P W c rid src w deps :
  let record := FTC.heap c rid in
  let base := path_dirname P (FTR.path record) in
  let outcome := classify P W (FTR.path record) (FTR.dew record) (FTC.publicDir c) base in
  let pairs := hashedPairs P W (FTR.path record) (FTR.dew record) (FTC.publicDir c) base deps in
  FTR.hashPromise record = None ->
  FTR.transformPromise record = None ->
  FTR.originalSource record = Some src ->
  endsWith (FTR.path record) ".json" = false ->
  findFree (FTC.workers c) 0 = Some w ->
  cooperative W w ->
  analysesTo P W c rid src w deps ->
  Forall (fun dep => resolvesCleanly (outcome dep)) deps ->
  let c2 := exec (doHash P W rid) c in
  exists (resolveMap : ResolveMap) (worker : option nat),
    resolveDeps P W (FTR.path record) (FTR.dew record) (FTC.publicDir c) base deps
      (∅, createHash) = Ok (resolveMap, pairs) /\
    doHash P W rid c = Returns (mkHashResult (Some resolveMap) worker) c2 /\
    (worker = Some w \/ worker = None /\ FTC.workers c2 = FTC.workers c) /\
    length (FTC.workers c2) = length (FTC.workers c) /\
    FTC.transformQueue c2 = FTC.transformQueue c /\
    transformsSent c2 = transformsSent c /\
    FTR.transformPromise (FTC.heap c2 rid) = None /\
    FTR.path (FTC.heap c2 rid) = FTR.path record /\
    FTR.dew (FTC.heap c2 rid) = FTR.dew record /\
    FTR.originalSource (FTC.heap c2 rid) = Some src /\
    FTR.deps (FTC.heap c2 rid) = Some deps /\
    FTR.sourceMap (FTC.heap c2 rid) = FTR.sourceMap record /\
    FTR.fullHash (FTC.heap c2 rid) = Some (md5 P src +:+ md5hex P pairs).
Proof.
  intros record base outcome pairs Hidle Hnone Hsrc Hjson Hfree Hcoop Hanalysis Hclean c2.
  subst record base outcome pairs.
  destruct Hanalysis as [(Hsame & Hdeps)|(Hchanged & data & Hdata & Hdeps)].
  - destruct (doHash_unchanged_result P W rid c src deps Hidle Hsrc Hjson Hsame Hdeps Hclean)
      as (resolveMap & Hmap & Hrun & Hheap & Hsent & Hqueue & Hworkers).
    exists resolveMap, None. fold c2 in Hrun, Hheap, Hsent, Hqueue, Hworkers.
    rewrite Hheap, Hworkers, Hqueue. unfold transformsSent. rewrite Hsent. cbn.
    rewrite Hnone, Hsrc, Hdeps. auto 20.
  - destruct (Hcoop (FTC.sent c ++ [(w, sourceMessage P c rid)])) as [ack Hack].
    destruct (doHash_changed_result P W rid c src w ack data deps Hidle Hsrc Hjson Hchanged
                Hfree Hack Hdata Hdeps Hclean)
      as (resolveMap & Hmap & Hrun & Hheap & Hsent & Hqueue & Hlen).
    exists resolveMap, (Some w). fold c2 in Hrun, Hheap, Hsent, Hqueue, Hlen.
    rewrite Hheap, Hlen, Hqueue. unfold transformsSent. rewrite Hsent. cbn.
    rewrite Hnone, Hsrc.
    rewrite List.filter_app. cbn.
    destruct (FTR.dew (FTC.heap c rid)); cbn; rewrite app_nil_r; auto 20.
Qed.

(** A [get] of an idle record of a module without dependencies (not
    the legacy variant): the source is returned as it is, under the hash
    of the source followed by the digest of nothing; no transform message
    is sent, and the settled promise of the transform stays in the
    record. *)
Theorem get_of_plain_module_returns_source
    (P : Platform) (W : World) (filePath : string) (c : Cache) (rid : nat) (src : string)
    (w : nat) (g : bool) :
  let record := FTC.heap c rid in
  idleRecord c (requestKey filePath) rid ->
  FTR.originalSource record = Some src ->
  endsWith (FTR.path record) ".json" = false ->
  FTR.dew record = false ->
  findFree (FTC.workers c) 0 = Some w ->
  cooperative W w ->
  analysesTo P W c rid src w [] ->
  isGlobalCache W (FTR.path record) = Ok g ->
  let c' := exec (get P W filePath None) c in
  get P W filePath None c
  = Returns (Some (mkGetResult (Some src) (FTR.sourceMap record)
                     (Some (md5 P src +:+ md5hex P "")) g)) c' /\
  transformsSent c' = transformsSent c /\
  FTR.transformPromise (FTC.heap c' rid) = Some (Fulfilled tt).
Proof.
  intros record (Hkey & Hidle & Hnone & Hwatched) Hsrc Hjson Hdew Hfree Hcoop Hanalysis
    Hprobe c'.
  subst record.
  destruct (get_idle_hash_phase P W c rid src w [] Hidle Hnone Hsrc Hjson Hfree Hcoop
              Hanalysis (List.Forall_nil _))
    as (resolveMap & worker & _ & Hrun & _ & _ & _ & Hsent2 & Hnone2 & Hpath2 & Hdew2
        & Hsrc2 & Hdeps2 & Hmap2 & Hfull2).
  set (c2 := exec (doHash P W rid) c) in *.
  assert (Hjson2 : endsWith (FTR.path (FTC.heap c2 rid)) ".json" = false)
    by (rewrite Hpath2; exact Hjson).
  assert (Hprobe2 : isGlobalCache W (FTR.path (FTC.heap c2 rid)) = Ok g)
    by (rewrite Hpath2; exact Hprobe).
  rewrite Hdew in Hdew2.
  destruct (doTransform_no_deps_result P W rid (Some resolveMap) worker c2 g Hnone2 Hjson2
              Hdew2 Hdeps2 Hprobe2) as (Htransform & Hheap3 & Hsent3).
  set (c3 := exec (doTransform P W rid (Some resolveMap) worker) c2) in *.
  assert (Hget : get P W filePath None c
                 = Returns (Some (mkGetResult (Some src) (FTR.sourceMap (FTC.heap c rid))
                                    (Some (md5 P src +:+ md5hex P "")) g)) c3).
  { unfold requestKey in Hkey. unfold get.
    rewrite (bind_Returns _ _ _ _ _ (lookupRecord_existing W _ _ _ rid c Hkey)).
    rewrite bind_deref. rewrite Hidle, Hnone.
    rewrite (bind_Returns _ _ _ _ _ (checkFreshness_watched W _ _ rid c Hwatched)).
    rewrite (bind_Returns _ _ _ _ _ Hrun), bind_deref.
    cbn [hashMatches hr_resolveMap hr_worker].
    rewrite (bind_Returns _ _ _ _ _ Htransform). unfold completed. rewrite bind_deref.
    rewrite Hheap3. cbn. rewrite Hsrc2, Hmap2, Hfull2. reflexivity. }
  assert (Hc' : c' = c3) by (subst c'; unfold exec at 1; rewrite Hget; reflexivity).
  rewrite Hc'. split; [exact Hget|]. split.
  - unfold transformsSent in *. rewrite Hsent3. exact Hsent2.
  - rewrite Hheap3. reflexivity.
Qed.

(** A [get] of an idle record of a module that has dependencies, or of
    the legacy variant: the resolve map built for the dependencies is
    sent to the worker in a transform message, that message is the last
    one sent, and what the worker replies to it is what [get] returns,
    under the hash of the source followed by the digest of the
    dependencies and what they resolve to.  The transform slot is empty
    again. *)
Theorem get_of_module_returns_transform
    (P : Platform) (W : World) (filePath : string) (c : Cache) (rid : nat) (src : string)
    (w : nat) (deps : list string) (g : bool) :
  let record := FTC.heap c rid in
  let base := path_dirname P (FTR.path record) in
  let outcome := classify P W (FTR.path record) (FTR.dew record) (FTC.publicDir c) base in
  let pairs := hashedPairs P W (FTR.path record) (FTR.dew record) (FTC.publicDir c) base deps in
  idleRecord c (requestKey filePath) rid ->
  FTR.originalSource record = Some src ->
  endsWith (FTR.path record) ".json" = false ->
  FTR.dew record = true \/ deps <> [] ->
  findFree (FTC.workers c) 0 = Some w ->
  (w < length (FTC.workers c))%nat ->
  cooperative W w ->
  analysesTo P W c rid src w deps ->
  Forall (fun dep => resolvesCleanly (outcome dep)) deps ->
  isGlobalCache W (FTR.path record) = Ok g ->
  let c' := exec (get P W filePath None) c in
  exists (resolveMap : ResolveMap) (data : ReplyData),
    resolveDeps P W (FTR.path record) (FTR.dew record) (FTC.publicDir c) base deps
      (∅, createHash) = Ok (resolveMap, pairs) /\
    last (FTC.sent c') = Some (w, transformMessage (FTR.dew record) (Some resolveMap)) /\
    workerReply W w (FTC.sent c') = WData data /\
    get P W filePath None c
    = Returns (Some (mkGetResult (rd_source data) (rd_sourceMap data)
                       (Some (md5 P src +:+ md5hex P pairs)) g)) c' /\
    FTR.transformPromise (FTC.heap c' rid) = None.
Proof.
  intros record base outcome pairs (Hkey & Hidle & Hnone & Hwatched) Hsrc Hjson Hkind Hfree
    Hlt Hcoop Hanalysis Hclean Hprobe c'.
  subst record base outcome pairs.
  destruct (get_idle_hash_phase P W c rid src w deps Hidle Hnone Hsrc Hjson Hfree Hcoop
              Hanalysis Hclean)
    as (resolveMap & worker & Hmap & Hrun & Hworker & Hlen & _ & _ & Hnone2 & Hpath2 & Hdew2
        & Hsrc2 & Hdeps2 & _ & Hfull2).
  set (c2 := exec (doHash P W rid) c) in *.
  assert (Hprobe2 : isGlobalCache W (FTR.path (FTC.heap c2 rid)) = Ok g)
    by (rewrite Hpath2; exact Hprobe).
  assert (Hsends : sendsTransform (FTC.heap c2 rid)).
  { split; [rewrite Hpath2; exact Hjson|]. rewrite Hdew2, Hdeps2.
    destruct Hkind as [Hdew|Hdeps]; [left; exact Hdew|].
    destruct deps as [|dep deps']; [contradiction|]. right. eauto. }
  set (c0 := exec (update rid (FTR.set_transformPromise (Some Pending))) c2).
  assert (Hobtains : exists c1,
            obtainsWorker P W rid worker c0 w c1 /\
            length (FTC.workers c1) = length (FTC.workers c)).
  { destruct Hworker as [->|[-> Hworkers]].
    - exists c0. split; [split; reflexivity | exact Hlen].
    - exists (primed P rid w c0). split.
      + unfold obtainsWorker. rewrite (assignWorker_free P W rid c0 w).
        * destruct (Hcoop (FTC.sent c0 ++ [(w, sourceMessage P c0 rid)])) as [ack ->].
          reflexivity.
        * change (FTC.workers c0) with (FTC.workers c2). rewrite Hworkers. exact Hfree.
      + unfold primed, exec, setWorker, send, arm, bind, modify. cbn.
        rewrite !length_alter. exact Hlen. }
  destruct Hobtains as (c1 & Hobtains & Hlen1).
  assert (Hlt1 : (w < length (FTC.workers c1))%nat) by (rewrite Hlen1; exact Hlt).
  destruct (Hcoop (FTC.sent c1 ++ [(w, transformMessage (FTR.dew (FTC.heap c2 rid))
                                         (Some resolveMap))])) as [data Hreply].
  destruct (doTransform_stores_reply P W rid (Some resolveMap) worker c2 w c1 data g
              Hnone2 Hsends Hobtains Hlt1 Hreply Hprobe2)
    as (Hsource3 & Hmap3 & Hglobal3 & Hfull3).
  destruct (doTransform_frees_worker P W rid (Some resolveMap) worker c2 w c1
              Hnone2 Hsends Hobtains Hlt1) as (Hnone3 & _ & _ & Hsent3 & Htransform).
  set (c3 := exec (doTransform P W rid (Some resolveMap) worker) c2) in *.
  rewrite <- Hsent3 in Hreply. rewrite Hreply, Hprobe2 in Htransform.
  rewrite Hfull2 in Hfull3.
  assert (Hget : get P W filePath None c
                 = Returns (Some (mkGetResult (rd_source data) (rd_sourceMap data)
                                    (Some (md5 P src +:+
                                           md5hex P (hashedPairs P W
                                             (FTR.path (FTC.heap c rid))
                                             (FTR.dew (FTC.heap c rid)) (FTC.publicDir c)
                                             (path_dirname P (FTR.path (FTC.heap c rid)))
                                             deps))) g)) c3).
  { unfold requestKey in Hkey. unfold get.
    rewrite (bind_Returns _ _ _ _ _ (lookupRecord_existing W _ _ _ rid c Hkey)).
    rewrite bind_deref. rewrite Hidle, Hnone.
    rewrite (bind_Returns _ _ _ _ _ (checkFreshness_watched W _ _ rid c Hwatched)).
    rewrite (bind_Returns _ _ _ _ _ Hrun), bind_deref.
    cbn [hashMatches hr_resolveMap hr_worker].
    rewrite (bind_Returns _ _ _ _ _ Htransform). unfold completed. rewrite bind_deref.
    rewrite Hsource3, Hmap3, Hglobal3, Hfull3. reflexivity. }
  assert (Hc' : c' = c3) by (subst c'; unfold exec at 1; rewrite Hget; reflexivity).
  rewrite Hc'. exists resolveMap, data.
  split; [exact Hmap|]. split.
  - rewrite Hsent3, last_snoc, Hdew2. reflexivity.
  - split; [exact Hreply|]. split; [exact Hget | exact Hnone3].
Qed.

(** ** More properties on the small site *)

(** One watcher allowed, two modules requested. *)
Lemma watchers_never_exceed_limit_witness :
  0 <= 1 /\
  let c := run Scenario.posix
             [(Example.atStart, Get "/pub/a.js" None); (Example.atStart, Get "/pub/b.js" None)]
             (constructor Scenario.posix Example.atStart "/pub" 500 1 false) in
  Z.of_nat (length (FTC.watching c)) <= 1.
Proof.
  split; [lia|].
  exact (watchers_never_exceed_limit Scenario.posix Example.atStart "/pub" 500 1 false
           [(Example.atStart, Get "/pub/a.js" None); (Example.atStart, Get "/pub/b.js" None)]
           ltac:(lia)).
Defined.

(** The text file, asked for again when it has become a module. *)
Lemma rejected_handle_is_replayed_witness :
  let e := Error "Unable to transform module format unknown." in
  let W := Scenario.world 600 (("/pub/notes.txt", "export") :: Example.files) Example.table
             Example.analysis in
  FTC.records Tour.refused !! requestKey "/pub/notes.txt" = Some (Rejected e) /\
  readFile W "/pub/notes.txt" = Ok "export" /\
  get Scenario.posix W "/pub/notes.txt" None Tour.refused = Throws e Tour.refused.
Proof.
  intros e W.
  assert (Hkey : FTC.records Tour.refused !! requestKey "/pub/notes.txt" = Some (Rejected e))
    by (vm_compute; reflexivity).
  split; [exact Hkey|]. split; [vm_compute; reflexivity|].
  exact (rejected_handle_is_replayed Scenario.posix W "/pub/notes.txt" None e Tour.refused Hkey).
Defined.

(** The JSON file without [?dew], asked for again. *)
Lemma null_handle_returns_nothing_witness :
  FTC.records Tour.refused !! requestKey "/pub/a.json" = Some (Fulfilled SlotNull) /\
  get Scenario.posix Example.later "/pub/a.json" None Tour.refused = Returns None Tour.refused.
Proof.
  assert (Hkey : FTC.records Tour.refused !! requestKey "/pub/a.json"
                 = Some (Fulfilled SlotNull)) by (vm_compute; reflexivity).
  split; [exact Hkey|].
  exact (null_handle_returns_nothing Scenario.posix Example.later "/pub/a.json" None
           Tour.refused Hkey).
Defined.

(** [d.js] after its failed hash phase, asked for once it is repaired. *)
Lemma failed_hash_phase_is_replayed_witness :
  let c := Tour.created "/pub/d.js" in
  let e := mkError "Path d.js has a dependency ../other/c.js outside of the public directory."
             (Some "ETRANSFORM") in
  let c1 := exec (doHash Scenario.posix Example.atStart 0) c in
  idleRecord c (requestKey "/pub/d.js") 0 /\
  doHash Scenario.posix Example.atStart 0 c = Throws e c1 /\
  get Scenario.posix Example.later "/pub/d.js" None c1 = Throws e c1.
Proof.
  intros c e c1.
  assert (Hidle : idleRecord c (requestKey "/pub/d.js") 0)
    by (repeat split; vm_compute; reflexivity).
  assert (Hrun : doHash Scenario.posix Example.atStart 0 c = Throws e c1)
    by (exact (throws_exec (doHash Scenario.posix Example.atStart 0) c e
                 ltac:(vm_compute; reflexivity))).
  split; [exact Hidle|]. split; [exact Hrun|].
  exact (failed_hash_phase_is_replayed Scenario.posix Example.atStart 0 c e c1 Example.later
           "/pub/d.js" None Hidle Hrun).
Defined.

(** The text file asked for as a legacy module. *)
Lemma legacy_first_get_goes_by_format_witness :
  let filePath := "/pub/notes.txt?dew" in
  let c' := exec (get Scenario.posix Example.atStart filePath None) Example.fresh in
  let e := withCode "ENOTRANSFORM"
             (Error ("No dew transform for " +:+ show None +:+ " format.")) in
  jspmFormat Example.atStart "/pub/notes.txt" true = Ok None /\
  get Scenario.posix Example.atStart filePath None Example.fresh = Throws e c' /\
  FTC.records c' !! (substr0 filePath (String.length filePath - 4) +:+ "?dew")
    = Some (Rejected e) /\
  FTC.nextRecord c' = FTC.nextRecord Example.fresh.
Proof.
  intros filePath c' e.
  assert (Hformat : jspmFormat Example.atStart "/pub/notes.txt" true = Ok None)
    by (vm_compute; reflexivity).
  split; [exact Hformat|].
  refine (proj2 (legacy_first_get_goes_by_format Scenario.posix Example.atStart filePath None
                   Example.fresh None ltac:(vm_compute; reflexivity)
                   ltac:(vm_compute; reflexivity) Hformat) _ _); discriminate.
Defined.

(** A module that does not exist, asked of an instance that has no
    watcher to give. *)
Lemma first_get_not_found_witness :
  let c' := exec (get Scenario.posix Example.atStart "/pub/missing.js" None) Tour.unwatching in
  readFile Example.atStart "/pub/missing.js" = Err Scenario.ENOENT /\
  get Scenario.posix Example.atStart "/pub/missing.js" None Tour.unwatching
    = Throws (withCode "ENOTFOUND" Scenario.ENOENT) c' /\
  FTC.records c' !! requestKey "/pub/missing.js"
    = Some (Rejected (withCode "ENOTFOUND" Scenario.ENOENT)) /\
  FTC.nextRecord c' = S (FTC.nextRecord Tour.unwatching).
Proof.
  intros c'.
  assert (Hread : readFile Example.atStart "/pub/missing.js" = Err Scenario.ENOENT)
    by (vm_compute; reflexivity).
  split; [exact Hread|].
  exact (first_get_not_found Scenario.posix Example.atStart "/pub/missing.js" None
           Tour.unwatching (Some "esm") Scenario.ENOENT
           ltac:(vm_compute; reflexivity) ltac:(vm_compute; reflexivity)
           ltac:(vm_compute; reflexivity) ltac:(left; vm_compute; reflexivity) Hread).
Defined.

(** The same module asked of an instance that tries to watch it. *)
Lemma first_get_watch_error_witness :
  let c' := exec (get Scenario.posix Example.atStart "/pub/missing.js" None) Example.fresh in
  fsWatch Example.atStart "/pub/missing.js" = Err Scenario.ENOENT /\
  get Scenario.posix Example.atStart "/pub/missing.js" None Example.fresh
    = Throws Scenario.ENOENT c' /\
  FTC.records c' !! requestKey "/pub/missing.js" = Some (Rejected Scenario.ENOENT) /\
  FTC.watching c' = FTC.watching Example.fresh.
Proof.
  intros c'.
  assert (Hwatch : fsWatch Example.atStart "/pub/missing.js" = Err Scenario.ENOENT)
    by (vm_compute; reflexivity).
  split; [exact Hwatch|].
  exact (first_get_watch_error Scenario.posix Example.atStart "/pub/missing.js" None
           Example.fresh (Some "esm") Scenario.ENOENT
           ltac:(vm_compute; reflexivity) ltac:(vm_compute; reflexivity)
           ltac:(vm_compute; reflexivity) ltac:(vm_compute; discriminate) Hwatch).
Defined.

(** ** Where the claims stop holding *)


(** C4 where the record does not recover.  [d.js] reaches out of [/pub],
    and the request fails with the [ETRANSFORM] error that names the
    dependency; the worker that analysed the module stays bound to the
    record.  On an instance with a single worker, once the file no longer
    reaches out, the hash phase of the watcher event waits in the queue
    for that worker, and the request after the edit waits for that hash
    phase: it gets no answer.  On an instance that watches nothing, the
    edit is not read: the request after it throws the same error, the
    record still holding the old source. *)
Theorem outside_dependency_failure_is_not_recovered :
  let e := withCode "ETRANSFORM"
             (Error "Path d.js has a dependency ../other/c.js outside of the public directory.") in
  readFile Example.later "/pub/d.js" = Ok "import b" /\
  (let c1 := exec (get Tour.singleCore Example.atStart "/pub/d.js" None) Tour.lone in
   let c2 := run Tour.singleCore
               [(Example.later, TimeoutFires 0); (Example.later, WatchEvent 0 "change")] c1 in
   get Tour.singleCore Example.atStart "/pub/d.js" None Tour.lone = Throws e c1 /\
   TW.record <$> FTC.workers c1 = [Some 0%nat] /\
   FTR.hashPromise (FTC.heap c2 0) = Some Pending /\
   FTR.originalSource (FTC.heap c2 0) = Some "import b" /\
   TW.record <$> FTC.workers c2 = [Some 0%nat] /\
   waiter_record <$> FTC.transformQueue c2 = [0%nat] /\
   result (get Tour.singleCore Example.later "/pub/d.js" None c2) = None) /\
  (let c1 := run Scenario.posix
               [(Example.atStart, Get "/pub/d.js" None); (Example.later, TimeoutFires 0)]
               Tour.unwatching in
   let c2 := exec (get Scenario.posix Example.later "/pub/d.js" None) c1 in
   result (get Scenario.posix Example.atStart "/pub/d.js" None Tour.unwatching) = Some (Err e) /\
   FTR.watching (FTC.heap c1 0) = false /\
   FTR.hashPromise (FTC.heap c1 0) = None /\
   get Scenario.posix Example.later "/pub/d.js" None c1 = Throws e c2 /\
   FTR.originalSource (FTC.heap c2 0) = Some "import c").
Proof.
  intros e. split; [vm_compute; reflexivity|]. split.
  - intros c1 c2. split.
    { exact (throws_exec (get Tour.singleCore Example.atStart "/pub/d.js" None) Tour.lone e
               ltac:(vm_compute; reflexivity)). }
    split; [vm_compute; reflexivity|]. split; [vm_compute; reflexivity|].
    split; [vm_compute; reflexivity|]. split; [vm_compute; reflexivity|].
    split; vm_compute; reflexivity.
  - intros c1 c2. split; [vm_compute; reflexivity|].
    split; [vm_compute; reflexivity|]. split; [vm_compute; reflexivity|]. split.
    { exact (throws_exec (get Scenario.posix Example.later "/pub/d.js" None) c1 e
               ltac:(vm_compute; reflexivity)). }
    vm_compute. reflexivity.
Qed.

(** C7 when the worker refuses the analysis.  The record of [bad.js] is
    created with its source and no [originalSourceHash]; the first
    request fails with the worker's error; [originalSourceHash] is then
    the hash of the source, [deps] is still undefined, and the worker
    stays bound to the record.  After the cleanup timeout, the request
    for the unchanged file takes the source for analysed: no message is
    sent, and it throws the [TypeError] of the loop over [deps]. *)
Theorem refused_analysis_is_not_retried :
  let refusal := withCode "ETRANSFORM" (Error "cannot parse import (") in
  let c0 := exec (lookupRecord (Tour.broken 0) "/pub/bad.js" false "") Example.fresh in
  let c1 := exec (get Scenario.posix (Tour.broken 0) "/pub/bad.js" None) Example.fresh in
  let c2 := run Scenario.posix [(Tour.broken 600, TimeoutFires 0)] c1 in
  let c3 := exec (get Scenario.posix (Tour.broken 600) "/pub/bad.js" None) c2 in
  (FTR.originalSource (FTC.heap c0 0) = Some "import (" /\
   FTR.originalSourceHash (FTC.heap c0 0) = None) /\
  get Scenario.posix (Tour.broken 0) "/pub/bad.js" None Example.fresh = Throws refusal c1 /\
  FTR.originalSource (FTC.heap c1 0) = Some "import (" /\
  FTR.originalSourceHash (FTC.heap c1 0) = Some (md5 Scenario.posix "import (") /\
  FTR.deps (FTC.heap c1 0) = None /\
  TW.record <$> FTC.workers c1 = [Some 0%nat; None] /\
  FTR.hashPromise (FTC.heap c2 0) = None /\
  get Scenario.posix (Tour.broken 600) "/pub/bad.js" None c2
  = Throws (TypeError "record.deps is not iterable") c3 /\
  FTC.sent c3 = FTC.sent c1 /\
  FTR.deps (FTC.heap c3 0) = None.
Proof.
  intros refusal c0 c1 c2 c3. split; [split; vm_compute; reflexivity|]. split.
  { exact (throws_exec (get Scenario.posix (Tour.broken 0) "/pub/bad.js" None) Example.fresh
             refusal ltac:(vm_compute; reflexivity)). }
  split; [vm_compute; reflexivity|]. split; [vm_compute; reflexivity|].
  split; [vm_compute; reflexivity|]. split; [vm_compute; reflexivity|].
  split; [vm_compute; reflexivity|]. split.
  { exact (throws_exec (get Scenario.posix (Tour.broken 600) "/pub/bad.js" None) c2
             (TypeError "record.deps is not iterable") ltac:(vm_compute; reflexivity)). }
  split; vm_compute; reflexivity.
Qed.

(** The JSON file edited after it was served. *)
Lemma json_edit_is_never_served_witness :
  let c := Tour.servedJsonIdle in
  let c1 := exec (onWatchEvent Scenario.posix Example.later 0 "change") c in
  FTR.source (FTC.heap c 0) = Some (jsonWrapper +:+ "[1, 2]") /\
  readFile Example.later (FTR.path (FTC.heap c 0)) = Ok "[3]" /\
  FTR.originalSource (FTC.heap c1 0) = Some "[3]" /\
  FTR.fullHash (FTC.heap c1 0) = Some (md5 Scenario.posix "[3]") /\
  FTR.source (FTC.heap c1 0) = FTR.source (FTC.heap c 0) /\
  get Scenario.posix Example.later "/pub/a.json?dew" None c1
  = Returns (Some (mkGetResult (FTR.source (FTC.heap c 0)) (FTR.sourceMap (FTC.heap c 0))
                     (Some (md5 Scenario.posix "[3]")) (FTR.isGlobalCache (FTC.heap c 0))))
      c1.
Proof.
  intros c c1.
  assert (Hsource : FTR.source (FTC.heap c 0) = Some (jsonWrapper +:+ "[1, 2]"))
    by (vm_compute; reflexivity).
  assert (Hread : readFile Example.later (FTR.path (FTC.heap c 0)) = Ok "[3]")
    by (vm_compute; reflexivity).
  split; [exact Hsource|]. split; [exact Hread|].
  exact (json_edit_is_never_served Scenario.posix Example.later Example.later
           "/pub/a.json?dew" 0 c "[3]"
           ltac:(vm_compute; reflexivity) ltac:(vm_compute; reflexivity)
           ltac:(vm_compute; reflexivity) ltac:(vm_compute; reflexivity) Hread).
Defined.

(** [b.js] edited after it was served: it now imports [b]. *)
Lemma edit_of_served_module_keeps_source_and_worker_witness :
  let c := Tour.servedPlainIdle in
  let c1 := exec (onWatchEvent Scenario.posix Tour.plainEdited 0 "change") c in
  FTR.source (FTC.heap c 0) = Some "export" /\
  readFile Tour.plainEdited (FTR.path (FTC.heap c 0)) = Ok "import b" /\
  FTR.originalSource (FTC.heap c1 0) = Some "import b" /\
  FTR.source (FTC.heap c1 0) = FTR.source (FTC.heap c 0) /\
  TW.record <$> (FTC.workers c1 !! 0%nat) = Some (Some 0%nat).
Proof.
  intros c c1.
  assert (Hsource : FTR.source (FTC.heap c 0) = Some "export") by (vm_compute; reflexivity).
  assert (Hread : readFile Tour.plainEdited (FTR.path (FTC.heap c 0)) = Ok "import b")
    by (vm_compute; reflexivity).
  split; [exact Hsource|]. split; [exact Hread|].
  destruct (edit_of_served_module_keeps_source_and_worker Scenario.posix Tour.plainEdited 0 c
              "import b" 0%nat (mkReplyData None None None) (mkReplyData (Some ["b"]) None None)
              ["b"]
              ltac:(vm_compute; reflexivity) ltac:(vm_compute; reflexivity)
              ltac:(vm_compute; reflexivity) Hread ltac:(vm_compute; discriminate)
              ltac:(vm_compute; reflexivity) ltac:(vm_compute; lia)
              ltac:(vm_compute; reflexivity) ltac:(vm_compute; reflexivity) eq_refl)
    as (_ & Hsrc & _ & Hkept & Hbound).
  - apply List.Forall_cons; [vm_compute; exact I | apply List.Forall_nil].
  - vm_compute. discriminate.
  - split; [exact Hsrc|]. split; [exact Hkept | exact Hbound].
Defined.

(** The directory [/pub] on the reference platform. *)
Lemma publicDir_ends_with_slash_witness :
  path_sep Scenario.posix = "/" /\
  lastChar (FTC.publicDir (constructor Scenario.posix Example.atStart "/pub" 500 10 false))
  = Some "/"%char.
Proof.
  split; [reflexivity|].
  exact (publicDir_ends_with_slash Scenario.posix Example.atStart "/pub" 500 10 false
           (or_introl eq_refl)).
Defined.

(** [f.js]: the resolver knows [b], not [zzz]; [c] is never looked at. *)
Lemma resolve_map_fails_at_first_failure_witness :
  FTR.deps (FTC.heap Tour.unresolved 0) = Some (["b"] ++ "zzz" :: ["c"]) /\
  getResolveMap Scenario.posix Tour.withUnknown 0 Tour.unresolved
  = Throws (mkError "Cannot find module zzz" (Some "MODULE_NOT_FOUND")) Tour.unresolved.
Proof.
  assert (Hdeps : FTR.deps (FTC.heap Tour.unresolved 0) = Some (["b"] ++ "zzz" :: ["c"]))
    by (vm_compute; reflexivity).
  split; [exact Hdeps|].
  refine (resolve_map_fails_at_first_failure Scenario.posix Tour.withUnknown 0 Tour.unresolved
            ["b"] "zzz" ["c"] _ Hdeps _ ltac:(vm_compute; reflexivity)).
  apply List.Forall_cons; [vm_compute; exact I | apply List.Forall_nil].
Defined.

(** The first request for [b.js], once its record is created. *)
Lemma get_of_plain_module_returns_source_witness :
  let c := Tour.created "/pub/b.js" in
  let c' := exec (get Scenario.posix Example.atStart "/pub/b.js" None) c in
  idleRecord c (requestKey "/pub/b.js") 0 /\
  FTR.originalSource (FTC.heap c 0) = Some "export" /\
  get Scenario.posix Example.atStart "/pub/b.js" None c
  = Returns (Some (mkGetResult (Some "export") (FTR.sourceMap (FTC.heap c 0))
                     (Some (md5 Scenario.posix "export" +:+ md5hex Scenario.posix "")) false))
      c' /\
  transformsSent c' = transformsSent c /\
  FTR.transformPromise (FTC.heap c' 0) = Some (Fulfilled tt).
Proof.
  intros c c'.
  assert (Hidle : idleRecord c (requestKey "/pub/b.js") 0)
    by (repeat split; vm_compute; reflexivity).
  assert (Hsrc : FTR.originalSource (FTC.heap c 0) = Some "export")
    by (vm_compute; reflexivity).
  split; [exact Hidle|]. split; [exact Hsrc|].
  refine (get_of_plain_module_returns_source Scenario.posix Example.atStart "/pub/b.js" c 0
            "export" 0%nat false Hidle Hsrc ltac:(vm_compute; reflexivity)
            ltac:(vm_compute; reflexivity) ltac:(vm_compute; reflexivity) _ _
            ltac:(vm_compute; reflexivity)).
  - intros log. change (exists data, Example.obliging 0 log = WData data).
    unfold Example.obliging.
    destruct (Scenario.worker Example.analysis 0 log) as [data|data]; eexists; reflexivity.
  - right. split; [vm_compute; discriminate|].
    exists (mkReplyData (Some []) None None). split; vm_compute; reflexivity.
Defined.

(** The first request for [a.js], once its record is created. *)
Lemma get_of_module_returns_transform_witness :
  let c := Tour.created "/pub/a.js" in
  let c' := exec (get Scenario.posix Example.atStart "/pub/a.js" None) c in
  idleRecord c (requestKey "/pub/a.js") 0 /\
  FTR.originalSource (FTC.heap c 0) = Some "import b, fs, ./b.js" /\
  exists (resolveMap : ResolveMap) (data : ReplyData),
    resolveMap !! "b" = Some (Some "./b.js") /\
    last (FTC.sent c') = Some (0%nat, transformMessage false (Some resolveMap)) /\
    workerReply Example.atStart 0 (FTC.sent c') = WData data /\
    rd_source data = Some "/*transform-esm*/import b, fs, ./b.js" /\
    get Scenario.posix Example.atStart "/pub/a.js" None c
    = Returns (Some (mkGetResult (rd_source data) (rd_sourceMap data)
                       (Some "1edc557468ec3725515071b9b4c695a8d8654afcd0d4c6c4de044a47d9027a5d")
                       false)) c'.
Proof.
  intros c c'.
  assert (Hidle : idleRecord c (requestKey "/pub/a.js") 0)
    by (repeat split; vm_compute; reflexivity).
  assert (Hsrc : FTR.originalSource (FTC.heap c 0) = Some "import b, fs, ./b.js")
    by (vm_compute; reflexivity).
  split; [exact Hidle|]. split; [exact Hsrc|].
  destruct (get_of_module_returns_transform Scenario.posix Example.atStart "/pub/a.js" c 0
              "import b, fs, ./b.js" 0%nat ["b"; "fs"; "./b.js"] false Hidle Hsrc
              ltac:(vm_compute; reflexivity) ltac:(right; discriminate)
              ltac:(vm_compute; reflexivity) ltac:(vm_compute; lia))
    as (resolveMap & data & Hmap & Hlast & Hreply & Hget & _).
  - intros log. change (exists data, Example.obliging 0 log = WData data).
    unfold Example.obliging.
    destruct (Scenario.worker Example.analysis 0 log) as [data|data]; eexists; reflexivity.
  - right. split; [vm_compute; discriminate|].
    exists (mkReplyData (Some ["b"; "fs"; "./b.js"]) None None). split; vm_compute; reflexivity.
  - apply List.Forall_cons; [vm_compute; exact I|].
    apply List.Forall_cons; [vm_compute; exact I|].
    apply List.Forall_cons; [vm_compute; exact I | apply List.Forall_nil].
  - vm_compute. reflexivity.
  - exists resolveMap, data.
    assert (Hb : resolveMap !! "b" = Some (Some "./b.js")).
    { assert (Hvalue : forall r : Settled (ResolveMap * string),
                r = Ok (resolveMap, hashedPairs Scenario.posix Example.atStart
                          (FTR.path (FTC.heap c 0)) (FTR.dew (FTC.heap c 0)) (FTC.publicDir c)
                          (path_dirname Scenario.posix (FTR.path (FTC.heap c 0)))
                          ["b"; "fs"; "./b.js"]) ->
                match r with Ok (m, _) => m !! "b" | Err _ => None end = resolveMap !! "b")
        by (intros r ->; reflexivity).
      rewrite <- (Hvalue _ Hmap). vm_compute. reflexivity. }
    assert (Hsource : rd_source data = Some "/*transform-esm*/import b, fs, ./b.js").
    { assert (Hvalue : forall r, r = WData data ->
                match r with WData d => rd_source d | WError _ => None end = rd_source data)
        by (intros r ->; reflexivity).
      rewrite <- (Hvalue _ Hreply). vm_compute. reflexivity. }
    split; [exact Hb|]. split; [exact Hlast|]. split; [exact Hreply|].
    split; [exact Hsource|]. rewrite Hget.
    apply (f_equal (fun h => Returns (Some (mkGetResult (rd_source data) (rd_sourceMap data)
                                              (Some h) false)) c')).
    vm_compute. reflexivity.
Defined.

(** The first request for [a.js] on a new instance. *)
Lemma first_get_creates_idle_record_witness :
  let c := Example.fresh in
  let c1 := exec (lookupRecord Example.atStart (requestPath "/pub/a.js") false "") c in
  readFile Example.atStart (requestPath "/pub/a.js") = Ok "import b, fs, ./b.js" /\
  get Scenario.posix Example.atStart "/pub/a.js" None c
    = get Scenario.posix Example.atStart "/pub/a.js" None c1 /\
  idleRecord c1 (requestKey "/pub/a.js") 0 /\
  FTC.watching c1 = FTC.watching c ++ [0%nat].
Proof.
  intros c c1.
  assert (Hread : readFile Example.atStart (requestPath "/pub/a.js")
                  = Ok "import b, fs, ./b.js") by (vm_compute; reflexivity).
  split; [exact Hread|].
  destruct (first_get_creates_idle_record Scenario.posix Example.atStart "/pub/a.js" None c
              (Some "esm") "import b, fs, ./b.js"
              ltac:(vm_compute; reflexivity) ltac:(vm_compute; reflexivity)
              ltac:(vm_compute; reflexivity) ltac:(vm_compute; discriminate)
              ltac:(vm_compute; reflexivity) Hread)
    as (Hget & Hidle & _ & Hwatching & _).
  split; [exact Hget|]. split; [exact Hidle | exact Hwatching].
Defined.

(** ** File URLs *)

Lemma replaceFirst_slash s : Common.replaceFirst "/" "/" s = s.
Proof.
  induction s as [|c rest IH]; [reflexivity|].
  cbn [Common.replaceFirst String.prefix].
  destruct (ascii_dec "/" c) as [<-|Hne].
  - destruct rest; reflexivity.
  - f_equal. exact IH.
Qed.

Lemma replaceFirst_no_backslash r s :
  Common.replaceFirst "\" r (replaceWinSep s) = replaceWinSep s.
Proof.
  induction s as [|c rest IH]; [reflexivity|].
  cbn [replaceWinSep Common.replaceFirst String.prefix].
  destruct (ascii_dec "\" (if Ascii.eqb c "\" then "/" else c)%char) as [Heq|_].
  - destruct (Ascii.eqb_spec c "\"%char) as [->|Hne]; [discriminate | congruence].
  - f_equal. exact IH.
Qed.

Lemma substr0_append p s : substr0 (p +:+ s) (String.length p) = p.
Proof.
  unfold substr0. induction p as [|c p IH]; [destruct s; reflexivity|].
  cbv [String.append]. fold String.append. cbn. f_equal. exact IH.
Qed.

(** A path made a file URL and read back is the path with every backslash
    turned into a slash, on either kind of platform: [fromFileURL] undoes
    [toFileURL] on paths without backslashes, and never gives the
    backslashes of a Windows path back. *)
Theorem fromFileURL_toFileURL (P : Platform) (path : string) :
  path_sep P = "/" \/ path_sep P = "\" ->
  Common.fromFileURL P (Common.toFileURL P path) = replaceWinSep path.
Proof.
  intros Hsep. unfold Common.fromFileURL, Common.toFileURL.
  rewrite (substr0_append "file://"). rewrite String.eqb_refl.
  destruct (isWindows P); cbv [String.append]; cbn [Common.substrFrom];
    (destruct Hsep as [-> | ->];
     [apply replaceFirst_slash | apply replaceFirst_no_backslash]).
Qed.

Lemma fromFileURL_toFileURL_witness :
  path_sep Scenario.posix = "/" /\
  Common.fromFileURL Scenario.posix (Common.toFileURL Scenario.posix "/srv\site\a.js")
  = "/srv/site/a.js".
Proof.
  split; [reflexivity|].
  exact (fromFileURL_toFileURL Scenario.posix "/srv\site\a.js" (or_introl eq_refl)).
Defined.

(** ** File names *)

Lemma firstMatch_none s i :
  Common.firstMatch s i 0 = None -> Common.replaceInvalid s = s.
Proof.
  revert i. induction s as [|c rest IH]; intros i; [reflexivity|].
  cbn [Common.firstMatch Common.replaceInvalid]. cbn [Nat.leb andb].
  destruct (Common.invalidFileChar c); [discriminate|].
  intros H. cbn. f_equal. exact (IH _ H).
Qed.

(** Called with the shared regex at rest, [encodeInvalidFileChars] returns
    the string with every character of the class replaced, and leaves the
    regex at rest: the [test] in front of the [replace] is a shortcut
    only, and the [lastIndex] it moves never reaches the next call. *)
Theorem encodeInvalidFileChars_is_replace (str : string) :
  Common.encodeInvalidFileChars str 0 = (Common.replaceInvalid str, O).
Proof.
  unfold Common.encodeInvalidFileChars, Common.test.
  destruct (Common.firstMatch str 0 0) as [i|] eqn:Hmatch; cbn; [reflexivity|].
  rewrite (firstMatch_none _ _ Hmatch). reflexivity.
Qed.

Lemma unescape_encoded c rest : unescape (encoded c +:+ rest) = String c (unescape rest).
Proof. destruct c as [[] [] [] [] [] [] [] []]; reflexivity. Qed.

Lemma unescape_replaceInvalid s : unescape (Common.replaceInvalid s) = s.
Proof.
  induction s as [|c rest IH]; [reflexivity|].
  change (Common.replaceInvalid (String c rest))
    with (encoded c +:+ Common.replaceInvalid rest).
  rewrite unescape_encoded, IH. reflexivity.
Qed.

(** Two names with the same encoding are the same name: the percent sign
    is in the class (it lies in the range), so every percent sign of an
    encoded name starts an escape. *)
Theorem encodeInvalidFileChars_injective (s t : string) :
  fst (Common.encodeInvalidFileChars s 0) = fst (Common.encodeInvalidFileChars t 0) ->
  s = t.
Proof.
  rewrite !encodeInvalidFileChars_is_replace. cbn [fst]. intros H.
  rewrite <- (unescape_replaceInvalid s), <- (unescape_replaceInvalid t), H. reflexivity.
Qed.

Lemma encodeInvalidFileChars_injective_witness :
  fst (Common.encodeInvalidFileChars "a/b c" 0) = "a%2Fb%20c" /\ "a/b c" = "a/b c".
Proof.
  split; [reflexivity|].
  exact (encodeInvalidFileChars_injective "a/b c" "a/b c" eq_refl).
Defined.

Lemma list_ascii_of_string_append a b :
  list_ascii_of_string (a +:+ b) = list_ascii_of_string a ++ list_ascii_of_string b.
Proof.
  induction a as [|c a IH]; [reflexivity|].
  cbv [String.append]. fold String.append. cbn. f_equal. exact IH.
Qed.

Lemma encoded_harmless c : forallb harmless (list_ascii_of_string (encoded c)) = true.
Proof. destruct c as [[] [] [] [] [] [] [] []]; reflexivity. Qed.

(** An encoded name holds no [<], [>], [:], double quote, [/], bar, [?],
    [*] or [^], no space and no control character from U+0001 on.  Of
    the class only the percent sign of the escapes is left, and the
    characters of its range that [encodeURIComponent] does not escape:
    [!], ['], [(], [)], [-], [.], [0] and [1]. *)
Theorem encoded_name_is_harmless (str : string) :
  forallb harmless (list_ascii_of_string (fst (Common.encodeInvalidFileChars str 0))) = true.
Proof.
  rewrite encodeInvalidFileChars_is_replace. cbn [fst].
  induction str as [|c rest IH]; [reflexivity|].
  change (Common.replaceInvalid (String c rest))
    with (encoded c +:+ Common.replaceInvalid rest).
  rewrite list_ascii_of_string_append, forallb_app, encoded_harmless, IH. reflexivity.
Qed.
